(** * qtest_robotframework: the orchestration layer of the qTest client

    A shallow embedding of [qtest_api.py] (class [QTestAPI]),
    [qtest_manager.py] (class [QTestManager]) and of the step-log keywords
    of [qtest_robot_library.py], with the properties of the specification
    stated and settled over it.

    Conventions of the embedding.
    - JSON values and the Python objects built from them are values of
      [pyval]. Floats are left out: no operation below produces one, and
      the platform identifies everything by integers and strings.
    - A [dict] is an association list in insertion order with unique keys,
      as Python dictionaries are; keys are strings (JSON objects).
    - Strings are byte strings; [str.upper], [str.lower] and [str.strip]
      are modelled on ASCII text.
    - Code that raises returns [Raise e]; the manager's state and the
      remote platform are threaded explicitly (monad [M]).
    - Logging is not modelled: it has no effect on any value computed. *)

From Stdlib Require Import ZArith Ascii String List Lia Bool DecimalString.
From stdpp Require Import base list.
Import ListNotations.
Set Warnings "-register-all".
Open Scope string_scope.
Open Scope Z_scope.

(** ** Python values

    The values of the JSON bodies and of the keywords' arguments: [None],
    booleans, integers, text, lists and objects. A number with a
    fraction (a Python [float], which [int()] truncates) is not among
    them: a statement about numbers is a statement about integers. *)

Inductive pyval : Type :=
| PNone
| PBool (b : bool)
| PInt (n : Z)
| PStr (s : string)
| PList (l : list pyval)
| PDict (d : list (string * pyval)).

Abbreviation dict := (list (string * pyval)).

Inductive exn : Type :=
| TypeError (msg : string)
| ValueError (msg : string)
| KeyError (key : string)
| AttributeError (msg : string)
| RequestException (msg : string).

(** The outcome of a call: a value, a raised exception, or [Diverge] when a
    [while True] loop was cut off by its fuel (only [list_test_cases] has
    such a loop). *)
Inductive res (A : Type) : Type :=
| Ret (a : A)
| Raise (e : exn)
| Diverge.
Arguments Ret {A} a.
Arguments Raise {A} e.
Arguments Diverge {A}.

(** Sequencing of pure computations that may raise. *)
Definition and_then {A B} (r : res A) (k : A -> res B) : res B :=
  match r with
  | Ret a => k a
  | Raise e => Raise e
  | Diverge => Diverge
  end.

Declare Scope res_scope.
Delimit Scope res_scope with res.
Notation "x <~ r ;; k" := (and_then r (fun x => k))
  (at level 100, r at next level, right associativity) : res_scope.
Open Scope res_scope.

Fixpoint map_res {A B} (f : A -> res B) (l : list A) : res (list B) :=
  match l with
  | [] => Ret []
  | x :: l' => y <~ f x ;; ys <~ map_res f l' ;; Ret (y :: ys)
  end.

Module Py.

(** *** Dictionaries *)

Fixpoint get (k : string) (d : dict) : option pyval :=
  match d with
  | [] => None
  | (k', v) :: d' => if String.eqb k k' then Some v else get k d'
  end.

(** [d[k] = v]: an existing key keeps its place, a new key goes last. *)
Fixpoint set (k : string) (v : pyval) (d : dict) : dict :=
  match d with
  | [] => [(k, v)]
  | (k', v') :: d' =>
      if String.eqb k k' then (k', v) :: d' else (k', v') :: set k v d'
  end.

Definition keys (d : dict) : list string := map fst d.

Definition contains (k : string) (d : dict) : bool :=
  match get k d with Some _ => true | None => false end.

(** [d.get(k)] *)
Definition get_or_none (k : string) (d : dict) : pyval :=
  match get k d with Some v => v | None => PNone end.

(** [d.get(k, default)] *)
Definition get_default (k : string) (default : pyval) (d : dict) : pyval :=
  match get k d with Some v => v | None => default end.

(** [d[k]] *)
Definition subscript (k : string) (d : dict) : res pyval :=
  match get k d with Some v => Ret v | None => Raise (KeyError k) end.

(** *** Truth values, [or], [is None] *)

Definition truthy (v : pyval) : bool :=
  match v with
  | PNone => false
  | PBool b => b
  | PInt n => negb (n =? 0)
  | PStr s => negb (String.eqb s "")
  | PList l => match l with [] => false | _ => true end
  | PDict d => match d with [] => false | _ => true end
  end.

Definition or_ (a b : pyval) : pyval := if truthy a then a else b.

Definition is_none (v : pyval) : bool :=
  match v with PNone => true | _ => false end.

Definition type_name (v : pyval) : string :=
  match v with
  | PNone => "NoneType"
  | PBool _ => "bool"
  | PInt _ => "int"
  | PStr _ => "str"
  | PList _ => "list"
  | PDict _ => "dict"
  end.

(** *** Characters and strings *)

Definition is_space (c : ascii) : bool :=
  let n := N_of_ascii c in
  ((9 <=? n) && (n <=? 13) || (28 <=? n) && (n <=? 32))%N.

(** C [isspace], which [int()] uses on ASCII text. *)
Definition is_c_space (c : ascii) : bool :=
  let n := N_of_ascii c in
  ((9 <=? n) && (n <=? 13) || (n =? 32))%N.

Definition upper_char (c : ascii) : ascii :=
  let n := N_of_ascii c in
  if ((97 <=? n) && (n <=? 122))%N then ascii_of_N (n - 32) else c.

Definition lower_char (c : ascii) : ascii :=
  let n := N_of_ascii c in
  if ((65 <=? n) && (n <=? 90))%N then ascii_of_N (n + 32) else c.

Fixpoint map_string (f : ascii -> ascii) (s : string) : string :=
  match s with
  | EmptyString => EmptyString
  | String c s' => String (f c) (map_string f s')
  end.

Definition upper : string -> string := map_string upper_char.
Definition lower : string -> string := map_string lower_char.

(** Text in the ASCII range. On such text [upper], [lower] and [strip]
    are Python's [str.upper], [str.lower] and [str.strip]. Outside it
    Python also maps letters ([str.upper] turns [ß] into [SS]) and strips
    more kinds of white space, where these functions leave the bytes as
    they are: a property that depends on the letter case of a text is
    stated for ASCII text. *)
Fixpoint is_ascii (s : string) : bool :=
  match s with
  | EmptyString => true
  | String c s' => (N_of_ascii c <? 128)%N && is_ascii s'
  end.

Fixpoint lstrip_by (sp : ascii -> bool) (s : string) : string :=
  match s with
  | EmptyString => EmptyString
  | String c s' => if sp c then lstrip_by sp s' else s
  end.

Fixpoint rstrip_by (sp : ascii -> bool) (s : string) : string :=
  match s with
  | EmptyString => EmptyString
  | String c s' =>
      let r := rstrip_by sp s' in
      if sp c && String.eqb r "" then EmptyString else String c r
  end.

Definition strip (s : string) : string := lstrip_by is_space (rstrip_by is_space s).

Fixpoint mem_char (c : ascii) (s : string) : bool :=
  match s with
  | EmptyString => false
  | String c' s' => Ascii.eqb c c' || mem_char c s'
  end.

Fixpoint join (sep : string) (l : list string) : string :=
  match l with
  | [] => ""
  | [x] => x
  | x :: l' => x ++ sep ++ join sep l'
  end.

(** *** [str()] and [repr()] *)

Definition str_of_Z (n : Z) : string := NilZero.string_of_int (Z.to_int n).

Definition hex_digit (n : N) : ascii :=
  if (n <? 10)%N then ascii_of_N (48 + n) else ascii_of_N (87 + n).

Definition repr_char (quote : ascii) (c : ascii) : string :=
  let n := N_of_ascii c in
  if Ascii.eqb c quote || Ascii.eqb c "\"%char then String "\"%char (String c "")
  else if (n =? 9)%N then "\t"
  else if (n =? 10)%N then "\n"
  else if (n =? 13)%N then "\r"
  else if ((n <? 32) || (n =? 127))%N then
    String "\"%char (String "x"%char
      (String (hex_digit (n / 16)) (String (hex_digit (n mod 16)) "")))
  else String c "".

Fixpoint repr_chars (quote : ascii) (s : string) : string :=
  match s with
  | EmptyString => EmptyString
  | String c s' => repr_char quote c ++ repr_chars quote s'
  end.

Definition squote : ascii := "'"%char.
Definition dquote : ascii := ascii_of_N 34.

Definition repr_str (s : string) : string :=
  let q := if mem_char squote s && negb (mem_char dquote s) then dquote else squote in
  String q (repr_chars q s ++ String q "").

Fixpoint repr (v : pyval) : string :=
  match v with
  | PNone => "None"
  | PBool true => "True"
  | PBool false => "False"
  | PInt n => str_of_Z n
  | PStr s => repr_str s
  | PList l => "[" ++ join ", " (map repr l) ++ "]"
  | PDict d =>
      "{" ++ join ", " (map (fun kv => repr_str (fst kv) ++ ": " ++ repr (snd kv)) d) ++ "}"
  end.

Definition str (v : pyval) : string :=
  match v with
  | PStr s => s
  | _ => repr v
  end.

(** [str(e)] of a raised exception. *)
Definition exn_str (e : exn) : string :=
  match e with
  | TypeError m | ValueError m | AttributeError m | RequestException m => m
  | KeyError k => repr_str k
  end.

(** *** [int()]

    [int()] of the values modelled. A [float], which [int()] truncates
    towards zero, is not among them. *)

Definition digit_of (c : ascii) : option Z :=
  let n := N_of_ascii c in
  if ((48 <=? n) && (n <=? 57))%N then Some (Z.of_N (n - 48)) else None.

(** Decimal digits, single underscores allowed between digits. The limit
    Python 3.11 puts on the number of digits is not modelled. *)
Fixpoint parse_digits (s : string) (acc : Z) (after_digit : bool) : option Z :=
  match s with
  | EmptyString => if after_digit then Some acc else None
  | String c s' =>
      match digit_of c with
      | Some d => parse_digits s' (10 * acc + d) true
      | None =>
          if Ascii.eqb c "_"%char && after_digit then parse_digits s' acc false
          else None
      end
  end.

Definition parse_int (s : string) : option Z :=
  match lstrip_by is_c_space (rstrip_by is_c_space s) with
  | String "+" s' => parse_digits s' 0 false
  | String "-" s' => option_map Z.opp (parse_digits s' 0 false)
  | s' => parse_digits s' 0 false
  end.

Definition int (v : pyval) : res Z :=
  match v with
  | PInt n => Ret n
  | PBool b => Ret (if b then 1 else 0)
  | PStr s =>
      match parse_int s with
      | Some n => Ret n
      | None =>
          Raise (ValueError ("invalid literal for int() with base 10: " ++ repr_str s))
      end
  | _ =>
      Raise (TypeError
        ("int() argument must be a string, a bytes-like object or a real number, not "
         ++ repr_str (type_name v)))
  end.

(** [len(v)] *)
Definition len (v : pyval) : res Z :=
  match v with
  | PList l => Ret (Z.of_nat (List.length l))
  | PDict d => Ret (Z.of_nat (List.length d))
  | PStr s => Ret (Z.of_nat (String.length s))
  | _ => Raise (TypeError ("object of type " ++ String "'" (type_name v) ++ "' has no len()"))
  end.

(** Iteration: [for x in v]. *)
Fixpoint chars (s : string) : list pyval :=
  match s with
  | EmptyString => []
  | String c s' => PStr (String c "") :: chars s'
  end.

Definition iter (v : pyval) : res (list pyval) :=
  match v with
  | PList l => Ret l
  | PStr s => Ret (chars s)
  | PDict d => Ret (map PStr (keys d))
  | _ => Raise (TypeError (repr_str (type_name v) ++ " object is not iterable"))
  end.

(** *** Operations on arbitrary objects *)

Definition quoted (s : string) : string := "'" ++ s ++ "'".

(** [v[k]] with a string key. *)
Definition getitem (v : pyval) (k : string) : res pyval :=
  match v with
  | PDict d => subscript k d
  | PList _ => Raise (TypeError "list indices must be integers or slices, not str")
  | PStr _ => Raise (TypeError "string indices must be integers, not 'str'")
  | _ => Raise (TypeError (quoted (type_name v) ++ " object is not subscriptable"))
  end.

Definition no_attribute (v : pyval) (name : string) : exn :=
  AttributeError (quoted (type_name v) ++ " object has no attribute " ++ quoted name).

(** [v.get(k, default)]; [v.get(k)] is [method_get v k PNone]. *)
Definition method_get (v : pyval) (k : string) (default : pyval) : res pyval :=
  match v with
  | PDict d => Ret (get_default k default d)
  | _ => Raise (no_attribute v "get")
  end.

Definition method_upper (v : pyval) : res string :=
  match v with
  | PStr s => Ret (upper s)
  | _ => Raise (no_attribute v "upper")
  end.

Definition method_strip (v : pyval) : res string :=
  match v with
  | PStr s => Ret (strip s)
  | _ => Raise (no_attribute v "strip")
  end.

Fixpoint prefix (p s : string) : bool :=
  match p, s with
  | EmptyString, _ => true
  | String a p', String b s' => Ascii.eqb a b && prefix p' s'
  | _, EmptyString => false
  end.

Fixpoint substring (p s : string) : bool :=
  prefix p s || match s with EmptyString => false | String _ s' => substring p s' end.

(** [k in v] for a string [k]. *)
Definition contains_str (k : string) (v : pyval) : res bool :=
  match v with
  | PDict d => Ret (contains k d)
  | PList l =>
      Ret (existsb (fun x => match x with PStr s => String.eqb k s | _ => false end) l)
  | PStr s => Ret (substring k s)
  | _ => Raise (TypeError ("argument of type " ++ quoted (type_name v) ++ " is not iterable"))
  end.

End Py.

(** ** Requests, the transport and the monad of the client *)

Inductive method : Type := GET | POST | PUT | DELETE.

(** One call of [QTestAPI._make_request]: the endpoint is relative to
    [{base_url}/api/v3/projects/{project_id}/]; [data] and [params] are
    [PNone] when the call passes none. *)
Record request : Type := Request {
  meth : method;
  endpoint : string;
  data : pyval;
  params : pyval
}.

(** What the HTTP layer gives back: the parsed JSON body ([PNone] for an
    empty body), or a [requests.exceptions.RequestException]. *)
Inductive reply : Type :=
| Body (json : pyval)
| Failure (msg : string).

Section Client.
Context {World : Type}.

(** A [QTestManager] with its [QTestAPI]: the status cache
    [self._execution_statuses] ([None] until populated), the remote
    platform behind [self.api], and the requests issued so far. *)
Record manager : Type := Manager {
  _execution_statuses : option dict;
  platform : World;
  sent : list request
}.

Definition M (A : Type) : Type := manager -> res A * manager.

Definition ret {A} (a : A) : M A := fun st => (Ret a, st).

Definition raise {A} (e : exn) : M A := fun st => (Raise e, st).

Definition bind {A B} (c : M A) (k : A -> M B) : M B :=
  fun st =>
    match c st with
    | (Ret a, st') => k a st'
    | (Raise e, st') => (Raise e, st')
    | (Diverge, st') => (Diverge, st')
    end.

(** [try: c  except Exception as e: h e] *)
Definition try_except {A} (c : M A) (h : exn -> M A) : M A :=
  fun st =>
    match c st with
    | (Raise e, st') => h e st'
    | other => other
    end.

(** A pure computation that may raise. *)
Definition lift {A} (r : res A) : M A := fun st => (r, st).

End Client.

Arguments manager World : clear implicits.
Arguments M World A : clear implicits.

Declare Scope py_scope.
Delimit Scope py_scope with py.
Notation "x <- c ;; k" := (bind c (fun x => k))
  (at level 100, c at next level, right associativity) : py_scope.
Notation "c ;;; k" := (bind c (fun _ => k))
  (at level 100, right associativity) : py_scope.
Open Scope py_scope.

(** ** [qtest_api.py]: class [QTestAPI] *)

Module API.
Section API.
Context {World : Type} (transport : World -> request -> reply * World).

(** [_make_request]: the request is issued, the platform moves on, and a
    transport failure is re-raised to the caller. *)
Definition _make_request (m : method) (ep : string) (d p : pyval) : M World pyval :=
  fun st =>
    let req := Request m ep d p in
    let (r, w) := transport (platform st) req in
    let st' := Manager (_execution_statuses st) w (sent st ++ [req]) in
    match r with
    | Body v => (Ret v, st')
    | Failure msg => (Raise (RequestException msg), st')
    end.

Definition parent_params (parent_id parent_type : pyval) : pyval :=
  if Py.truthy parent_id && Py.truthy parent_type
  then PDict [("parentId", parent_id); ("parentType", parent_type)]
  else PNone.

Definition get_test_case (test_case_id : pyval) : M World pyval :=
  _make_request GET ("test-cases/" ++ Py.str test_case_id) PNone PNone.

Definition create_test_run (test_run_data parent_id parent_type : pyval) : M World pyval :=
  _make_request POST "test-runs" test_run_data (parent_params parent_id parent_type).

Definition add_test_log (test_run_id test_log_data : pyval) : M World pyval :=
  _make_request POST ("test-runs/" ++ Py.str test_run_id ++ "/test-logs") test_log_data PNone.

Definition approve_test_case (test_case_id : pyval) : M World pyval :=
  _make_request PUT ("test-cases/" ++ Py.str test_case_id ++ "/approve") PNone PNone.

Definition get_test_logs (test_run_id : pyval) : M World pyval :=
  _make_request GET ("test-runs/" ++ Py.str test_run_id ++ "/test-logs") PNone PNone.

Definition get_test_steps (test_case_id : pyval) : M World pyval :=
  data <- _make_request GET ("test-cases/" ++ Py.str test_case_id ++ "/test-steps") PNone PNone ;;
  match data with
  | PDict d =>
      if Py.contains "items" d then ret (Py.get_default "items" (PList []) d)
      else ret (PList [])
  | PList _ => ret data
  | _ => ret (PList [])
  end.

(** The value the loop of [find_test_step_id_by_order] compares:
    [s.get('order') or s.get('index') or s.get('sequence') or s.get('position')]. *)
Definition step_order (s : dict) : pyval :=
  Py.or_ (Py.or_ (Py.or_ (Py.get_or_none "order" s) (Py.get_or_none "index" s))
                 (Py.get_or_none "sequence" s))
         (Py.get_or_none "position" s).

(** [int(order) == int(step_number)], with the [except Exception] branch
    comparing the stripped strings. *)
Definition order_equal (order step_number : pyval) : bool :=
  match Py.int order, Py.int step_number with
  | Ret a, Ret b => a =? b
  | _, _ => String.eqb (Py.strip (Py.str order)) (Py.strip (Py.str step_number))
  end.

Fixpoint find_step_in (steps : list pyval) (step_number : pyval) : res pyval :=
  match steps with
  | [] => Ret PNone
  | s :: rest =>
      match s with
      | PDict d =>
          let order := step_order d in
          if Py.is_none order then find_step_in rest step_number
          else if order_equal order step_number then Ret (Py.get_or_none "id" d)
          else find_step_in rest step_number
      | _ => Raise (Py.no_attribute s "get")
      end
  end.

Definition find_test_step_id_by_order (test_case_id step_number : pyval) : M World pyval :=
  steps <- get_test_steps test_case_id ;;
  items <- lift (Py.iter (Py.or_ steps (PList []))) ;;
  lift (find_step_in items step_number).

Definition get_execution_statuses : M World pyval :=
  _make_request GET "test-runs/execution-statuses" PNone PNone.

Definition get_test_cycles : M World pyval :=
  _make_request GET "test-cycles" PNone PNone.

Definition create_test_cycle (test_cycle_data parent_id parent_type : pyval) : M World pyval :=
  _make_request POST "test-cycles" test_cycle_data (parent_params parent_id parent_type).

Definition get_test_runs (parent_id parent_type page_size : pyval) : M World pyval :=
  data <- _make_request GET "test-runs" PNone
            (PDict [("parentId", parent_id); ("parentType", parent_type);
                    ("pageSize", page_size)]) ;;
  match data with
  | PDict d =>
      if Py.contains "items" d then ret (Py.get_default "items" (PList []) d)
      else ret (PList [])
  | PList _ => ret data
  | _ => ret (PList [])
  end.

Fixpoint find_run_in (runs : list pyval) (test_case_id : pyval) : res pyval :=
  match runs with
  | [] => Ret PNone
  | r :: rest =>
      tc0 <~ Py.method_get r "test_case" PNone ;;
      id <~ Py.method_get (Py.or_ tc0 (PDict [])) "id" PNone ;;
      if String.eqb (Py.str id) (Py.str test_case_id) then Py.method_get r "id" PNone
      else find_run_in rest test_case_id
  end.

Definition find_test_run_id_by_test_case (parent_id parent_type test_case_id : pyval)
    : M World pyval :=
  runs <- get_test_runs parent_id parent_type (PInt 1000) ;;
  items <- lift (Py.iter (Py.or_ runs (PList []))) ;;
  lift (find_run_in items test_case_id).

Definition create_test_run_for_case (parent_id parent_type test_case_id name
    exe_start_date exe_end_date : pyval) : M World pyval :=
  tc <- get_test_case test_case_id ;;
  run_name <- (if Py.truthy name then ret name
               else lift (Py.method_get tc "name"
                            (PStr ("Test Run for " ++ Py.str test_case_id)))) ;;
  let payload := [("name", run_name); ("test_case", PDict [("id", test_case_id)])] in
  let payload :=
    if Py.truthy exe_start_date then Py.set "exe_start_date" exe_start_date payload
    else payload in
  let payload :=
    if Py.truthy exe_end_date then Py.set "exe_end_date" exe_end_date payload
    else payload in
  _make_request POST "test-runs" (PDict payload)
    (PDict [("parentId", parent_id); ("parentType", parent_type)]).

(** [list_test_cases]: the [while True] loop over pages, cut off by fuel. *)
Fixpoint list_test_cases_from (fuel : nat) (page : Z) (page_size : pyval)
    (all_cases : list pyval) : M World (list pyval) :=
  match fuel with
  | O => fun st => (Diverge, st)
  | S fuel' =>
      resp <- _make_request GET "test-cases" PNone
                (PDict [("page", PInt page); ("size", page_size)]) ;;
      if negb (Py.truthy resp) then ret all_cases
      else
        match resp with
        | PList l => list_test_cases_from fuel' (page + 1) page_size (all_cases ++ l)
        | PDict d =>
            let items := Py.get_or_none "items" d in
            if negb (Py.truthy items) then ret all_cases
            else
              more <- lift (Py.iter items) ;;
              list_test_cases_from fuel' (page + 1) page_size (all_cases ++ more)
        | _ => ret all_cases
        end
  end.

Definition list_test_cases (fuel : nat) : M World (list pyval) :=
  list_test_cases_from fuel 1 (PInt 100) [].

(** [str(x.get(key, '')).strip().lower()] *)
Definition normalized (key : string) (d : dict) : string :=
  Py.lower (Py.strip (Py.str (Py.get_default key (PStr "") d))).

(** The test of the two name-based lookups:
    [name == target or (pid and pid == target)]. *)
Definition name_matches (target : string) (d : dict) : bool :=
  String.eqb (normalized "name" d) target
  || (negb (String.eqb (normalized "pid" d) "") && String.eqb (normalized "pid" d) target).

Fixpoint find_case_in (cases : list pyval) (target : string) : res pyval :=
  match cases with
  | [] => Ret PNone
  | c :: rest =>
      match c with
      | PDict d =>
          if name_matches target d
          then Ret (Py.or_ (Py.get_or_none "id" d) (Py.get_or_none "test_case_version_id" d))
          else find_case_in rest target
      | _ => Raise (Py.no_attribute c "get")
      end
  end.

Definition find_test_case_id_by_name (fuel : nat) (name : pyval) : M World pyval :=
  try_except
    (cases <- list_test_cases fuel ;;
     stripped <- lift (Py.method_strip name) ;;
     lift (find_case_in cases (Py.lower stripped)))
    (fun _ => ret PNone).

Fixpoint find_cycle_in (cycles : list pyval) (target : string) : res pyval :=
  match cycles with
  | [] => Ret PNone
  | cy :: rest =>
      match cy with
      | PDict d =>
          if name_matches target d then Ret (Py.get_or_none "id" d)
          else find_cycle_in rest target
      | _ => Raise (Py.no_attribute cy "get")
      end
  end.

Definition find_test_cycle_id_by_name (name : pyval) : M World pyval :=
  try_except
    (cycles <- get_test_cycles ;;
     stripped <- lift (Py.method_strip name) ;;
     items <- lift (Py.iter (Py.or_ cycles (PList []))) ;;
     lift (find_cycle_in items (Py.lower stripped)))
    (fun _ => ret PNone).

End API.
End API.

(** ** [qtest_manager.py]: class [QTestManager] *)

Module Manager.
Section Manager.
Context {World : Type} (transport : World -> request -> reply * World).

(** The dict comprehension
    [{status['name'].upper(): status['id'] for status in statuses}]. *)
Fixpoint status_mapping (statuses : list pyval) (acc : dict) : res dict :=
  match statuses with
  | [] => Ret acc
  | status :: rest =>
      name <~ Py.getitem status "name" ;;
      key <~ Py.method_upper name ;;
      id <~ Py.getitem status "id" ;;
      status_mapping rest (Py.set key id acc)
  end.

Definition set_execution_statuses (m : dict) : M World unit :=
  fun st => (Ret tt, Manager (Some m) (platform st) (sent st)).

Definition get_execution_statuses : M World dict :=
  fun st =>
    match _execution_statuses st with
    | Some m => (Ret m, st)
    | None =>
        (statuses <- API.get_execution_statuses transport ;;
         items <- lift (Py.iter statuses) ;;
         m <- lift (status_mapping items []) ;;
         set_execution_statuses m ;;;
         ret m) st
    end.

Definition get_available_statuses : M World pyval :=
  m <- get_execution_statuses ;;
  ret (PList (map PStr (Py.keys m))).

Definition invalid_status (status : pyval) (statuses : dict) : exn :=
  ValueError ("Invalid status: " ++ Py.str status ++ ". Available statuses: "
              ++ Py.repr (PList (map PStr (Py.keys statuses)))).

Definition set_if (cond : bool) (k : string) (v : pyval) (d : dict) : dict :=
  if cond then Py.set k v d else d.

(** The payload of [update_test_result] up to, and without, the step logs. *)
Definition test_log_data (statuses : dict) (status_upper : string)
    (test_case_id test_case_version_id note execution_time defects
     exe_start_date exe_end_date : pyval) : res dict :=
  let d :=
    [("status", PDict [("id", Py.get_or_none status_upper statuses);
                       ("name", PStr status_upper)]);
     ("test_case_version_id",
      if Py.is_none test_case_version_id then test_case_id else test_case_version_id)] in
  let d := set_if (Py.truthy note) "note" note d in
  let d := set_if (Py.truthy execution_time) "exe_time" execution_time d in
  d <~ (if Py.truthy defects
        then ids <~ Py.iter defects ;;
             Ret (Py.set "defects" (PList (map (fun i => PDict [("id", i)]) ids)) d)
        else Ret d) ;;
  let d := set_if (Py.truthy exe_start_date) "exe_start_date" exe_start_date d in
  let d := set_if (Py.truthy exe_end_date) "exe_end_date" exe_end_date d in
  Ret d.

Definition missing_steplogs : exn :=
  TypeError "QTestManager.update_test_result() missing 1 required positional argument: 'steplogs'".

(** [steplogs] is a parameter without a default: [None] here is a call
    that passes no [steplogs], which Python rejects before the body runs
    (the message is that of Python 3.10 and later).
    The parameters after it default to Python's [None], [PNone]. *)
Definition update_test_result (test_run_id test_case_id status : pyval)
    (steplogs : option pyval)
    (test_case_version_id note execution_time defects exe_start_date exe_end_date : pyval)
    : M World pyval :=
  match steplogs with
  | None => raise missing_steplogs
  | Some steplogs =>
      statuses <- get_execution_statuses ;;
      status_upper <- lift (Py.method_upper status) ;;
      if negb (Py.contains status_upper statuses)
      then raise (invalid_status status statuses)
      else
        d <- lift (test_log_data statuses status_upper test_case_id test_case_version_id
                     note execution_time defects exe_start_date exe_end_date) ;;
        logs <- lift (Py.getitem steplogs "logs") ;;
        result <- API.add_test_log transport test_run_id
                    (PDict (Py.set "test_step_logs" logs d)) ;;
        lift (Py.method_get result "id" PNone) ;;;
        ret result
  end.

(** The call in the [try] block of [bulk_update_test_results]: the
    arguments are read off the item, and no [steplogs] is passed. *)
Definition bulk_item (test_run_id test_result : pyval) : M World pyval :=
  test_case_id <- lift (Py.getitem test_result "test_case_id") ;;
  status <- lift (Py.getitem test_result "status") ;;
  note <- lift (Py.method_get test_result "note" PNone) ;;
  execution_time <- lift (Py.method_get test_result "execution_time" PNone) ;;
  defects <- lift (Py.method_get test_result "defects" PNone) ;;
  update_test_result test_run_id test_case_id status None
    PNone note execution_time defects PNone PNone.

(** The [except Exception as e] block: the substitute record. *)
Definition bulk_failed (test_result : pyval) (e : exn) : M World pyval :=
  test_case_id <- lift (Py.getitem test_result "test_case_id") ;;
  ret (PDict [("error", PStr (Py.exn_str e)); ("test_case_id", test_case_id)]).

Fixpoint bulk_loop (test_run_id : pyval) (test_results results : list pyval)
    : M World (list pyval) :=
  match test_results with
  | [] => ret results
  | test_result :: rest =>
      r <- try_except (bulk_item test_run_id test_result) (bulk_failed test_result) ;;
      bulk_loop test_run_id rest (results ++ [r])
  end.

(** [len([r for r in results if 'error' not in r])], evaluated for the
    closing log line. *)
Definition successful (results : list pyval) : res Z :=
  flags <~ map_res (Py.contains_str "error") results ;;
  Ret (Z.of_nat (List.length (filter (fun b => negb b) flags))).

Definition bulk_update_test_results (test_run_id : pyval) (test_results : list pyval)
    : M World (list pyval) :=
  results <- bulk_loop test_run_id test_results [] ;;
  lift (successful results) ;;;
  ret results.

Definition get_test_run_results (test_run_id : pyval) : M World pyval :=
  results <- API.get_test_logs transport test_run_id ;;
  lift (Py.len results) ;;;
  ret results.

Definition create_test_cycle (name description parent_id : pyval) : M World pyval :=
  let d := [("name", name)] in
  let d := set_if (Py.truthy description) "description" description d in
  let d := set_if (Py.truthy parent_id) "parent_id" parent_id d in
  result <- API.create_test_cycle transport (PDict d) PNone PNone ;;
  lift (Py.method_get result "id" PNone) ;;;
  ret result.

Definition get_test_cycle_id_by_name (cycle_name : pyval) : M World pyval :=
  API.find_test_cycle_id_by_name transport cycle_name.

Definition get_test_case_id_by_name (fuel : nat) (case_name : pyval) : M World pyval :=
  API.find_test_case_id_by_name transport fuel case_name.

Definition get_or_create_test_cycle_id_by_name (cycle_name description : pyval)
    : M World pyval :=
  cycle_id <- get_test_cycle_id_by_name cycle_name ;;
  if negb (Py.is_none cycle_id) then ret cycle_id
  else
    created <- create_test_cycle cycle_name description PNone ;;
    lift (Py.method_get created "id" PNone).

(** [d['properties'] = d.get('properties', []); d['properties'].append(entry)] *)
Definition properties (d : dict) : list pyval :=
  match Py.get "properties" d with
  | Some (PList l) => l
  | _ => []
  end.

Definition append_property (entry : pyval) (d : dict) : dict :=
  Py.set "properties" (PList (properties d ++ [entry])) d.

Definition planned_date (field_id : string) (value : pyval) : pyval :=
  PDict [("field_id", PStr field_id); ("field_value", value)].

Definition build_version_property : pyval :=
  PDict [("field_id", PInt 12625659);
         ("field_name", PStr "Build Version");
         ("field_value", PStr "[3643503]");
         ("field_value_name", PStr "[New Value]")].

(** The [test_run_data] of [create_test_run], first its fields up to
    the description, then the [properties]. *)
Definition test_run_fields (name test_case_ids test_case_id test_case_version_id
    description : pyval) : res dict :=
  let d := [("name", name)] in
  d <~ (if negb (Py.is_none test_case_id)
        then id <~ Py.int test_case_id ;;
             version <~ (if negb (Py.is_none test_case_version_id)
                         then v <~ Py.int test_case_version_id ;; Ret (PInt v)
                         else Ret PNone) ;;
             Ret (Py.set "test_case"
                    (PDict [("id", PInt id); ("test_case_version_id", version)]) d)
        else Ret d) ;;
  d <~ (if negb (Py.is_none test_case_ids)
        then ids <~ Py.iter test_case_ids ;;
             ints <~ map_res Py.int ids ;;
             Ret (Py.set "test_case_ids" (PList (map PInt ints)) d)
        else Ret d) ;;
  Ret (set_if (Py.truthy description) "description" description d).

Definition test_run_data (name test_case_ids test_case_id test_case_version_id
    description planned_start_date planned_end_date build_version : pyval) : res dict :=
  d <~ test_run_fields name test_case_ids test_case_id test_case_version_id description ;;
  let d := if Py.truthy planned_start_date
           then append_property (planned_date "PlannedStartDate" planned_start_date) d
           else d in
  let d := if Py.truthy planned_end_date
           then append_property (planned_date "PlannedEndDate" planned_end_date) d
           else d in
  let d := if Py.is_none build_version
           then append_property build_version_property d
           else d in
  Ret d.

Definition create_test_run (name test_case_ids test_case_id test_case_version_id
    description planned_start_date planned_end_date build_version
    test_cycle_id test_cycle_name : pyval) : M World pyval :=
  parent <- (if Py.truthy test_cycle_id then ret (test_cycle_id, PStr "test-cycle")
             else if Py.truthy test_cycle_name
             then id <- get_or_create_test_cycle_id_by_name test_cycle_name PNone ;;
                  ret (id, PStr "test-cycle")
             else ret (PNone, PNone)) ;;
  d <- lift (test_run_data name test_case_ids test_case_id test_case_version_id
               description planned_start_date planned_end_date build_version) ;;
  result <- API.create_test_run transport (PDict d) (fst parent) (snd parent) ;;
  lift (Py.method_get result "id" PNone) ;;;
  ret result.

Definition approve_test_case (test_case_id : pyval) : M World pyval :=
  id <- lift (Py.int test_case_id) ;;
  API.approve_test_case transport (PInt id).

Definition get_test_step_id_by_order (test_case_id step_number : pyval) : M World pyval :=
  try_except
    (case <- lift (Py.int test_case_id) ;;
     number <- lift (Py.int step_number) ;;
     API.find_test_step_id_by_order transport (PInt case) (PInt number))
    (fun _ => ret PNone).

Fixpoint resolve_test_case_ids_by_names (fuel : nat) (test_case_names : list pyval)
    : M World (list pyval) :=
  match test_case_names with
  | [] => ret []
  | name :: rest =>
      cid <- get_test_case_id_by_name fuel name ;;
      resolved <- resolve_test_case_ids_by_names fuel rest ;;
      ret (if Py.truthy cid then cid :: resolved else resolved)
  end.

Definition create_test_run_by_names (fuel : nat) (name : pyval) (test_case_names : list pyval)
    (test_cycle_name description planned_start_date planned_end_date build_version : pyval)
    : M World pyval :=
  (if Py.truthy test_cycle_name
   then get_test_cycle_id_by_name test_cycle_name
   else ret PNone) ;;;
  case_ids <- resolve_test_case_ids_by_names fuel test_case_names ;;
  match case_ids with
  | [] => raise (ValueError "No test cases resolved. Please verify names.")
  | _ =>
      create_test_run name (PList case_ids) PNone PNone description planned_start_date
        planned_end_date build_version PNone test_cycle_name
  end.

(** Like the bulk path, this one calls [update_test_result] without
    [steplogs]. *)
Definition update_test_result_by_name (fuel : nat) (test_run_id test_case_name status
    test_case_version_id note execution_time defects : pyval) : M World pyval :=
  cid <- get_test_case_id_by_name fuel test_case_name ;;
  if Py.is_none cid
  then raise (ValueError ("Test case not found by name: " ++ Py.str test_case_name))
  else update_test_result test_run_id cid status None PNone note execution_time defects
         PNone PNone.

Definition approve_test_case_by_name (fuel : nat) (case_name : pyval) : M World pyval :=
  cid <- get_test_case_id_by_name fuel case_name ;;
  if Py.is_none cid
  then raise (ValueError ("Test case not found by name: " ++ Py.str case_name))
  else approve_test_case cid.

Definition ensure_test_run_for_case (parent_id parent_type test_case_id create_if_missing
    exe_start_date exe_end_date : pyval) : M World pyval :=
  existing_id <- API.find_test_run_id_by_test_case transport parent_id parent_type
                   test_case_id ;;
  if Py.truthy existing_id then id <- lift (Py.int existing_id) ;; ret (PInt id)
  else if negb (Py.truthy create_if_missing)
  then raise (ValueError ("No test run found for test case " ++ Py.str test_case_id
                          ++ " under " ++ Py.str parent_type ++ ":" ++ Py.str parent_id))
  else
    created <- API.create_test_run_for_case transport parent_id parent_type test_case_id
                 PNone exe_start_date exe_end_date ;;
    run_id <- lift (Py.method_get created "id" PNone) ;;
    id <- lift (Py.int run_id) ;;
    ret (PInt id).

Fixpoint find_step_named (steps : list pyval) (target : string) : res pyval :=
  match steps with
  | [] => Ret PNone
  | s :: rest =>
      name <~ Py.method_get s "name" (PStr "") ;;
      description <~ Py.method_get s "description" (PStr "") ;;
      action <~ Py.method_get s "action" (PStr "") ;;
      let candidates := map (fun v => Py.lower (Py.strip (Py.str v))) [name; description; action] in
      if negb (String.eqb target "") && existsb (String.eqb target) candidates
      then Py.method_get s "id" PNone
      else find_step_named rest target
  end.

Definition get_test_step_id_by_name (test_case_id step_name : pyval) : M World pyval :=
  try_except
    (case <- lift (Py.int test_case_id) ;;
     steps <- API.get_test_steps transport (PInt case) ;;
     items <- lift (Py.iter (Py.or_ steps (PList []))) ;;
     lift (find_step_named items (Py.lower (Py.strip (Py.str step_name)))))
    (fun _ => ret PNone).

End Manager.
End Manager.

(** ** [qtest_robot_library.py]: the step-log keywords of [QTestRobotLibrary] *)

Module Library.
Section Library.
Context {World : Type} (transport : World -> request -> reply * World).

(** The library holds [self.manager], [None] until it is initialised. *)
Definition L (A : Type) : Type :=
  option (manager World) -> res A * option (manager World).

Definition statusname_ids : dict :=
  [("PASSED", PInt 601); ("FAILED", PInt 602); ("SKIPPED", PInt 603); ("BLOCKED", PInt 604)].

(** The last [try] block of [create_qtest_test_step_log]: the step id is
    added when it resolves, and any failure leaves the payload as it is. *)
Definition with_step_id (testcaseid : pyval) (order : Z) (payload : dict) : L dict :=
  fun lib =>
    match lib with
    | None => (Ret payload, lib)
    | Some mgr =>
        if Py.truthy testcaseid then
          match Py.int testcaseid with
          | Ret case =>
              match Manager.get_test_step_id_by_order transport (PInt case) (PInt order) mgr with
              | (Ret step_id, mgr') =>
                  if Py.is_none step_id then (Ret payload, Some mgr')
                  else
                    match Py.int step_id with
                    | Ret id => (Ret (Py.set "test_step_id" (PInt id) payload), Some mgr')
                    | _ => (Ret payload, Some mgr')
                    end
              | (_, mgr') => (Ret payload, Some mgr')
              end
          | _ => (Ret payload, lib)
          end
        else (Ret payload, lib)
    end.

Definition create_qtest_test_step_log (testcaseid step_number result actual_result
    expected_result description : pyval) : L dict :=
  fun lib =>
    match Py.int (PStr (Py.strip (Py.str step_number))) with
    | Ret order =>
        let status_name := Py.upper (Py.strip (Py.str result)) in
        if String.eqb status_name "" then
          (Raise (ValueError "Result/status must be provided for step log"), lib)
        else
          let payload :=
            [("status", PDict [("id", Py.get_default status_name (PInt 0) statusname_ids);
                               ("name", PStr status_name)]);
             ("actual_result", Py.or_ actual_result (PStr ""))] in
          let payload :=
            Manager.set_if (negb (Py.is_none expected_result))
              "expected_result" expected_result payload in
          let payload :=
            Manager.set_if (negb (Py.is_none description)) "description" description payload in
          with_step_id testcaseid order payload lib
    | _ => (Raise (ValueError ("Invalid step number: " ++ Py.str step_number)), lib)
    end.

(** Lines 575-589 of [append_qtest_test_step_log]: where the step goes.
    [list.append] and the assignment to [container['logs']] change the
    caller's object; the value returned is that object after the change. *)
Definition append_step (container step : pyval) : res pyval :=
  match container with
  | PNone | PStr "" => Ret (PList [step])
  | PList l => Ret (PList (l ++ [step]))
  | PDict d =>
      match Py.get_or_none "logs" d with
      | PNone => Ret (PDict (Py.set "logs" (PList [step]) d))
      | PList logs => Ret (PDict (Py.set "logs" (PList (logs ++ [step])) d))
      | _ => Raise (ValueError "Expected 'logs' key in dict to be a list")
      end
  | _ =>
      Raise (ValueError
        "Container must be a list, a dict (with 'logs'), or empty/None to start a new list")
  end.

Definition append_qtest_test_step_log (testcaseid container step_number result
    actual_result expected_result description : pyval) : L pyval :=
  fun lib =>
    match create_qtest_test_step_log testcaseid step_number result actual_result
            expected_result description lib with
    | (Ret step, lib') => (append_step container (PDict step), lib')
    | (Raise e, lib') => (Raise e, lib')
    | (Diverge, lib') => (Diverge, lib')
    end.

End Library.
End Library.

(** ** A platform for concrete runs

    The mocks of [tests/test_qtest_manager.py]: two execution statuses,
    test logs numbered from 201, and a store of test cycles that lists what
    was created in it. The platform state is the list of cycles and the
    number of requests served. *)

Module Mock.

Record world : Type := World { cycles : list dict; served : Z }.

Definition statuses : pyval :=
  PList [PDict [("id", PInt 1); ("name", PStr "Passed")];
         PDict [("id", PInt 2); ("name", PStr "Failed")]].

Definition transport (w : world) (req : request) : reply * world :=
  let w' := World (cycles w) (served w + 1) in
  match meth req, endpoint req with
  | GET, "test-runs/execution-statuses" => (Body statuses, w')
  | GET, "test-cycles" => (Body (PList (map PDict (cycles w))), w')
  | POST, "test-cycles" =>
      match data req with
      | PDict d =>
          let created := ("id", PInt (1000 + served w)) :: d in
          (Body (PDict created), World (cycles w ++ [created]) (served w + 1))
      | _ => (Failure "400 Client Error: Bad Request", w')
      end
  | POST, _ => (Body (PDict [("id", PInt (201 + served w))]), w')
  | _, _ => (Body PNone, w')
  end.

(** A platform that cannot be reached. *)
Definition unreachable (w : world) (req : request) : reply * world :=
  (Failure "Connection refused", w).

(** A platform whose first answer is lost to a timeout. *)
Definition flaky (w : world) (req : request) : reply * world :=
  if served w =? 0 then (Failure "Read timed out", World (cycles w) 1)
  else transport w req.

Definition fresh : manager world := Manager None (World [] 0) [].

(** A catalogue of three test cases served two per page, and a platform
    that answers every page request with the same case. *)
Definition login : dict := [("id", PInt 10); ("name", PStr "Login"); ("pid", PStr "TC-1")].
Definition search : dict := [("id", PInt 11); ("name", PStr "Search"); ("pid", PStr "TC-2")].
Definition logout : dict := [("id", PInt 12); ("name", PStr "Logout"); ("pid", PStr "TC-3")].

Definition catalogue (w : world) (req : request) : reply * world :=
  let w' := World (cycles w) (served w + 1) in
  match params req with
  | PDict [("page", PInt 1); _] => (Body (PList [PDict login; PDict search]), w')
  | PDict [("page", PInt 2); _] => (Body (PList [PDict logout]), w')
  | _ => (Body (PList []), w')
  end.

Definition unpaged (w : world) (req : request) : reply * world :=
  (Body (PList [PDict login]), World (cycles w) (served w + 1)).

(** A suite of runs: the platform lists the runs it holds (kept in
    [cycles]), shows the case "Login", and numbers the runs it creates
    from 501. *)
Definition suite (w : world) (req : request) : reply * world :=
  match meth req, endpoint req with
  | GET, "test-runs" => (Body (PList (map PDict (cycles w))), w)
  | POST, "test-runs" =>
      match data req with
      | PDict d =>
          let created := ("id", PInt (501 + Z.abs (served w))) :: d in
          (Body (PDict created), World (cycles w ++ [created]) (served w + 1))
      | _ => (Failure "400 Client Error: Bad Request", w)
      end
  | _, _ => (Body (PDict login), w)
  end.

Definition login_run : dict :=
  [("id", PInt 500); ("name", PStr "Login"); ("test_case", PDict [("id", PInt 10)])].

Definition with_login_run : manager world := Manager None (World [login_run] 0) [].

(** A manager before a platform that holds the cycle "Sprint 1". *)
Definition sprint : dict := [("id", PInt 5); ("name", PStr "Sprint 1")].

Definition with_sprint : manager world := Manager None (World [sprint] 0) [].

End Mock.

(** ** Vocabulary of the properties *)

Section Vocabulary.
Context {World : Type}.

(** The requests a computation issues all satisfy [P]. *)
Definition issues {A} (P : request -> Prop) (c : M World A) : Prop :=
  forall st, exists new, sent (c st).2 = (sent st ++ new)%list /\ Forall P new.

(** A populated status cache is left as it is. *)
Definition keeps_cache {A} (c : M World A) : Prop :=
  forall st m, _execution_statuses st = Some m -> _execution_statuses (c st).2 = Some m.

End Vocabulary.

(** ** Vocabulary of the bulk report *)

(** An item as the docstring of [bulk_update_test_results] has it: a
    dictionary with a ['test_case_id']. *)
Definition carries_test_case_id (item : pyval) : bool :=
  match item with
  | PDict d => Py.contains "test_case_id" d
  | _ => false
  end.

(** The item names a status of the registry, in any letter case. *)
Definition names_status (statuses : dict) (item : pyval) : bool :=
  match item with
  | PDict d =>
      match Py.get "status" d with
      | Some (PStr s) => Py.contains (Py.upper s) statuses
      | _ => false
      end
  | _ => false
  end.

Definition has_error_key (entry : pyval) : bool :=
  match entry with
  | PDict d => Py.contains "error" d
  | _ => false
  end.

(** Why the call made for an item fails, for an item that carries its
    ['test_case_id']: its ['status'] is missing, or the call is rejected
    for want of [steplogs]. *)
Definition item_failure (item : pyval) : exn :=
  match Py.getitem item "status" with
  | Raise e => e
  | _ => Manager.missing_steplogs
  end.

Definition failed_entry (item : pyval) : pyval :=
  PDict [("error", PStr (Py.exn_str (item_failure item)));
         ("test_case_id",
          match item with PDict d => Py.get_or_none "test_case_id" d | _ => PNone end)].

(** The batch of [test_bulk_update_test_results]. *)
Definition two_results : list pyval :=
  [PDict [("test_case_id", PInt 10); ("status", PStr "PASSED"); ("note", PStr "Test 1 passed")];
   PDict [("test_case_id", PInt 11); ("status", PStr "FAILED"); ("note", PStr "Test 2 failed")]].

(** ** Vocabulary of the result reporter *)

Definition statuses_request : request :=
  Request GET "test-runs/execution-statuses" PNone PNone.

(** The add-test-log submission of a run, carrying the status [id], [name]. *)
Definition submits_status (test_run_id id : pyval) (name : string) (req : request) : Prop :=
  exists payload,
    req = Request POST ("test-runs/" ++ Py.str test_run_id ++ "/test-logs") (PDict payload) PNone
    /\ Py.get "status" payload = Some (PDict [("id", id); ("name", PStr name)]).

(** ** The life of a manager

    The operations of [QTestManager], and a manager driven through a
    sequence of them; a caller that catches an exception goes on with the
    manager as the failed call left it. *)

Inductive operation : Type :=
| GetExecutionStatuses
| GetAvailableStatuses
| UpdateTestResult (test_run_id test_case_id status : pyval) (steplogs : option pyval)
    (test_case_version_id note execution_time defects exe_start_date exe_end_date : pyval)
| BulkUpdateTestResults (test_run_id : pyval) (test_results : list pyval)
| GetTestRunResults (test_run_id : pyval)
| CreateTestCycle (name description parent_id : pyval)
| GetTestCycleIdByName (cycle_name : pyval)
| GetTestCaseIdByName (fuel : nat) (case_name : pyval)
| GetOrCreateTestCycleIdByName (cycle_name description : pyval)
| CreateTestRun (name test_case_ids test_case_id test_case_version_id description
    planned_start_date planned_end_date build_version test_cycle_id test_cycle_name : pyval)
| ApproveTestCase (test_case_id : pyval)
| GetTestStepIdByOrder (test_case_id step_number : pyval)
| ResolveTestCaseIdsByNames (fuel : nat) (test_case_names : list pyval)
| CreateTestRunByNames (fuel : nat) (name : pyval) (test_case_names : list pyval)
    (test_cycle_name description planned_start_date planned_end_date build_version : pyval)
| UpdateTestResultByName (fuel : nat) (test_run_id test_case_name status
    test_case_version_id note execution_time defects : pyval)
| ApproveTestCaseByName (fuel : nat) (case_name : pyval)
| EnsureTestRunForCase (parent_id parent_type test_case_id create_if_missing
    exe_start_date exe_end_date : pyval)
| GetTestStepIdByName (test_case_id step_name : pyval).

Section Life.
Context {World : Type} (transport : World -> request -> reply * World).

Definition discard {A} (c : M World A) : M World unit := c ;;; ret tt.

Definition perform (op : operation) : M World unit :=
  match op with
  | GetExecutionStatuses => discard (Manager.get_execution_statuses transport)
  | GetAvailableStatuses => discard (Manager.get_available_statuses transport)
  | UpdateTestResult r c s l v n t d b e =>
      discard (Manager.update_test_result transport r c s l v n t d b e)
  | BulkUpdateTestResults r items =>
      discard (Manager.bulk_update_test_results transport r items)
  | GetTestRunResults r => discard (Manager.get_test_run_results transport r)
  | CreateTestCycle n d p => discard (Manager.create_test_cycle transport n d p)
  | GetTestCycleIdByName n => discard (Manager.get_test_cycle_id_by_name transport n)
  | GetTestCaseIdByName fuel n => discard (Manager.get_test_case_id_by_name transport fuel n)
  | GetOrCreateTestCycleIdByName n d =>
      discard (Manager.get_or_create_test_cycle_id_by_name transport n d)
  | CreateTestRun n ids id v d ps pe bv ci cn =>
      discard (Manager.create_test_run transport n ids id v d ps pe bv ci cn)
  | ApproveTestCase id => discard (Manager.approve_test_case transport id)
  | GetTestStepIdByOrder c n => discard (Manager.get_test_step_id_by_order transport c n)
  | ResolveTestCaseIdsByNames fuel names =>
      discard (Manager.resolve_test_case_ids_by_names transport fuel names)
  | CreateTestRunByNames fuel n names cn d ps pe bv =>
      discard (Manager.create_test_run_by_names transport fuel n names cn d ps pe bv)
  | UpdateTestResultByName fuel r c s v n t d =>
      discard (Manager.update_test_result_by_name transport fuel r c s v n t d)
  | ApproveTestCaseByName fuel n => discard (Manager.approve_test_case_by_name transport fuel n)
  | EnsureTestRunForCase p t c m b e =>
      discard (Manager.ensure_test_run_for_case transport p t c m b e)
  | GetTestStepIdByName c n => discard (Manager.get_test_step_id_by_name transport c n)
  end.

Fixpoint perform_all (ops : list operation) (st : manager World) : manager World :=
  match ops with
  | [] => st
  | op :: rest => perform_all rest (perform op st).2
  end.

(** The names under which a status list is registered. *)
Definition registered_name (statuses : list pyval) (key : string) : Prop :=
  exists status name,
    In status statuses /\ Py.getitem status "name" = Ret (PStr name) /\ key = Py.upper name.

End Life.

(** The registry built from [Mock.statuses], and the manager that has just
    fetched it. *)
Definition mock_registry : dict := [("PASSED", PInt 1); ("FAILED", PInt 2)].

Definition mock_registered : manager Mock.world :=
  Manager (Some mock_registry) (Mock.World [] 1) [statuses_request].

Definition no_logs : pyval := PDict [("logs", PList [])].

(** ** Vocabulary of the run payload *)

(** The keys [create_test_run] may put at the top level of its payload. *)
Definition run_fields : list string :=
  ["name"; "test_case"; "test_case_ids"; "description"; "properties"].

Definition is_run_creation (req : request) : Prop := endpoint req = "test-runs".


(** The properties entries a run is created with, in their order. *)
Definition property_entries (planned_start_date planned_end_date build_version : pyval)
    : list pyval :=
  ((if Py.truthy planned_start_date
    then [Manager.planned_date "PlannedStartDate" planned_start_date] else [])
   ++ (if Py.truthy planned_end_date
       then [Manager.planned_date "PlannedEndDate" planned_end_date] else [])
   ++ (if Py.is_none build_version then [Manager.build_version_property] else []))%list.

(** ** Vocabulary of the step-log container *)

(** The step logs a container holds. *)
Definition entries (container : pyval) : list pyval :=
  match container with
  | PList l => l
  | PDict d => match Py.get "logs" d with Some (PList logs) => logs | _ => [] end
  | _ => []
  end.

(** The shapes the specification gives a container: absent or empty, a
    list, an object holding a [logs] list, anything else. *)
Inductive shape : Type :=
| Absent
| AList (l : list pyval)
| WithLogs (d : dict) (logs : list pyval)
| Other.

Definition shape_of (container : pyval) : shape :=
  match container with
  | PNone | PStr "" => Absent
  | PList l => AList l
  | PDict d => match Py.get "logs" d with Some (PList logs) => WithLogs d logs | _ => Other end
  | _ => Other
  end.

(** [appendStepLog(container, step)] in the words of the specification;
    a caller error is some exception. *)
Definition spec_appendStepLog (container step : pyval) (outcome : res pyval) : Prop :=
  match shape_of container with
  | Absent => outcome = Ret (PList [step])
  | AList l => outcome = Ret (PList (l ++ [step]))
  | WithLogs d logs => outcome = Ret (PDict (Py.set "logs" (PList (logs ++ [step])) d))
  | Other => exists e, outcome = Raise e
  end.

(** The containers [append_step] takes: [None], [""], a list, or a dict
    whose ['logs'] is missing, [None] or a list. *)
Definition accepted (container : pyval) : bool :=
  match container with
  | PNone | PStr "" | PList _ => true
  | PDict d =>
      match Py.get "logs" d with
      | None | Some PNone | Some (PList _) => true
      | _ => false
      end
  | _ => false
  end.

(** Steps appended one keyword call after the other, each call on the
    container the call before returned. *)
Fixpoint append_steps (container : pyval) (steps : list pyval) : res pyval :=
  match steps with
  | [] => Ret container
  | step :: rest => c <~ Library.append_step container step ;; append_steps c rest
  end.

(** ** Vocabulary of the step resolver *)








Definition steps_request (test_case_id : pyval) : request :=
  Request GET ("test-cases/" ++ Py.str test_case_id ++ "/test-steps") PNone PNone.

(** ** Vocabulary of the cycle hierarchy *)

Definition cycles_request : request := Request GET "test-cycles" PNone PNone.

Definition cycle_creation (d : dict) : request := Request POST "test-cycles" (PDict d) PNone.

(** The platform as a store of test cycles, with nobody else creating
    cycles in it: it lists the cycles it holds, and a creation adds one
    cycle, of the name asked for and with an id, at the end of the list. *)
Record cycle_store {World : Type} (transport : World -> request -> reply * World)
    (cycles_of : World -> list dict) : Prop := {
  lists_cycles : forall w,
    exists w',
      transport w cycles_request = (Body (PList (map PDict (cycles_of w))), w')
      /\ cycles_of w' = cycles_of w;
  creates_cycle : forall w d,
    exists created w',
      transport w (cycle_creation d) = (Body (PDict created), w')
      /\ cycles_of w' = (cycles_of w ++ [created])%list
      /\ Py.get "name" created = Py.get "name" d
      /\ Py.is_none (Py.get_or_none "id" created) = false
}.

Definition has_id (cycle : dict) : bool := negb (Py.is_none (Py.get_or_none "id" cycle)).

(** The platform is unreachable: every request fails with [msg]. *)
Definition unreachable {World : Type} (transport : World -> request -> reply * World)
    (w : World) (msg : string) : Prop :=
  forall req, transport w req = (Failure msg, w).

(** ** Vocabulary of the listings *)

(** A body that lists no steps: an empty list, an object with no [items]
    or with an empty or null [items], or anything that is neither a list
    nor an object. *)
Definition lists_nothing (body : pyval) : bool :=
  match body with
  | PList l => negb (Py.truthy body)
  | PDict d => negb (Py.truthy (Py.get_default "items" (PList []) d))
  | _ => true
  end.

(** The request of [list_test_cases] for one page. *)
Definition cases_request (page : Z) : request :=
  Request GET "test-cases" PNone (PDict [("page", PInt page); ("size", PInt 100)]).

(** From [page] on the platform serves the non-empty [pages], one per
    request, and then a body that is false in Python's sense (an empty
    list, an empty body). *)
Fixpoint serves_pages {World : Type} (transport : World -> request -> reply * World)
    (w : World) (page : Z) (pages : list (list pyval)) : Prop :=
  match pages with
  | [] => exists body w', transport w (cases_request page) = (Body body, w')
                          /\ Py.truthy body = false
  | p :: rest =>
      p <> []
      /\ exists w', transport w (cases_request page) = (Body (PList p), w')
                    /\ serves_pages transport w' (page + 1) rest
  end.

(** The platform answers every page request with a non-empty list. *)
Definition never_runs_out {World : Type} (transport : World -> request -> reply * World)
    : Prop :=
  forall w page, exists l w', transport w (cases_request page) = (Body (PList l), w') /\ l <> [].

(** A computation that comes to an end, with a value or an exception. *)
Definition terminates {World A : Type} (c : M World A) : Prop :=
  forall st, (c st).1 <> Diverge.

(** ** Vocabulary of the runs of a case *)

(** The request of [get_test_runs] under a parent. *)
Definition runs_request (parent_id parent_type : pyval) : request :=
  Request GET "test-runs" PNone
    (PDict [("parentId", parent_id); ("parentType", parent_type); ("pageSize", PInt 1000)]).

Definition case_request (test_case_id : pyval) : request :=
  Request GET ("test-cases/" ++ Py.str test_case_id) PNone PNone.

(** The id of the case a run is bound to: [(r.get('test_case') or {}).get('id')]
    for a run whose [test_case], if any, is an object. *)
Definition bound_case (run : dict) : pyval :=
  match Py.or_ (Py.get_or_none "test_case" run) (PDict []) with
  | PDict tc => Py.get_or_none "id" tc
  | _ => PNone
  end.

Definition run_matches (test_case_id : pyval) (run : dict) : bool :=
  String.eqb (Py.str (bound_case run)) (Py.str test_case_id).

(** A run as the platform lists it: its [test_case] is an object (or
    missing), its [id] a number other than 0. *)
Definition listed_run (run : dict) : bool :=
  match Py.get_or_none "test_case" run with
  | PDict _ => true
  | v => negb (Py.truthy v)
  end
  && match Py.get_or_none "id" run with
     | PInt i => negb (i =? 0)
     | _ => false
     end.

(** The platform as a store of the runs under one parent, with nobody
    else creating runs there: it lists the runs it holds, shows the case,
    and a creation adds one run, bound to the case asked for and with an
    id, at the end of the list. *)
Record run_store {World : Type} (transport : World -> request -> reply * World)
    (parent_id parent_type test_case_id : pyval) (runs_of : World -> list dict) : Prop := {
  lists_runs : forall w,
    exists w',
      transport w (runs_request parent_id parent_type)
      = (Body (PList (map PDict (runs_of w))), w')
      /\ runs_of w' = runs_of w;
  shows_case : forall w,
    exists tc w',
      transport w (case_request test_case_id) = (Body (PDict tc), w')
      /\ runs_of w' = runs_of w;
  creates_run : forall w payload,
    Py.get "test_case" payload = Some (PDict [("id", test_case_id)]) ->
    exists created w',
      transport w (Request POST "test-runs" (PDict payload)
                     (PDict [("parentId", parent_id); ("parentType", parent_type)]))
      = (Body (PDict created), w')
      /\ runs_of w' = (runs_of w ++ [created])%list
      /\ Py.get "test_case" created = Py.get "test_case" payload
      /\ listed_run created = true
}.

(** The payload [create_test_run_for_case] builds when no name is given,
    from the case [tc] the platform shows. *)
Definition run_payload (tc : dict) (test_case_id exe_start_date exe_end_date : pyval) : dict :=
  let payload :=
    [("name", Py.get_default "name" (PStr ("Test Run for " ++ Py.str test_case_id)) tc);
     ("test_case", PDict [("id", test_case_id)])] in
  let payload :=
    if Py.truthy exe_start_date then Py.set "exe_start_date" exe_start_date payload
    else payload in
  if Py.truthy exe_end_date then Py.set "exe_end_date" exe_end_date payload else payload.

(** ** [qtest_robot_library.py]: the keywords that need the manager

    Robot Framework reaches the keywords through the module-level
    wrappers, which all go to the one instance [_LIB]; the keywords are
    modelled on that instance, so that the [approve_qtest_test_case] a
    keyword calls sees the manager the keyword itself has. *)

Module Keywords.

(** [s.split(sep)] with a separator of one character: a separator at
    either end, or two in a row, give an empty piece. *)
Fixpoint split (sep : ascii) (s : string) : list string :=
  match s with
  | EmptyString => [EmptyString]
  | String c s' =>
      if Ascii.eqb c sep then EmptyString :: split sep s'
      else
        match split sep s' with
        | piece :: pieces => String c piece :: pieces
        | [] => [String c EmptyString]
        end
  end.

(** [_normalize_tokens]; a tuple is not among the values modelled. *)
Definition _normalize_tokens (test_case_ids : pyval) : list string :=
  match test_case_ids with
  | PStr s =>
      map Py.strip
        (List.filter (fun t => negb (String.eqb t "") && negb (String.eqb (Py.strip t) ""))
           (split "," s))
  | PList l =>
      map (fun t => Py.strip (Py.str t))
        (List.filter (fun t => negb (String.eqb (Py.strip (Py.str t)) "")) l)
  | _ => [Py.strip (Py.str test_case_ids)]
  end.

Definition _NOT_INITIALIZED_MSG : string :=
  "QTest Manager not initialized. Call 'Initialize QTest Manager' first.".

(** What a keyword comes to: the [RuntimeError] of the guard
    [if not self.manager], or the run of its body on the manager. *)
Inductive outcome (A : Type) : Type :=
| RuntimeError (msg : string)
| Ran (r : res A).

Arguments RuntimeError {A} msg.
Arguments Ran {A} r.

Section Keywords.
Context {World : Type} (transport : World -> request -> reply * World).

Definition K (A : Type) : Type :=
  option (manager World) -> outcome A * option (manager World).

Definition initialized {A} (body : M World A) : K A :=
  fun lib =>
    match lib with
    | None => (RuntimeError _NOT_INITIALIZED_MSG, None)
    | Some mgr => let (r, mgr') := body mgr in (Ran r, Some mgr')
    end.

(** The loop of [_resolve_tokens_to_ids], with its two lists. *)
Fixpoint resolve_tokens (fuel : nat) (tokens : list string) (resolved_ids : list Z)
    (missing : list string) : M World (list Z * list string) :=
  match tokens with
  | [] => ret (resolved_ids, missing)
  | tok :: rest =>
      match Py.int (PStr tok) with
      | Ret id => resolve_tokens fuel rest (resolved_ids ++ [id]) missing
      | Raise _ =>
          tc_id <- try_except (Manager.get_test_case_id_by_name transport fuel (PStr tok))
                     (fun _ => ret PNone) ;;
          if negb (Py.is_none tc_id)
          then id <- lift (Py.int tc_id) ;;
               resolve_tokens fuel rest (resolved_ids ++ [id]) missing
          else resolve_tokens fuel rest resolved_ids (missing ++ [tok])
      | Diverge => lift Diverge
      end
  end.

Definition _resolve_tokens_to_ids (fuel : nat) (tokens : list string)
    : M World (list Z * list string) :=
  resolve_tokens fuel tokens [] [].

(** [try: tc_id = int(str(test_case).strip())
     except Exception: tc_id = self.manager.get_test_case_id_by_name(str(test_case))],
    as [approve_qtest_test_case] and [ensure_qtest_test_run_for_case]
    both have it. *)
Definition case_id_of (fuel : nat) (test_case : pyval) : M World pyval :=
  match Py.int (PStr (Py.strip (Py.str test_case))) with
  | Ret id => ret (PInt id)
  | Raise _ => Manager.get_test_case_id_by_name transport fuel (PStr (Py.str test_case))
  | Diverge => lift Diverge
  end.

(** The last [try] block of [approve_qtest_test_case]. *)
Definition version_id_of (tc_id : pyval) : M World pyval :=
  try_except
    (details <- API.get_test_case transport tc_id ;;
     let details := Py.or_ details (PDict []) in
     direct <- lift (Py.method_get details "test_case_version_id" PNone) ;;
     version_id <- (if Py.truthy direct then ret direct
                    else version <- lift (Py.method_get details "version" PNone) ;;
                         lift (Py.method_get (Py.or_ version (PDict [])) "id" PNone)) ;;
     id <- lift (Py.int (if Py.is_none version_id then tc_id else version_id)) ;;
     ret (PInt id))
    (fun _ => id <- lift (Py.int tc_id) ;; ret (PInt id)).

Definition approve_test_case_body (fuel : nat) (test_case : pyval) : M World pyval :=
  tc_id <- case_id_of fuel test_case ;;
  if Py.is_none tc_id
  then raise (ValueError ("Test case not found: " ++ Py.str test_case))
  else
    Manager.approve_test_case transport tc_id ;;;
    version_id_of tc_id.

Definition approve_qtest_test_case (fuel : nat) (test_case : pyval) : K pyval :=
  initialized (approve_test_case_body fuel test_case).

(** [int(execution_time) if execution_time else None] *)
Definition execution_time_of (execution_time : pyval) : res pyval :=
  if Py.truthy execution_time
  then ms <~ Py.int execution_time ;; Ret (PInt ms)
  else Ret PNone.

(** [report_qtest_result]; [steplogs] is [None] when it is not given. *)
Definition report_qtest_result (fuel : nat) (test_run_id test_case_id status steplogs
    message execution_time exe_start_date exe_end_date : pyval) : K pyval :=
  initialized
    (try_except
       (testcaseversionid <- approve_test_case_body fuel test_case_id ;;
        run <- lift (Py.int test_run_id) ;;
        case <- lift (Py.int test_case_id) ;;
        status_upper <- lift (Py.method_upper status) ;;
        ms <- lift (execution_time_of execution_time) ;;
        Manager.update_test_result transport (PInt run) (PInt case) (PStr status_upper)
          (Some steplogs) testcaseversionid message ms PNone exe_start_date exe_end_date)
       (fun _ => ret PNone)).

Definition bulk_report_qtest_results (test_run_id : pyval) (test_results : list pyval)
    : K pyval :=
  initialized
    (try_except
       (run <- lift (Py.int test_run_id) ;;
        results <- Manager.bulk_update_test_results transport (PInt run) test_results ;;
        ret (PList results))
       (fun _ => ret (PList []))).

(** The module-level [create_qtest_test_step_log] has no [testcaseid]
    parameter and passes its five arguments by position to the method,
    whose first parameter is [testcaseid]: each lands one place to the
    left, and the method's [description] keeps its default. *)
Definition create_qtest_test_step_log (step_number result actual_result expected_result
    description : pyval) : Library.L (World := World) dict :=
  Library.create_qtest_test_step_log transport step_number result actual_result
    expected_result description PNone.

End Keywords.
End Keywords.

(** ** [utils/helpers.py] *)

Module Helpers.

(** [parse_test_results_from_dict], over a dict with string keys. *)
Fixpoint parse_test_results_from_dict (results_dict : dict) : res (list pyval) :=
  match results_dict with
  | [] => Ret []
  | (test_case_id, result) :: rest =>
      id <~ Py.int (PStr test_case_id) ;;
      status <~ Py.method_get result "status" (PStr "PASSED") ;;
      note <~ Py.method_get result "note" (PStr "") ;;
      execution_time <~ Py.method_get result "execution_time" (PInt 0) ;;
      defects <~ Py.method_get result "defects" (PList []) ;;
      test_results <~ parse_test_results_from_dict rest ;;
      Ret (PDict [("test_case_id", PInt id); ("status", status); ("note", note);
                  ("execution_time", execution_time); ("defects", defects)]
           :: test_results)
  end.

End Helpers.

(** ** Vocabulary of the keywords *)

(** The request of [approve_test_case] for the case [n]. *)
Definition approval_request (n : Z) : request :=
  Request PUT ("test-cases/" ++ Py.str (PInt n) ++ "/approve") PNone PNone.

(** ** [QTestAPI.__init__]: the base URL and the [Authorization] header *)

Module QTestAPI.

(** [self.base_url = base_url.rstrip('/')] *)
Definition base_url (base_url : string) : string :=
  Py.rstrip_by (fun c => Ascii.eqb c "/") base_url.

(** [token = api_token or ""], prefixed with [Bearer ] unless it is empty
    or has the prefix already, in any letter case. *)
Definition authorization (api_token : pyval) : res pyval :=
  let token := Py.or_ api_token (PStr "") in
  if Py.truthy token
  then match token with
       | PStr s =>
           if negb (Py.prefix "bearer " (Py.lower s))
           then Ret (PStr ("Bearer " ++ s))
           else Ret token
       | _ => Raise (Py.no_attribute token "lower")
       end
  else Ret token.

(** The URL of [_make_request]. *)
Definition url (base : string) (project_id : pyval) (endpoint : string) : string :=
  base ++ "/api/v3/projects/" ++ Py.str project_id ++ "/" ++ endpoint.

End QTestAPI.

(** ** Vocabulary of a run creation *)

(** The documented types of [test_case_id] and [test_case_version_id]
    (an integer, or [None]) and of [test_case_ids] (a list of integers,
    or [None]). *)
Definition optional_int (v : pyval) : bool :=
  match v with
  | PNone | PInt _ => true
  | _ => false
  end.

Definition optional_ints (v : pyval) : bool :=
  match v with
  | PNone => true
  | PList l => forallb (fun x => match x with PInt _ => true | _ => false end) l
  | _ => false
  end.

(** What is asked of the payload of a run creation: no top-level
    field besides the run's own, a planned date that is given in a
    properties entry under its [field_id], and the Build Version entry
    when no build version is given. *)
Definition dates_and_build_version (ps pe bv : pyval) (d : dict) : Prop :=
  incl (Py.keys d) run_fields
  /\ (Py.truthy ps = true ->
      In (PDict [("field_id", PStr "PlannedStartDate"); ("field_value", ps)])
         (Manager.properties d))
  /\ (Py.truthy pe = true ->
      In (PDict [("field_id", PStr "PlannedEndDate"); ("field_value", pe)])
         (Manager.properties d))
  /\ (bv = PNone ->
      exists entry,
        In entry (Manager.properties d)
        /\ Py.getitem entry "field_id" = Ret (PInt 12625659)
        /\ Py.getitem entry "field_value" = Ret (PStr "[3643503]")).

(** ** Vocabulary of the transport's failures *)

(** A request and what the platform answered. *)
Definition exchange : Type := request * reply.

(** The platform with a record of its exchanges. *)
Definition recorded {World : Type} (transport : World -> request -> reply * World)
    (w : World * list exchange) (req : request) : reply * (World * list exchange) :=
  let (r, w') := transport (fst w) req in (r, (w', (snd w ++ [(req, r)])%list)).

Definition log_of {World : Type} (st : manager (World * list exchange)) : list exchange :=
  snd (platform st).





(** * Properties *)

(** ** The Python primitives on examples *)

Example str_of_Z_ex : map Py.str_of_Z [0; 7; -12; 3643503] = ["0"; "7"; "-12"; "3643503"].
Proof. reflexivity. Qed.

Example repr_ex :
  Py.repr (PList [PStr "PASSED"; PStr "FAILED"]) = "['PASSED', 'FAILED']".
Proof. reflexivity. Qed.

Example int_ex :
  map Py.int [PStr " 12 "; PStr "+1_0"; PStr "-3"; PBool true] = [Ret 12; Ret 10; Ret (-3); Ret 1]
  /\ Py.parse_int "1__0" = None /\ Py.parse_int "" = None /\ Py.parse_int "2.0" = None.
Proof. repeat split; reflexivity. Qed.

(** Upper-casing forgets the letter case of its argument. *)
Lemma upper_char_ignores_case c :
  Py.upper_char (Py.lower_char c) = Py.upper_char c
  /\ Py.upper_char (Py.upper_char c) = Py.upper_char c.
Proof. destruct c as [[] [] [] [] [] [] [] []]; split; reflexivity. Qed.

Lemma upper_ignores_case s :
  Py.upper (Py.lower s) = Py.upper s /\ Py.upper (Py.upper s) = Py.upper s.
Proof.
  induction s as [| c s [IH1 IH2]]; [split; reflexivity |].
  destruct (upper_char_ignores_case c) as [H1 H2].
  unfold Py.upper, Py.lower in *. simpl. rewrite H1, H2, IH1, IH2. split; reflexivity.
Qed.

Example strip_ex : Py.strip "  Sprint 1 " = "Sprint 1" /\ Py.lower "Sprint 1" = "sprint 1".
Proof. split; reflexivity. Qed.

(** ** Generic facts about the monad *)

Section Facts.
Context {World : Type} (transport : World -> request -> reply * World).

Lemma issues_ret {A} P (a : A) : issues (World := World) P (ret a).
Proof. intros st. exists []. simpl. rewrite app_nil_r. auto. Qed.

Lemma issues_lift {A} P (r : res A) : issues (World := World) P (lift r).
Proof. intros st. exists []. simpl. rewrite app_nil_r. auto. Qed.

Lemma issues_raise {A} P e : issues (World := World) P (raise (A := A) e).
Proof. intros st. exists []. simpl. rewrite app_nil_r. auto. Qed.

Lemma issues_bind {A B} P (c : M World A) (k : A -> M World B) :
  issues P c ->
  (forall a st, (c st).1 = Ret a -> issues P (k a)) ->
  issues P (bind c k).
Proof.
  intros Hc Hk st. destruct (Hc st) as (n1 & E1 & F1).
  unfold bind. destruct (c st) as [[a | e |] st1] eqn:E; simpl in *.
  - assert (H1 : (c st).1 = Ret a) by (rewrite E; reflexivity).
    destruct (Hk a st H1 st1) as (n2 & E2 & F2).
    exists (n1 ++ n2)%list. rewrite E2, E1, app_assoc. split; [reflexivity |].
    apply Forall_app; auto.
  - exists n1; auto.
  - exists n1; auto.
Qed.

Lemma issues_try {A} P (c : M World A) (h : exn -> M World A) :
  issues P c -> (forall e, issues P (h e)) -> issues P (try_except c h).
Proof.
  intros Hc Hh st. destruct (Hc st) as (n1 & E1 & F1).
  unfold try_except. destruct (c st) as [[a | e |] st1] eqn:E; simpl in *.
  - exists n1; auto.
  - destruct (Hh e st1) as (n2 & E2 & F2).
    exists (n1 ++ n2)%list. rewrite E2, E1, app_assoc. split; [reflexivity |].
    apply Forall_app; auto.
  - exists n1; auto.
Qed.

Lemma issues_request (P : request -> Prop) m ep d p :
  P (Request m ep d p) -> issues P (API._make_request transport m ep d p).
Proof.
  intros HP st. exists [Request m ep d p]. unfold API._make_request.
  destruct (transport (platform st) _) as [[v | msg] w]; simpl; auto.
Qed.

Lemma issues_weaken {A} (P Q : request -> Prop) (c : M World A) :
  (forall r, P r -> Q r) -> issues P c -> issues Q c.
Proof.
  intros PQ Hc st. destruct (Hc st) as (n & E & F). exists n. split; [exact E |].
  eapply Forall_impl; eauto.
Qed.

Lemma keeps_ret {A} (a : A) : keeps_cache (World := World) (ret a).
Proof. intros st m H. exact H. Qed.

Lemma keeps_lift {A} (r : res A) : keeps_cache (World := World) (lift r).
Proof. intros st m H. exact H. Qed.

Lemma keeps_raise {A} e : keeps_cache (World := World) (raise (A := A) e).
Proof. intros st m H. exact H. Qed.

Lemma keeps_bind {A B} (c : M World A) (k : A -> M World B) :
  keeps_cache c -> (forall a, keeps_cache (k a)) -> keeps_cache (bind c k).
Proof.
  intros Hc Hk st m H. specialize (Hc st m H). unfold bind.
  destruct (c st) as [[a | e |] st1]; simpl in *; auto.
  apply Hk; exact Hc.
Qed.

Lemma keeps_try {A} (c : M World A) (h : exn -> M World A) :
  keeps_cache c -> (forall e, keeps_cache (h e)) -> keeps_cache (try_except c h).
Proof.
  intros Hc Hh st m H. specialize (Hc st m H). unfold try_except.
  destruct (c st) as [[a | e |] st1]; simpl in *; auto.
  apply Hh; exact Hc.
Qed.

Lemma keeps_request m ep d p : keeps_cache (API._make_request transport m ep d p).
Proof.
  intros st c H. unfold API._make_request.
  destruct (transport (platform st) _) as [[v | msg] w]; simpl; exact H.
Qed.

End Facts.

(** ** Bulk reporting *)

Section Bulk.
Context {World : Type} (transport : World -> request -> reply * World).

Lemma bulk_item_fails test_run_id item (st : manager World) :
  carries_test_case_id item = true ->
  Manager.bulk_item transport test_run_id item st = (Raise (item_failure item), st).
Proof.
  destruct item as [| | | | |d]; try discriminate. simpl.
  unfold Py.contains, Manager.bulk_item, item_failure, bind, lift. simpl.
  unfold Py.subscript.
  destruct (Py.get "test_case_id" d); [| discriminate]. intros _.
  destruct (Py.get "status" d); reflexivity.
Qed.

Lemma bulk_failed_entry item e (st : manager World) :
  carries_test_case_id item = true ->
  Manager.bulk_failed item e st
  = (Ret (PDict [("error", PStr (Py.exn_str e));
                 ("test_case_id",
                  match item with PDict d => Py.get_or_none "test_case_id" d | _ => PNone end)]),
     st).
Proof.
  destruct item as [| | | | |d]; try discriminate. simpl.
  unfold Py.contains, Manager.bulk_failed, bind, lift, Py.get_or_none. simpl.
  unfold Py.subscript.
  destruct (Py.get "test_case_id" d); [reflexivity | discriminate].
Qed.

Lemma bulk_loop_all_fail test_run_id items : forall results (st : manager World),
  Forall (fun item => carries_test_case_id item = true) items ->
  Manager.bulk_loop transport test_run_id items results st
  = (Ret (results ++ map failed_entry items)%list, st).
Proof.
  induction items as [| item items IH]; intros results st Hall.
  - simpl. rewrite app_nil_r. reflexivity.
  - inversion Hall as [| ? ? Hitem Hrest]; subst.
    simpl. unfold bind at 1. unfold try_except.
    rewrite (bulk_item_fails _ _ _ Hitem), (bulk_failed_entry _ _ _ Hitem).
    rewrite IH by assumption. rewrite <- app_assoc. reflexivity.
Qed.

Lemma successful_of_failed items :
  exists n, Manager.successful (map failed_entry items) = Ret n.
Proof.
  unfold Manager.successful.
  assert (H : map_res (Py.contains_str "error") (map failed_entry items)
              = Ret (map (fun _ => true) items)).
  { induction items as [| item items IH]; [reflexivity |].
    simpl map. simpl map_res. rewrite IH. reflexivity. }
  rewrite H. simpl. eauto.
Qed.

Lemma bulk_update_all_fail test_run_id items (st : manager World) :
  Forall (fun item => carries_test_case_id item = true) items ->
  Manager.bulk_update_test_results transport test_run_id items st
  = (Ret (map failed_entry items), st).
Proof.
  intros Hall. unfold Manager.bulk_update_test_results, bind.
  rewrite bulk_loop_all_fail by assumption. simpl app.
  destruct (successful_of_failed items) as [n Hn].
  unfold lift. rewrite Hn. reflexivity.
Qed.

(** C1 (the code departs from it). Whatever status an item names, the
    registry's included, [bulk_update_test_results] never returns a test
    log for it: [update_test_result] is called without its required
    [steplogs], so each entry of the result is an error record and no
    request reaches the platform. *)
Theorem bulk_update_reports_no_test_log test_run_id items (st : manager World) :
  Forall (fun item => carries_test_case_id item = true) items ->
  exists results,
    Manager.bulk_update_test_results transport test_run_id items st = (Ret results, st)
    /\ length results = length items
    /\ Forall (fun entry => has_error_key entry = true) results.
Proof.
  intros Hall. exists (map failed_entry items).
  split; [apply bulk_update_all_fail; assumption |].
  split; [apply length_map |].
  apply Forall_map. apply Forall_forall. intros item _. reflexivity.
Qed.

(** C2. For a batch of documented items, each a dict that carries its
    ['test_case_id'], [bulk_update_test_results] returns normally with
    one entry per item, in the order of the input; the entry of an item
    whose call fails with [e] is the record
    [{'error': str(e), 'test_case_id': ...}] at the item's own position,
    and the items after it are still processed, also when every item
    fails. *)
Theorem bulk_update_isolates_failures test_run_id items (st : manager World) :
  Forall (fun item => carries_test_case_id item = true) items ->
  exists results,
    Manager.bulk_update_test_results transport test_run_id items st = (Ret results, st)
    /\ length results = length items
    /\ forall (i : nat) item e st1 st2,
         items !! i = Some item ->
         Manager.bulk_item transport test_run_id item st1 = (Raise e, st2) ->
         exists test_case_id,
           Py.getitem item "test_case_id" = Ret test_case_id
           /\ results !! i
              = Some (PDict [("error", PStr (Py.exn_str e)); ("test_case_id", test_case_id)]).
Proof.
  intros Hall. exists (map failed_entry items).
  split; [apply bulk_update_all_fail; assumption |].
  split; [apply length_map |].
  intros i item e st1 st2 Hi Hcall.
  assert (Hitem : carries_test_case_id item = true).
  { rewrite Forall_forall in Hall. apply Hall. eapply list_elem_of_lookup_2; eauto. }
  rewrite (bulk_item_fails _ _ _ Hitem) in Hcall. inversion Hcall; subst e st2.
  rewrite list_lookup_fmap, Hi. simpl. unfold failed_entry.
  destruct item as [| | | | |d]; try discriminate. simpl in *.
  unfold Py.contains in Hitem. unfold Py.subscript, Py.get_or_none.
  destruct (Py.get "test_case_id" d) as [tc |]; [| discriminate].
  exists tc. split; reflexivity.
Qed.

End Bulk.

(** The batch of the unit test, both statuses in the registry: two error
    records, where the test expects the logs 201 and 202. *)
Lemma bulk_update_reports_no_test_log_witness :
  Forall (fun item => carries_test_case_id item = true) two_results
  /\ Forall (fun item => names_status [("PASSED", PInt 1); ("FAILED", PInt 2)] item = true)
       two_results
  /\ exists results,
       Manager.bulk_update_test_results Mock.transport (PInt 100) two_results Mock.fresh
       = (Ret results, Mock.fresh)
       /\ length results = length two_results
       /\ Forall (fun entry => has_error_key entry = true) results.
Proof.
  split; [repeat constructor |].
  split; [repeat constructor |].
  apply (bulk_update_reports_no_test_log Mock.transport (PInt 100) two_results Mock.fresh).
  repeat constructor.
Defined.

Lemma bulk_update_isolates_failures_witness :
  Forall (fun item => carries_test_case_id item = true) two_results
  /\ exists results,
       Manager.bulk_update_test_results Mock.transport (PInt 100) two_results Mock.fresh
       = (Ret results, Mock.fresh)
       /\ length results = length two_results
       /\ forall (i : nat) item e st1 st2,
            two_results !! i = Some item ->
            Manager.bulk_item Mock.transport (PInt 100) item st1 = (Raise e, st2) ->
            exists test_case_id,
              Py.getitem item "test_case_id" = Ret test_case_id
              /\ results !! i
                 = Some (PDict [("error", PStr (Py.exn_str e)); ("test_case_id", test_case_id)]).
Proof.
  split; [repeat constructor |].
  apply (bulk_update_isolates_failures Mock.transport (PInt 100) two_results Mock.fresh).
  repeat constructor.
Defined.

(** Outside the documented items: an item without ['test_case_id'] raises
    [KeyError] in the [try] block and again in the [except] block, which
    leaves the loop. *)
Lemma bulk_update_aborts_without_test_case_id :
  ~ (forall (test_run_id : pyval) (items : list pyval) (st : manager Mock.world),
       exists results st',
         Manager.bulk_update_test_results Mock.transport test_run_id items st
         = (Ret results, st')
         /\ length results = length items).
Proof.
  intros H.
  destruct (H (PInt 100) [PDict [("status", PStr "PASSED")]] Mock.fresh)
    as (results & st' & Hrun & _).
  vm_compute in Hrun. discriminate Hrun.
Qed.

(** ** Dictionaries *)

Lemma get_set_eq k v d : Py.get k (Py.set k v d) = Some v.
Proof.
  induction d as [| [k' v'] d IH]; simpl.
  - rewrite String.eqb_refl. reflexivity.
  - destruct (String.eqb k k') eqn:E; simpl; rewrite E; auto.
Qed.

Lemma get_set_ne k k' v d : k <> k' -> Py.get k (Py.set k' v d) = Py.get k d.
Proof.
  intros Hne. induction d as [| [k0 v0] d IH]; simpl.
  - destruct (String.eqb_spec k k'); [contradiction | reflexivity].
  - destruct (String.eqb_spec k' k0) as [-> | Hk]; simpl.
    + destruct (String.eqb_spec k k0); [contradiction | reflexivity].
    + destruct (String.eqb_spec k k0); [reflexivity | exact IH].
Qed.

Lemma get_set_if_ne k k' c v d : k <> k' -> Py.get k (Manager.set_if c k' v d) = Py.get k d.
Proof. intros Hne. destruct c; simpl; [apply get_set_ne; exact Hne | reflexivity]. Qed.

Lemma keys_set_incl k v d : incl (Py.keys (Py.set k v d)) (k :: Py.keys d).
Proof.
  induction d as [| [k' v'] d IH]; simpl.
  - intros x Hx. exact Hx.
  - destruct (String.eqb_spec k k') as [-> | Hk]; simpl.
    + intros x Hx. right. exact Hx.
    + intros x [-> | Hx]; [right; left; reflexivity |].
      destruct (IH x Hx) as [-> | Hin]; [left; reflexivity | right; right; exact Hin].
Qed.

(** ** The status registry and the result reporter *)

Section Reporter.
Context {World : Type} (transport : World -> request -> reply * World).

Lemma get_execution_statuses_requests (st : manager World) :
  sent (Manager.get_execution_statuses transport st).2 = sent st
  \/ sent (Manager.get_execution_statuses transport st).2 = (sent st ++ [statuses_request])%list.
Proof.
  unfold Manager.get_execution_statuses.
  destruct (_execution_statuses st); [left; reflexivity |].
  right. unfold bind, API.get_execution_statuses, API._make_request, lift.
  destruct (transport (platform st) _) as [[v | msg] w]; simpl; [| reflexivity].
  destruct (Py.iter v) as [items | e |]; simpl; try reflexivity.
  destruct (Manager.status_mapping items []); reflexivity.
Qed.

Lemma test_log_data_status statuses name case version note time defects start finish d :
  Manager.test_log_data statuses name case version note time defects start finish = Ret d ->
  Py.get "status" d
  = Some (PDict [("id", Py.get_or_none name statuses); ("name", PStr name)]).
Proof.
  unfold Manager.test_log_data. intros H.
  destruct (Py.truthy defects).
  - destruct (Py.iter defects) as [ids | e |]; simpl in H; try discriminate.
    inversion H; subst d; clear H.
    repeat rewrite get_set_if_ne by discriminate.
    rewrite get_set_ne by discriminate.
    repeat rewrite get_set_if_ne by discriminate. reflexivity.
  - simpl in H. inversion H; subst d; clear H.
    repeat rewrite get_set_if_ne by discriminate. reflexivity.
Qed.

Lemma update_after_registry
    test_run_id test_case_id (status : string) steplogs
    version note time defects start finish (st st1 : manager World) statuses :
  Manager.get_execution_statuses transport st = (Ret statuses, st1) ->
  Manager.update_test_result transport test_run_id test_case_id (PStr status)
    (Some steplogs) version note time defects start finish st
  = (if negb (Py.contains (Py.upper status) statuses)
     then raise (Manager.invalid_status (PStr status) statuses)
     else
       d <- lift (Manager.test_log_data statuses (Py.upper status) test_case_id version
                    note time defects start finish) ;;
       logs <- lift (Py.getitem steplogs "logs") ;;
       result <- API.add_test_log transport test_run_id
                   (PDict (Py.set "test_step_logs" logs d)) ;;
       lift (Py.method_get result "id" PNone) ;;;
       ret result) st1.
Proof.
  intros Hreg. unfold Manager.update_test_result, bind at 1. rewrite Hreg. reflexivity.
Qed.

Lemma test_log_data_returns statuses name case version note time defects start finish :
  defects = PNone \/ (exists l, defects = PList l) ->
  exists d,
    Manager.test_log_data statuses name case version note time defects start finish = Ret d.
Proof.
  unfold Manager.test_log_data.
  intros [-> | [l ->]]; [eexists; reflexivity |].
  destruct l; eexists; reflexivity.
Qed.

(** C3. With the registry at hand (cached, or fetched by this call), its
    names and the status name given being ASCII text: a status name
    whose upper-case form is not one of the registry's keys makes
    [update_test_result] raise [ValueError] with the message
    "Invalid status: ... Available statuses: [...]" listing the
    registry's names, and the only request the call may have issued is
    the fetch of the statuses. When the name is a key, every request
    issued after the lookup is the add-test-log submission and carries
    [{'id': the mapped id, 'name': the upper-cased name}]; and when the
    step logs hold ['logs'] and the defects are a list or [None], that
    submission is issued, once, with that status and those logs in its
    payload. *)
Theorem update_result_resolves_status
    test_run_id test_case_id (status : string) steplogs
    version note time defects start finish (st st1 : manager World) statuses :
  Manager.get_execution_statuses transport st = (Ret statuses, st1) ->
  Py.is_ascii status = true ->
  Forall (fun name => Py.is_ascii name = true) (Py.keys statuses) ->
  let call :=
    Manager.update_test_result transport test_run_id test_case_id (PStr status)
      (Some steplogs) version note time defects start finish st in
  (Py.contains (Py.upper status) statuses = false ->
     call = (Raise (ValueError ("Invalid status: " ++ status ++ ". Available statuses: "
                                ++ Py.repr (PList (map PStr (Py.keys statuses))))), st1)
     /\ (sent st1 = sent st \/ sent st1 = (sent st ++ [statuses_request])%list))
  /\ (forall id, Py.get (Py.upper status) statuses = Some id ->
        (exists new,
           sent call.2 = (sent st1 ++ new)%list
           /\ Forall (submits_status test_run_id id (Py.upper status)) new)
        /\ (forall holder logs,
              steplogs = PDict holder -> Py.get "logs" holder = Some logs ->
              defects = PNone \/ (exists l, defects = PList l) ->
              exists payload,
                sent call.2
                = (sent st1
                   ++ [Request POST ("test-runs/" ++ Py.str test_run_id ++ "/test-logs")
                         (PDict payload) PNone])%list
                /\ Py.get "status" payload
                   = Some (PDict [("id", id); ("name", PStr (Py.upper status))])
                /\ Py.get "test_step_logs" payload = Some logs)).
Proof.
  intros Hreg _ _ call. subst call.
  rewrite (update_after_registry _ _ _ _ _ _ _ _ _ _ _ _ _ Hreg).
  split.
  - intros Hno. rewrite Hno. simpl. split; [reflexivity |].
    pose proof (get_execution_statuses_requests st) as H. rewrite Hreg in H. exact H.
  - intros id Hid. unfold Py.contains. rewrite Hid. cbv beta iota delta [negb].
    assert (Hsubmit : forall d logs,
              Manager.test_log_data statuses (Py.upper status) test_case_id version
                note time defects start finish = Ret d ->
              Py.getitem steplogs "logs" = Ret logs ->
              sent ((d0 <- lift (Manager.test_log_data statuses (Py.upper status) test_case_id
                                   version note time defects start finish) ;;
                     logs0 <- lift (Py.getitem steplogs "logs") ;;
                     result <- API.add_test_log transport test_run_id
                                 (PDict (Py.set "test_step_logs" logs0 d0)) ;;
                     lift (Py.method_get result "id" PNone) ;;; ret result) st1).2
              = (sent st1
                 ++ [Request POST ("test-runs/" ++ Py.str test_run_id ++ "/test-logs")
                       (PDict (Py.set "test_step_logs" logs d)) PNone])%list
              /\ Py.get "status" (Py.set "test_step_logs" logs d)
                 = Some (PDict [("id", id); ("name", PStr (Py.upper status))])).
    { intros d logs Hd Hlogs. split.
      - unfold bind at 1. unfold lift at 1. rewrite Hd. cbv beta iota.
        unfold bind at 1. unfold lift at 1. rewrite Hlogs. cbv beta iota.
        unfold bind, API.add_test_log, API._make_request, lift. cbv zeta.
        destruct (transport (platform st1) _) as [[v | msg] w]; simpl; [| reflexivity].
        destruct (Py.method_get v "id" PNone); reflexivity.
      - rewrite get_set_ne by discriminate.
        rewrite (test_log_data_status _ _ _ _ _ _ _ _ _ _ Hd).
        unfold Py.get_or_none. rewrite Hid. reflexivity. }
    split.
    + destruct (Manager.test_log_data statuses (Py.upper status) test_case_id version
                  note time defects start finish) as [d | e |] eqn:Hd.
      2,3: exists []; simpl; rewrite app_nil_r; split; [reflexivity | constructor].
      destruct (Py.getitem steplogs "logs") as [logs | e |] eqn:Hlogs.
      2,3: exists []; simpl; rewrite app_nil_r; split; [reflexivity | constructor].
      destruct (Hsubmit d logs eq_refl eq_refl) as [Hsent Hstatus].
      eexists. split; [exact Hsent |].
      constructor; [| constructor]. eexists. split; [reflexivity | exact Hstatus].
    + intros holder logs Hholder Hlogs Hdefects.
      destruct (test_log_data_returns statuses (Py.upper status) test_case_id version note
                  time defects start finish Hdefects) as [d Hd].
      assert (Hget : Py.getitem steplogs "logs" = Ret logs).
      { subst steplogs. simpl. unfold Py.subscript. rewrite Hlogs. reflexivity. }
      destruct (Hsubmit d logs Hd Hget) as [Hsent Hstatus].
      exists (Py.set "test_step_logs" logs d).
      split; [exact Hsent |]. split; [exact Hstatus | apply get_set_eq].
Qed.

End Reporter.

(** ** The status cache through the life of a manager *)

Ltac keeps_step :=
  first
    [ apply keeps_ret | apply keeps_lift | apply keeps_raise | apply keeps_request
    | assumption
    | apply keeps_bind; [| intros ?]
    | apply keeps_try; [| intros ?]
    | match goal with
      | |- keeps_cache (if ?b then _ else _) => destruct b
      | |- keeps_cache (match ?x with _ => _ end) => destruct x
      end ].

Ltac keeps := repeat keeps_step.

Section CacheFacts.
Context {World : Type} (transport : World -> request -> reply * World).

Lemma keeps_get_execution_statuses :
  keeps_cache (Manager.get_execution_statuses transport).
Proof.
  intros st m H. unfold Manager.get_execution_statuses. rewrite H. exact H.
Qed.

Lemma keeps_update_test_result r c s l v n t d b e :
  keeps_cache (Manager.update_test_result transport r c s l v n t d b e).
Proof.
  unfold Manager.update_test_result. destruct l; [| apply keeps_raise].
  apply keeps_bind; [apply keeps_get_execution_statuses | intros statuses].
  unfold API.add_test_log. keeps.
Qed.

Lemma keeps_bulk_loop r items : forall results,
  keeps_cache (Manager.bulk_loop transport r items results).
Proof.
  induction items as [| item items IH]; intros results; simpl; [apply keeps_ret |].
  apply keeps_bind; [| intros entry; apply IH].
  apply keeps_try.
  - unfold Manager.bulk_item. repeat (apply keeps_bind; [apply keeps_lift | intros ?]).
    apply keeps_update_test_result.
  - intros e. unfold Manager.bulk_failed. keeps.
Qed.

Lemma keeps_create_test_cycle n d p :
  keeps_cache (Manager.create_test_cycle transport n d p).
Proof. unfold Manager.create_test_cycle, API.create_test_cycle. keeps. Qed.

Lemma keeps_find_test_cycle_id_by_name n :
  keeps_cache (API.find_test_cycle_id_by_name transport n).
Proof. unfold API.find_test_cycle_id_by_name, API.get_test_cycles. keeps. Qed.

Lemma keeps_list_test_cases_from fuel : forall page size acc,
  keeps_cache (API.list_test_cases_from transport fuel page size acc).
Proof.
  induction fuel as [| fuel IH]; intros page size acc; simpl.
  - intros st m H. exact H.
  - apply keeps_bind; [apply keeps_request | intros resp].
    destruct (negb (Py.truthy resp)); [apply keeps_ret |].
    destruct resp; try apply keeps_ret; [apply IH |].
    destruct (negb _); [apply keeps_ret |].
    apply keeps_bind; [apply keeps_lift | intros more; apply IH].
Qed.

Lemma keeps_find_test_case_id_by_name fuel n :
  keeps_cache (API.find_test_case_id_by_name transport fuel n).
Proof.
  unfold API.find_test_case_id_by_name, API.list_test_cases.
  apply keeps_try; [| intros e; apply keeps_ret].
  apply keeps_bind; [apply keeps_list_test_cases_from | intros cases]. keeps.
Qed.

Lemma keeps_get_or_create n d :
  keeps_cache (Manager.get_or_create_test_cycle_id_by_name transport n d).
Proof.
  unfold Manager.get_or_create_test_cycle_id_by_name, Manager.get_test_cycle_id_by_name.
  apply keeps_bind; [apply keeps_find_test_cycle_id_by_name | intros id].
  destruct (negb _); [apply keeps_ret |].
  apply keeps_bind; [apply keeps_create_test_cycle | intros created; apply keeps_lift].
Qed.

Lemma keeps_create_test_run n ids id v d ps pe bv ci cn :
  keeps_cache (Manager.create_test_run transport n ids id v d ps pe bv ci cn).
Proof.
  unfold Manager.create_test_run, API.create_test_run.
  apply keeps_bind; [| intros parent; keeps].
  destruct (Py.truthy ci); [apply keeps_ret |].
  destruct (Py.truthy cn); [| apply keeps_ret].
  apply keeps_bind; [apply keeps_get_or_create | intros c; apply keeps_ret].
Qed.

Lemma keeps_get_test_step_id_by_order c n :
  keeps_cache (Manager.get_test_step_id_by_order transport c n).
Proof.
  unfold Manager.get_test_step_id_by_order, API.find_test_step_id_by_order,
    API.get_test_steps.
  keeps.
Qed.

Lemma keeps_resolve_names fuel names :
  keeps_cache (Manager.resolve_test_case_ids_by_names transport fuel names).
Proof.
  induction names as [| name names IH]; simpl; [apply keeps_ret |].
  apply keeps_bind; [apply keeps_find_test_case_id_by_name | intros cid].
  apply keeps_bind; [exact IH | intros resolved; apply keeps_ret].
Qed.

Lemma keeps_approve_test_case id : keeps_cache (Manager.approve_test_case transport id).
Proof. unfold Manager.approve_test_case, API.approve_test_case. keeps. Qed.

Lemma keeps_perform op : keeps_cache (perform transport op).
Proof.
  destruct op; unfold perform, discard;
    (apply keeps_bind; [| intros ?; apply keeps_ret]).
  - apply keeps_get_execution_statuses.
  - unfold Manager.get_available_statuses.
    apply keeps_bind; [apply keeps_get_execution_statuses | intros ?; apply keeps_ret].
  - apply keeps_update_test_result.
  - unfold Manager.bulk_update_test_results.
    apply keeps_bind; [apply keeps_bulk_loop | intros ?; keeps].
  - unfold Manager.get_test_run_results, API.get_test_logs. keeps.
  - apply keeps_create_test_cycle.
  - apply keeps_find_test_cycle_id_by_name.
  - apply keeps_find_test_case_id_by_name.
  - apply keeps_get_or_create.
  - apply keeps_create_test_run.
  - apply keeps_approve_test_case.
  - apply keeps_get_test_step_id_by_order.
  - apply keeps_resolve_names.
  - unfold Manager.create_test_run_by_names.
    apply keeps_bind.
    { destruct (Py.truthy _); [apply keeps_find_test_cycle_id_by_name | apply keeps_ret]. }
    intros _. apply keeps_bind; [apply keeps_resolve_names | intros [| cid ids]].
    + apply keeps_raise.
    + apply keeps_create_test_run.
  - unfold Manager.update_test_result_by_name.
    apply keeps_bind; [apply keeps_find_test_case_id_by_name | intros cid].
    destruct (Py.is_none cid); [apply keeps_raise | apply keeps_update_test_result].
  - unfold Manager.approve_test_case_by_name.
    apply keeps_bind; [apply keeps_find_test_case_id_by_name | intros cid].
    destruct (Py.is_none cid); [apply keeps_raise | apply keeps_approve_test_case].
  - unfold Manager.ensure_test_run_for_case, API.find_test_run_id_by_test_case,
      API.get_test_runs, API.create_test_run_for_case, API.get_test_case.
    keeps.
  - unfold Manager.get_test_step_id_by_name, API.get_test_steps. keeps.
Qed.

Lemma keeps_perform_all ops : forall (st : manager World) m,
  _execution_statuses st = Some m ->
  _execution_statuses (perform_all transport ops st) = Some m.
Proof.
  induction ops as [| op ops IH]; intros st m H; simpl; [exact H |].
  apply IH. apply keeps_perform. exact H.
Qed.

Lemma keys_set_iff k k' v d : In k (Py.keys (Py.set k' v d)) <-> k = k' \/ In k (Py.keys d).
Proof.
  induction d as [| [k0 v0] d IH]; simpl.
  - intuition.
  - destruct (String.eqb_spec k' k0) as [-> | Hne]; simpl; [intuition |].
    rewrite IH. intuition.
Qed.

Lemma status_mapping_keys statuses : forall acc m,
  Manager.status_mapping statuses acc = Ret m ->
  forall k, In k (Py.keys m) <-> In k (Py.keys acc) \/ registered_name statuses k.
Proof.
  induction statuses as [| status statuses IH]; intros acc m Hm k; simpl in Hm.
  - inversion Hm; subst. split; [auto |].
    intros [H | (s & n & [] & _)]. exact H.
  - destruct (Py.getitem status "name") as [name | |] eqn:Hname; try discriminate.
    simpl in Hm.
    destruct name as [| | | name | |]; try discriminate. simpl in Hm.
    destruct (Py.getitem status "id") as [id | |] eqn:Hid; try discriminate.
    simpl in Hm. rewrite (IH _ _ Hm k), keys_set_iff. split.
    + intros [[-> | H] | (s & n & Hin & Hn & ->)].
      * right. exists status, name. simpl. auto.
      * left. exact H.
      * right. exists s, n. simpl. auto.
    + intros [H | (s & n & [<- | Hin] & Hn & ->)].
      * left. right. exact H.
      * rewrite Hname in Hn. inversion Hn; subst. left. left. reflexivity.
      * right. exists s, n. auto.
Qed.

(** C9. The first [get_execution_statuses] of a manager fetches the
    status list with one request and caches a mapping whose keys are the
    upper-cased names of the statuses; from then on, through whatever
    operations the manager performs, the cache holds that same mapping,
    and [get_execution_statuses] returns it and leaves the manager as it
    is, with no request issued. *)
Theorem statuses_populated_once (st st1 : manager World) statuses :
  _execution_statuses st = None ->
  Manager.get_execution_statuses transport st = (Ret statuses, st1) ->
  (exists body items w,
     transport (platform st) statuses_request = (Body body, w)
     /\ Py.iter body = Ret items
     /\ Manager.status_mapping items [] = Ret statuses
     /\ (forall key, In key (Py.keys statuses) <-> registered_name items key)
     /\ st1 = Manager (Some statuses) w (sent st ++ [statuses_request]))
  /\ forall ops,
       let st2 := perform_all transport ops st1 in
       _execution_statuses st2 = Some statuses
       /\ Manager.get_execution_statuses transport st2 = (Ret statuses, st2).
Proof.
  intros Hnone Hcall.
  assert (Hfirst : exists body items w,
     transport (platform st) statuses_request = (Body body, w)
     /\ Py.iter body = Ret items
     /\ Manager.status_mapping items [] = Ret statuses
     /\ st1 = Manager (Some statuses) w (sent st ++ [statuses_request])).
  { unfold Manager.get_execution_statuses in Hcall. rewrite Hnone in Hcall.
    unfold bind, API.get_execution_statuses, API._make_request, lift in Hcall.
    cbv zeta in Hcall. fold statuses_request in Hcall.
    destruct (transport (platform st) statuses_request) as [[body | msg] w] eqn:Ht;
      [| discriminate].
    destruct (Py.iter body) as [items | |] eqn:Hi; try discriminate.
    destruct (Manager.status_mapping items []) as [m | |] eqn:Hm; try discriminate.
    simpl in Hcall. inversion Hcall; subst. exists body, items, w. auto. }
  destruct Hfirst as (body & items & w & Ht & Hi & Hm & ->).
  split.
  - exists body, items, w. repeat split; auto.
    + intros H. apply (status_mapping_keys _ _ _ Hm) in H. destruct H as [[] | H]. exact H.
    + intros H. apply (status_mapping_keys _ _ _ Hm). right. exact H.
  - intros ops st2.
    assert (Hc : _execution_statuses st2 = Some statuses)
      by (apply keeps_perform_all; reflexivity).
    split; [exact Hc |].
    unfold Manager.get_execution_statuses. rewrite Hc. reflexivity.
Qed.

End CacheFacts.

(** The scenario of the specification: with the statuses Passed (1) and
    Failed (2), "passed" is submitted as [{'id': 1, 'name': 'PASSED'}],
    and "blocked" is refused with the two names of the registry listed. *)
Lemma update_result_resolves_status_witness :
  Manager.get_execution_statuses Mock.transport Mock.fresh = (Ret mock_registry, mock_registered)
  /\ Py.is_ascii "passed" = true
  /\ Forall (fun name => Py.is_ascii name = true) (Py.keys mock_registry)
  /\ Py.contains (Py.upper "blocked") mock_registry = false
  /\ Manager.update_test_result Mock.transport (PInt 100) (PInt 10) (PStr "blocked")
       (Some no_logs) PNone PNone PNone PNone PNone PNone Mock.fresh
     = (Raise (ValueError "Invalid status: blocked. Available statuses: ['PASSED', 'FAILED']"),
        mock_registered)
  /\ Py.get (Py.upper "passed") mock_registry = Some (PInt 1)
  /\ exists payload,
       sent (Manager.update_test_result Mock.transport (PInt 100) (PInt 10) (PStr "passed")
               (Some no_logs) PNone PNone PNone PNone PNone PNone Mock.fresh).2
       = [statuses_request; Request POST "test-runs/100/test-logs" (PDict payload) PNone]
       /\ Py.get "status" payload = Some (PDict [("id", PInt 1); ("name", PStr "PASSED")])
       /\ Py.get "test_step_logs" payload = Some (PList []).
Proof.
  assert (Hascii : Forall (fun name => Py.is_ascii name = true) (Py.keys mock_registry))
    by (repeat constructor).
  split; [reflexivity |]. split; [reflexivity |]. split; [exact Hascii |].
  split; [reflexivity |]. split.
  - apply (proj1 (proj1 (update_result_resolves_status Mock.transport (PInt 100) (PInt 10)
                           "blocked" no_logs PNone PNone PNone PNone PNone PNone
                           Mock.fresh mock_registered mock_registry eq_refl eq_refl Hascii)
                    eq_refl)).
  - split; [reflexivity |].
    destruct (proj2 (proj2 (update_result_resolves_status Mock.transport (PInt 100) (PInt 10)
                              "passed" no_logs PNone PNone PNone PNone PNone PNone
                              Mock.fresh mock_registered mock_registry eq_refl eq_refl Hascii)
                       (PInt 1) eq_refl)
                [("logs", PList [])] (PList []) eq_refl eq_refl (or_introl eq_refl))
      as (payload & Hsent & Hstatus & Hlogs).
    exists payload. split; [exact Hsent | split; [exact Hstatus | exact Hlogs]].
Defined.

Example update_result_passed :
  Manager.update_test_result Mock.transport (PInt 100) (PInt 10) (PStr "passed")
    (Some no_logs) PNone PNone PNone PNone PNone PNone Mock.fresh
  = (Ret (PDict [("id", PInt 202)]),
     Manager (Some mock_registry) (Mock.World [] 2)
       [statuses_request;
        Request POST "test-runs/100/test-logs"
          (PDict [("status", PDict [("id", PInt 1); ("name", PStr "PASSED")]);
                  ("test_case_version_id", PInt 10);
                  ("test_step_logs", PList [])]) PNone]).
Proof. reflexivity. Qed.

Lemma statuses_populated_once_witness :
  _execution_statuses Mock.fresh = None
  /\ Manager.get_execution_statuses Mock.transport Mock.fresh = (Ret mock_registry, mock_registered)
  /\ let st2 :=
       perform_all Mock.transport
         [UpdateTestResult (PInt 100) (PInt 10) (PStr "passed") (Some no_logs)
            PNone PNone PNone PNone PNone PNone;
          GetOrCreateTestCycleIdByName (PStr "Sprint 1") PNone]
         mock_registered in
     _execution_statuses st2 = Some mock_registry
     /\ Manager.get_execution_statuses Mock.transport st2 = (Ret mock_registry, st2).
Proof.
  split; [reflexivity |]. split; [reflexivity |].
  apply (proj2 (statuses_populated_once Mock.transport Mock.fresh mock_registered mock_registry
                  eq_refl eq_refl)).
Defined.

(** ** The payload of a run *)

Ltac issues_step :=
  first
    [ apply issues_ret | apply issues_lift | apply issues_raise
    | apply issues_request; solve [reflexivity | auto]
    | assumption
    | apply issues_bind; [| intros ? ? ?]
    | apply issues_try; [| intros ?]
    | match goal with
      | |- issues _ (if ?b then _ else _) => destruct b
      | |- issues _ (match ?x with _ => _ end) => destruct x
      end ].

Ltac issues_all := repeat issues_step.

Lemma properties_append entry d :
  Manager.properties (Manager.append_property entry d)
  = (Manager.properties d ++ [entry])%list.
Proof.
  unfold Manager.append_property, Manager.properties at 1. rewrite get_set_eq. reflexivity.
Qed.

Lemma get_append_ne k entry d :
  k <> "properties" -> Py.get k (Manager.append_property entry d) = Py.get k d.
Proof. intros H. unfold Manager.append_property. apply get_set_ne. exact H. Qed.

Lemma keys_append entry d :
  incl (Py.keys (Manager.append_property entry d)) ("properties" :: Py.keys d).
Proof. apply keys_set_incl. Qed.

Lemma keys_set_if_incl c k v d : incl (Py.keys (Manager.set_if c k v d)) (k :: Py.keys d).
Proof. destruct c; simpl; [apply keys_set_incl | apply incl_tl, incl_refl]. Qed.

Lemma test_run_fields_shape name ids id v desc d :
  Manager.test_run_fields name ids id v desc = Ret d ->
  incl (Py.keys d) ["name"; "test_case"; "test_case_ids"; "description"]
  /\ Py.get "properties" d = None.
Proof.
  unfold Manager.test_run_fields. intros H.
  destruct (negb (Py.is_none id)).
  - destruct (Py.int id) as [i | |]; try discriminate. simpl in H.
    destruct (negb (Py.is_none v)).
    + destruct (Py.int v) as [j | |]; try discriminate. simpl in H.
      destruct (negb (Py.is_none ids)).
      * destruct (Py.iter ids) as [l | |]; try discriminate. simpl in H.
        destruct (map_res Py.int l) as [ints | |]; try discriminate. simpl in H.
        inversion H; subst d. destruct (Py.truthy desc); simpl; split;
          solve [reflexivity | intros x Hx; simpl in *; tauto].
      * simpl in H. inversion H; subst d. destruct (Py.truthy desc); simpl; split;
          solve [reflexivity | intros x Hx; simpl in *; tauto].
    + simpl in H. destruct (negb (Py.is_none ids)).
      * destruct (Py.iter ids) as [l | |]; try discriminate. simpl in H.
        destruct (map_res Py.int l) as [ints | |]; try discriminate. simpl in H.
        inversion H; subst d. destruct (Py.truthy desc); simpl; split;
          solve [reflexivity | intros x Hx; simpl in *; tauto].
      * simpl in H. inversion H; subst d. destruct (Py.truthy desc); simpl; split;
          solve [reflexivity | intros x Hx; simpl in *; tauto].
  - simpl in H. destruct (negb (Py.is_none ids)).
    + destruct (Py.iter ids) as [l | |]; try discriminate. simpl in H.
      destruct (map_res Py.int l) as [ints | |]; try discriminate. simpl in H.
      inversion H; subst d. destruct (Py.truthy desc); simpl; split;
        solve [reflexivity | intros x Hx; simpl in *; tauto].
    + simpl in H. inversion H; subst d. destruct (Py.truthy desc); simpl; split;
        solve [reflexivity | intros x Hx; simpl in *; tauto].
Qed.

Lemma test_run_data_shape name ids id v desc ps pe bv d :
  Manager.test_run_data name ids id v desc ps pe bv = Ret d ->
  exists base,
    Manager.test_run_fields name ids id v desc = Ret base
    /\ Manager.properties d = property_entries ps pe bv
    /\ (forall k, k <> "properties" -> Py.get k d = Py.get k base)
    /\ incl (Py.keys d) run_fields.
Proof.
  unfold Manager.test_run_data. intros H.
  destruct (Manager.test_run_fields name ids id v desc) as [base | |] eqn:Hbase;
    try discriminate.
  simpl in H. inversion H; subst d; clear H. exists base. split; [reflexivity |].
  destruct (test_run_fields_shape _ _ _ _ _ _ Hbase) as [Hkeys Hnone].
  assert (Hempty : Manager.properties base = [])
    by (unfold Manager.properties; rewrite Hnone; reflexivity).
  assert (Hbase_keys : incl (Py.keys base) run_fields).
  { intros x Hx. specialize (Hkeys x Hx). unfold run_fields. simpl in *. tauto. }
  assert (Hexp : forall e d', incl (Py.keys d') run_fields ->
                   incl (Py.keys (Manager.append_property e d')) run_fields).
  { intros e d' Hd' x Hx. destruct (keys_append e d' x Hx) as [<- | Hin].
    - unfold run_fields. simpl. tauto.
    - apply Hd'. exact Hin. }
  unfold property_entries.
  destruct (Py.truthy ps), (Py.truthy pe), (Py.is_none bv);
    repeat rewrite properties_append; rewrite Hempty; simpl;
    (split; [reflexivity |]);
    (split; [intros k Hk; repeat rewrite get_append_ne by exact Hk; reflexivity |]);
    auto.
Qed.

Section RunPayload.
Context {World : Type} (transport : World -> request -> reply * World).

Lemma get_or_create_issues cycle_name description :
  issues (fun req => endpoint req = "test-cycles")
    (Manager.get_or_create_test_cycle_id_by_name transport cycle_name description).
Proof.
  unfold Manager.get_or_create_test_cycle_id_by_name, Manager.get_test_cycle_id_by_name,
    API.find_test_cycle_id_by_name, API.get_test_cycles, Manager.create_test_cycle,
    API.create_test_cycle.
  issues_all.
Qed.

Lemma create_test_run_issues name ids id v desc ps pe bv ci cn :
  issues (fun req =>
            is_run_creation req ->
            exists d,
              Manager.test_run_data name ids id v desc ps pe bv = Ret d
              /\ meth req = POST /\ data req = PDict d)
    (Manager.create_test_run transport name ids id v desc ps pe bv ci cn).
Proof.
  unfold Manager.create_test_run.
  apply issues_bind.
  - destruct (Py.truthy ci); [apply issues_ret |].
    destruct (Py.truthy cn); [| apply issues_ret].
    apply issues_bind; [| intros; apply issues_ret].
    eapply issues_weaken; [| apply get_or_create_issues].
    intros req Hreq Hrun. unfold is_run_creation in Hrun. rewrite Hreq in Hrun.
    discriminate Hrun.
  - intros parent st _. apply issues_bind; [apply issues_lift |].
    intros d st' Hd. simpl in Hd.
    apply issues_bind; [| intros; issues_all].
    apply issues_request. intros _. exists d. auto.
Qed.


End RunPayload.

Example create_run_request :
  Manager.create_test_run Mock.transport (PStr "Run") (PList [PInt 1; PStr "2"]) PNone PNone
    PNone (PStr "2024-01-01") PNone PNone PNone PNone Mock.fresh
  = (Ret (PDict [("id", PInt 201)]),
     Manager None (Mock.World [] 1)
       [Request POST "test-runs"
          (PDict [("name", PStr "Run");
                  ("test_case_ids", PList [PInt 1; PInt 2]);
                  ("properties",
                   PList [PDict [("field_id", PStr "PlannedStartDate");
                                 ("field_value", PStr "2024-01-01")];
                          PDict [("field_id", PInt 12625659);
                                 ("field_name", PStr "Build Version");
                                 ("field_value", PStr "[3643503]");
                                 ("field_value_name", PStr "[New Value]")]])])
          PNone]).
Proof. reflexivity. Qed.


(** ** The step-log container *)

Lemma append_step_accepted container step :
  accepted container = true ->
  exists c,
    Library.append_step container step = Ret c
    /\ entries c = (entries container ++ [step])%list
    /\ accepted c = true
    /\ match container with
       | PList l => c = PList (l ++ [step])
       | PDict d =>
           exists d', c = PDict d' /\ forall k, k <> "logs" -> Py.get k d' = Py.get k d
       | _ => c = PList [step]
       end.
Proof.
  destruct container as [| b | n | s | l | d]; simpl; try discriminate.
  - intros _. exists (PList [step]). auto.
  - destruct s; [| discriminate]. intros _. exists (PList [step]). auto.
  - intros _. exists (PList (l ++ [step])). auto.
  - unfold Py.get_or_none.
    destruct (Py.get "logs" d) as [[| | | | logs |] |] eqn:Hlogs; try discriminate; intros _.
    + exists (PDict (Py.set "logs" (PList [step]) d)). simpl. rewrite get_set_eq.
      repeat split; auto. eexists; split; [reflexivity |].
      intros k Hk. apply get_set_ne. exact Hk.
    + exists (PDict (Py.set "logs" (PList (logs ++ [step])) d)). simpl. rewrite get_set_eq.
      repeat split; auto. eexists; split; [reflexivity |].
      intros k Hk. apply get_set_ne. exact Hk.
    + exists (PDict (Py.set "logs" (PList [step]) d)). simpl. rewrite get_set_eq.
      repeat split; auto. eexists; split; [reflexivity |].
      intros k Hk. apply get_set_ne. exact Hk.
Qed.

Lemma append_step_refused container step :
  accepted container = false -> exists e, Library.append_step container step = Raise e.
Proof.
  destruct container as [| b | n | s | l | d]; simpl; try discriminate; eauto.
  - destruct s; [discriminate | eauto].
  - unfold Py.get_or_none.
    destruct (Py.get "logs" d) as [[| | | | logs |] |]; try discriminate; eauto.
Qed.

Lemma append_steps_entries steps : forall container,
  accepted container = true ->
  exists c,
    append_steps container steps = Ret c
    /\ entries c = (entries container ++ steps)%list
    /\ accepted c = true.
Proof.
  induction steps as [| step steps IH]; intros container Hacc; simpl.
  - exists container. rewrite app_nil_r. auto.
  - destruct (append_step_accepted container step Hacc) as (c1 & H1 & E1 & A1 & _).
    rewrite H1. simpl. destruct (IH c1 A1) as (c & Hc & Ec & Ac).
    exists c. rewrite Hc, Ec, E1, <- app_assoc. auto.
Qed.

Section StepLogs.
Context {World : Type} (transport : World -> request -> reply * World).

(** C7, amended. Given the step that [create_qtest_test_step_log] builds,
    [append_qtest_test_step_log] returns [[step]] for a container that is
    [None] or [""]; the list with the step at its end for a list; and,
    for a dict, the dict with the step at the end of its ['logs'] list,
    that list being started when the dict has no ['logs'] or has [None]
    there, the other keys as they were. A dict whose ['logs'] is
    anything else, and any other container, is refused with an
    exception. Whenever the container is taken, the entries it held come
    first, unchanged and in their order, the new step last; and so it
    goes on for the steps appended after it. *)
Theorem append_step_log_keeps_entries
    testcaseid container step_number result actual expected description
    (lib lib' : option (manager World)) step :
  Library.create_qtest_test_step_log transport testcaseid step_number result actual
    expected description lib = (Ret step, lib') ->
  let out :=
    Library.append_qtest_test_step_log transport testcaseid container step_number result
      actual expected description lib in
  out.2 = lib'
  /\ (accepted container = false -> exists e, out.1 = Raise e)
  /\ (accepted container = true ->
      exists c,
        out.1 = Ret c
        /\ entries c = (entries container ++ [PDict step])%list
        /\ match container with
           | PList l => c = PList (l ++ [PDict step])
           | PDict d =>
               exists d', c = PDict d' /\ forall k, k <> "logs" -> Py.get k d' = Py.get k d
           | _ => c = PList [PDict step]
           end
        /\ forall more,
             exists c',
               append_steps c more = Ret c'
               /\ entries c' = (entries container ++ PDict step :: more)%list).
Proof.
  intros Hstep out. subst out. unfold Library.append_qtest_test_step_log.
  rewrite Hstep. simpl. split; [reflexivity |]. split.
  - apply append_step_refused.
  - intros Hacc.
    destruct (append_step_accepted container (PDict step) Hacc) as (c & Hc & Ec & Ac & Hk).
    exists c. repeat split; auto.
    intros more. destruct (append_steps_entries more c Ac) as (c' & Hc' & Ec' & _).
    exists c'. split; [exact Hc' |]. rewrite Ec', Ec, <- app_assoc. reflexivity.
Qed.

End StepLogs.

(** A dict that holds no ['logs'] is taken, and the list is started in it. *)
Lemma append_step_log_keeps_entries_witness :
  let step := [("status", PDict [("id", PInt 601); ("name", PStr "PASSED")]);
               ("actual_result", PStr "ok")] in
  let container := PDict [("name", PStr "smoke")] in
  Library.create_qtest_test_step_log Mock.transport PNone (PInt 1) (PStr "passed")
    (PStr "ok") PNone PNone None = (Ret step, None)
  /\ accepted container = true
  /\ exists c,
       (Library.append_qtest_test_step_log Mock.transport PNone container (PInt 1)
          (PStr "passed") (PStr "ok") PNone PNone None).1 = Ret c
       /\ entries c = [PDict step].
Proof.
  intros step container. split; [reflexivity |]. split; [reflexivity |].
  destruct (proj2 (proj2 (append_step_log_keeps_entries Mock.transport PNone container
                            (PInt 1) (PStr "passed") (PStr "ok") PNone PNone None None step
                            eq_refl)) eq_refl)
    as (c & Hc & Ec & _).
  exists c. split; [exact Hc | exact Ec].
Defined.

(** C7 as stated fails on a dict without ['logs']: it is neither absent,
    nor a list, nor an object holding a [logs] list, and it is taken. *)
Lemma append_step_takes_dict_without_logs :
  ~ (forall container step,
       spec_appendStepLog container step (Library.append_step container step)).
Proof.
  intros H. specialize (H (PDict [("name", PStr "smoke")]) (PDict [])).
  destruct H as [e He]. discriminate He.
Qed.

Example three_steps :
  append_steps PNone [PInt 1; PInt 2; PInt 3] = Ret (PList [PInt 1; PInt 2; PInt 3])
  /\ append_steps (PDict [("logs", PList [])]) [PInt 1; PInt 2; PInt 3]
     = Ret (PDict [("logs", PList [PInt 1; PInt 2; PInt 3])]).
Proof. split; reflexivity. Qed.

(** ** The step resolver *)



Section StepResolver.
Context {World : Type} (transport : World -> request -> reply * World).


End StepResolver.



(** ** Test cycles by name *)

Lemma find_cycle_in_first_match target cycles :
  API.find_cycle_in (map PDict cycles) target
  = Ret (match find (API.name_matches target) cycles with
         | Some c => Py.get_or_none "id" c
         | None => PNone
         end).
Proof.
  induction cycles as [| c cycles IH]; [reflexivity |].
  simpl. destruct (API.name_matches target c); [reflexivity | exact IH].
Qed.


Lemma find_cycle_in_never_diverges target cycles : API.find_cycle_in cycles target <> Diverge.
Proof.
  induction cycles as [| c cycles IH]; simpl; [discriminate |].
  destruct c; try discriminate. destruct (API.name_matches target d); [discriminate | exact IH].
Qed.

Section Cycles.
Context {World : Type} (transport : World -> request -> reply * World).

Lemma find_test_cycle_listed name cycles (st : manager World) w :
  transport (platform st) cycles_request = (Body (PList (map PDict cycles)), w) ->
  API.find_test_cycle_id_by_name transport (PStr name) st
  = (Ret (match find (API.name_matches (Py.lower (Py.strip name))) cycles with
          | Some c => Py.get_or_none "id" c
          | None => PNone
          end),
     Manager (_execution_statuses st) w (sent st ++ [cycles_request])).
Proof.
  intros Hreply.
  unfold API.find_test_cycle_id_by_name, try_except, API.get_test_cycles,
    API._make_request, bind, lift.
  cbv zeta. fold cycles_request. rewrite Hreply. cbv beta iota.
  assert (Hiter : Py.iter (Py.or_ (PList (map PDict cycles)) (PList []))
                  = Ret (map PDict cycles)).
  { destruct cycles; reflexivity. }
  simpl Py.method_strip. cbv beta iota. rewrite Hiter.
  rewrite find_cycle_in_first_match. reflexivity.
Qed.

Lemma create_test_cycle_created name description (st : manager World) created w :
  let d := Manager.set_if (Py.truthy description) "description" description
             [("name", PStr name)] in
  transport (platform st) (cycle_creation d) = (Body (PDict created), w) ->
  Manager.create_test_cycle transport (PStr name) description PNone st
  = (Ret (PDict created),
     Manager (_execution_statuses st) w (sent st ++ [cycle_creation d])).
Proof.
  intros d Hreply.
  unfold Manager.create_test_cycle. cbv zeta.
  change (Manager.set_if (Py.truthy PNone) "parent_id" PNone
            (Manager.set_if (Py.truthy description) "description" description
               [("name", PStr name)])) with d.
  unfold API.create_test_cycle, API._make_request, bind, lift. cbv zeta.
  change (Request POST "test-cycles" (PDict d) (API.parent_params PNone PNone))
    with (cycle_creation d).
  rewrite Hreply. reflexivity.
Qed.

(** C6, amended. On a platform that answers every request, holding the
    cycles with their ids, and where nobody else creates any, two calls of
    [get_or_create_test_cycle_id_by_name] with
    the same name return the same id. Each call looks the name up among
    the cycles (lower-cased and stripped, against name or pid): the first
    returns the id of the first cycle that matches and creates nothing,
    or, no cycle matching, creates one cycle and returns its new id; the
    second finds what the first found or created, and creates nothing. *)
Theorem get_or_create_cycle_twice (cycles_of : World -> list dict)
    (name : string) description (st : manager World) :
  cycle_store transport cycles_of ->
  forallb has_id (cycles_of (platform st)) = true ->
  let first := Manager.get_or_create_test_cycle_id_by_name transport (PStr name) description st in
  let second :=
    Manager.get_or_create_test_cycle_id_by_name transport (PStr name) description first.2 in
  exists id,
    first.1 = Ret id /\ second.1 = Ret id /\ Py.is_none id = false
    /\ match find (API.name_matches (Py.lower (Py.strip name))) (cycles_of (platform st)) with
       | Some found =>
           id = Py.get_or_none "id" found
           /\ cycles_of (platform first.2) = cycles_of (platform st)
       | None =>
           exists created,
             cycles_of (platform first.2) = (cycles_of (platform st) ++ [created])%list
             /\ Py.get "name" created = Some (PStr name)
             /\ id = Py.get_or_none "id" created
       end
    /\ cycles_of (platform second.2) = cycles_of (platform first.2).
Proof.
  intros [Hlist Hcreate] Hids first second.
  set (target := Py.lower (Py.strip name)) in *.
  destruct (Hlist (platform st)) as (w1 & Hget1 & Hsame1).
  pose proof (find_test_cycle_listed name _ st w1 Hget1) as Hfind1. fold target in Hfind1.
  assert (Hfound : forall (s : manager World) c,
            find (API.name_matches target) (cycles_of (platform s)) = Some c ->
            Py.is_none (Py.get_or_none "id" c) = false ->
            exists s',
              Manager.get_or_create_test_cycle_id_by_name transport (PStr name) description s
              = (Ret (Py.get_or_none "id" c), s')
              /\ cycles_of (platform s') = cycles_of (platform s)).
  { intros s c Hc Hid. destruct (Hlist (platform s)) as (w & Hget & Hsame).
    pose proof (find_test_cycle_listed name _ s w Hget) as Hfind. fold target in Hfind.
    rewrite Hc in Hfind.
    unfold Manager.get_or_create_test_cycle_id_by_name, Manager.get_test_cycle_id_by_name,
      bind. rewrite Hfind, Hid. simpl. eexists. split; [reflexivity | exact Hsame]. }
  destruct (find (API.name_matches target) (cycles_of (platform st))) as [c |] eqn:Hc.
  - assert (Hid : Py.is_none (Py.get_or_none "id" c) = false).
    { apply find_some in Hc. destruct Hc as [Hin _].
      rewrite forallb_forall in Hids. specialize (Hids c Hin). unfold has_id in Hids.
      destruct (Py.is_none _); [discriminate | reflexivity]. }
    destruct (Hfound st c Hc Hid) as (s1 & H1 & C1).
    assert (Hc1 : find (API.name_matches target) (cycles_of (platform s1)) = Some c)
      by (rewrite C1; exact Hc).
    destruct (Hfound s1 c Hc1 Hid) as (s2 & H2 & C2).
    exists (Py.get_or_none "id" c). subst first second.
    rewrite H1. simpl. rewrite H2. simpl. repeat split; auto.
  - set (d := Manager.set_if (Py.truthy description) "description" description
                [("name", PStr name)]).
    destruct (Hcreate w1 d) as (created & w2 & Hpost & Hcycles2 & Hname & Hid).
    assert (Hd : Py.get "name" d = Some (PStr name)).
    { subst d. rewrite get_set_if_ne by discriminate. reflexivity. }
    rewrite Hd in Hname.
    assert (H1 : first
                 = (Ret (Py.get_or_none "id" created),
                    Manager (_execution_statuses st) w2
                      ((sent st ++ [cycles_request]) ++ [cycle_creation d]))).
    { subst first.
      unfold Manager.get_or_create_test_cycle_id_by_name, Manager.get_test_cycle_id_by_name.
      unfold bind at 1. rewrite Hfind1. cbv beta iota delta [negb Py.is_none].
      unfold bind at 1.
      rewrite (create_test_cycle_created name description
                 (Manager (_execution_statuses st) w1 (sent st ++ [cycles_request]))
                 created w2 Hpost).
      reflexivity. }
    assert (Hmatch : API.name_matches target created = true).
    { unfold API.name_matches, API.normalized, Py.get_default. rewrite Hname. simpl Py.str.
      fold target. rewrite String.eqb_refl. reflexivity. }
    assert (Hc2 : find (API.name_matches target) (cycles_of w2) = Some created).
    { rewrite Hcycles2, Hsame1.
      assert (G : forall l, find (API.name_matches target) l = None ->
                    find (API.name_matches target) (l ++ [created]) = Some created).
      { induction l as [| x l IHl]; simpl; [rewrite Hmatch; reflexivity |].
        destruct (API.name_matches target x); [discriminate | exact IHl]. }
      apply G. exact Hc. }
    destruct (Hfound first.2 created) as (s2 & H2 & C2).
    { rewrite H1. exact Hc2. }
    { exact Hid. }
    exists (Py.get_or_none "id" created). subst second. rewrite H2.
    rewrite H1 in *. simpl. repeat split; auto.
    exists created. rewrite Hcycles2, Hsame1. auto.
Qed.

End Cycles.

Lemma mock_is_cycle_store : cycle_store Mock.transport Mock.cycles.
Proof.
  split.
  - intros w. eexists. split; reflexivity.
  - intros w d. eexists. eexists. repeat split; reflexivity.
Qed.

Lemma get_or_create_cycle_twice_witness :
  cycle_store Mock.transport Mock.cycles
  /\ forallb has_id (Mock.cycles (platform Mock.fresh)) = true
  /\ exists id,
       (Manager.get_or_create_test_cycle_id_by_name Mock.transport (PStr " Sprint 1") PNone
          Mock.fresh).1 = Ret id
       /\ (Manager.get_or_create_test_cycle_id_by_name Mock.transport (PStr " Sprint 1") PNone
             (Manager.get_or_create_test_cycle_id_by_name Mock.transport (PStr " Sprint 1")
                PNone Mock.fresh).2).1 = Ret id.
Proof.
  split; [exact mock_is_cycle_store |]. split; [reflexivity |].
  destruct (get_or_create_cycle_twice Mock.transport Mock.cycles " Sprint 1" PNone Mock.fresh
              mock_is_cycle_store eq_refl) as (id & H1 & H2 & _).
  exists id. split; [exact H1 | exact H2].
Defined.

(** C6 as stated fails when a lookup is lost: the resolver turns the
    timeout into "not found", so the first call creates a second
    "Sprint 1" and returns its id, and the next call finds the older one. *)
Lemma get_or_create_duplicates_after_lost_lookup :
  let first :=
    Manager.get_or_create_test_cycle_id_by_name Mock.flaky (PStr "Sprint 1") PNone
      Mock.with_sprint in
  let second :=
    Manager.get_or_create_test_cycle_id_by_name Mock.flaky (PStr "Sprint 1") PNone first.2 in
  find (API.name_matches "sprint 1") (Mock.cycles (platform Mock.with_sprint)) = Some Mock.sprint
  /\ first.1 = Ret (PInt 1001)
  /\ second.1 = Ret (PInt 5)
  /\ Mock.cycles (platform second.2)
     = [Mock.sprint; [("id", PInt 1001); ("name", PStr "Sprint 1")]]
  /\ ~ (exists id, first.1 = Ret id /\ second.1 = Ret id).
Proof.
  repeat split; try reflexivity.
  intros (id & H1 & H2). vm_compute in H1, H2. congruence.
Qed.

Example get_or_create_cycle_ids :
  (Manager.get_or_create_test_cycle_id_by_name Mock.transport (PStr " Sprint 1") PNone
     Mock.fresh).1 = Ret (PInt 1001)
  /\ (Manager.get_or_create_test_cycle_id_by_name Mock.transport (PStr "sprint 1") PNone
        (Manager.get_or_create_test_cycle_id_by_name Mock.transport (PStr " Sprint 1") PNone
           Mock.fresh).2).1 = Ret (PInt 1001).
Proof. split; reflexivity. Qed.

(** ** Transport failures *)

Lemma int_never_diverges v : Py.int v <> Diverge.
Proof.
  destruct v as [| b | n | s | l | d]; simpl; try discriminate.
  destruct (Py.parse_int s); discriminate.
Qed.

Section Failures.
Context {World : Type} (transport : World -> request -> reply * World).

Lemma request_fails m ep d p (st : manager World) msg :
  unreachable transport (platform st) msg ->
  API._make_request transport m ep d p st
  = (Raise (RequestException msg),
     Manager (_execution_statuses st) (platform st) (sent st ++ [Request m ep d p])).
Proof. intros Hdown. unfold API._make_request. rewrite Hdown. reflexivity. Qed.

Lemma find_test_cycle_never_raises name (st : manager World) :
  exists v, (API.find_test_cycle_id_by_name transport name st).1 = Ret v.
Proof.
  unfold API.find_test_cycle_id_by_name, try_except, bind, lift, API.get_test_cycles,
    API._make_request.
  cbv zeta. destruct (transport (platform st) _) as [[body | msg] w]; simpl; eauto.
  destruct name as [| | | name | |]; simpl; eauto.
  destruct (Py.or_ body (PList [])) as [| | | s | items | d]; simpl; eauto.
  - pose proof (find_cycle_in_never_diverges (Py.lower (Py.strip name)) (Py.chars s)).
    destruct (API.find_cycle_in _ _); simpl; eauto. contradiction.
  - pose proof (find_cycle_in_never_diverges (Py.lower (Py.strip name)) items).
    destruct (API.find_cycle_in _ _); simpl; eauto. contradiction.
  - pose proof (find_cycle_in_never_diverges (Py.lower (Py.strip name))
                  (map PStr (Py.keys d))).
    destruct (API.find_cycle_in _ _); simpl; eauto. contradiction.
Qed.

Lemma find_test_case_never_raises fuel name (st : manager World) e :
  (API.find_test_case_id_by_name transport fuel name st).1 <> Raise e.
Proof.
  unfold API.find_test_case_id_by_name, try_except.
  destruct (bind _ _ st) as [[v | e' |] st']; simpl; discriminate.
Qed.

(** *** What a computation asks, and what it lets through *)

Local Abbreviation recording := (recorded transport).































End Failures.


(** A lookup that is lost does not stop [create_test_run]: the failure of
    the first request stays inside the cycle resolver, the cycle is
    taken to be missing, and a cycle and the run are created. *)
Example create_run_goes_on_after_lost_lookup :
  let st := Manager None (Mock.World [] 0, []) [] in
  let out :=
    Manager.create_test_run (recorded Mock.flaky) (PStr "Run") PNone (PInt 10) PNone PNone
      PNone PNone PNone PNone (PStr "Sprint 1") st in
  out.1 = Ret (PDict [("id", PInt 203)])
  /\ map snd (log_of out.2)
     = [Failure "Read timed out";
        Body (PDict [("id", PInt 1001); ("name", PStr "Sprint 1")]);
        Body (PDict [("id", PInt 203)])].
Proof. split; reflexivity. Qed.


(** ** The payload of a run creation *)

Lemma test_run_data_returns name ids id v desc ps pe bv :
  optional_ints ids = true -> optional_int id = true -> optional_int v = true ->
  exists d, Manager.test_run_data name ids id v desc ps pe bv = Ret d.
Proof.
  intros Hids Hid Hv.
  assert (Hints : forall l,
            forallb (fun x => match x with PInt _ => true | _ => false end) l = true ->
            exists ints, map_res Py.int l = Ret ints).
  { induction l as [| x l IH]; [eexists; reflexivity |].
    simpl. intros H. apply andb_prop in H. destruct H as [Hx Hl].
    destruct x; try discriminate. destruct (IH Hl) as [ints Hl']. rewrite Hl'.
    eexists; reflexivity. }
  unfold Manager.test_run_data, Manager.test_run_fields.
  destruct id; try discriminate; destruct v; try discriminate;
    destruct ids as [| | | | l |]; try discriminate; simpl;
    try (destruct (Hints l Hids) as [ints Hl]; rewrite Hl; simpl);
    eexists; reflexivity.
Qed.

Section RunCreation.
Context {World : Type} (transport : World -> request -> reply * World).

Lemma get_or_create_ends cycle_name description (st : manager World) :
  (Manager.get_or_create_test_cycle_id_by_name transport cycle_name description st).1
  <> Diverge.
Proof.
  unfold Manager.get_or_create_test_cycle_id_by_name, Manager.get_test_cycle_id_by_name,
    bind.
  destruct (find_test_cycle_never_raises transport cycle_name st) as [v Hv].
  destruct (API.find_test_cycle_id_by_name transport cycle_name st) as [[v' | e |] st1];
    simpl in Hv; try discriminate.
  destruct (negb (Py.is_none v')); [discriminate |].
  unfold Manager.create_test_cycle, bind, API.create_test_cycle, API._make_request, lift.
  cbv zeta. destruct (transport (platform st1) _) as [[body | msg] w]; [| discriminate].
  destruct body; discriminate.
Qed.

Lemma run_creation_sent d parent_id parent_type (s : manager World) :
  sent ((result <- API.create_test_run transport (PDict d) parent_id parent_type ;;
         lift (Py.method_get result "id" PNone) ;;; ret result) s).2
  = (sent s ++ [Request POST "test-runs" (PDict d)
                  (API.parent_params parent_id parent_type)])%list.
Proof.
  unfold bind, API.create_test_run, API._make_request, lift. cbv zeta.
  destruct (transport (platform s) _) as [[body | msg] w]; simpl; [| reflexivity].
  destruct (Py.method_get body "id" PNone); reflexivity.
Qed.

(** C8. Every run-creation request that [create_test_run] issues carries
    a payload whose top-level keys are among [name], [test_case],
    [test_case_ids], [description] and [properties], so a planned date is
    never a top-level field; a planned start or end date that is given is
    the [field_value] of a properties entry with [field_id]
    ["PlannedStartDate"] or ["PlannedEndDate"]; and when [build_version]
    is [None] the entry with [field_id] 12625659 and [field_value]
    ["[3643503]"] is among the properties. And the request is issued:
    for arguments of the documented types, a call that does not fail
    while it resolves a cycle given by name sends the run creation, as
    the one request after those of the cycle, with such a payload, its
    properties being exactly the planned dates given and the Build
    Version entry, in that order. *)
Theorem create_run_payload name ids id v desc ps pe bv ci cn :
  issues (fun req =>
            is_run_creation req ->
            exists d,
              meth req = POST /\ data req = PDict d /\ dates_and_build_version ps pe bv d)
    (Manager.create_test_run transport name ids id v desc ps pe bv ci cn)
  /\ forall st : manager World,
       optional_ints ids = true -> optional_int id = true -> optional_int v = true ->
       let out := Manager.create_test_run transport name ids id v desc ps pe bv ci cn st in
       exists earlier,
         Forall (fun req => endpoint req = "test-cycles") earlier
         /\ (Py.truthy ci = true \/ Py.truthy cn = false -> earlier = [])
         /\ ((exists e, out.1 = Raise e /\ sent out.2 = (sent st ++ earlier)%list
                        /\ Py.truthy ci = false /\ Py.truthy cn = true)
             \/ exists d query,
                  sent out.2
                  = (sent st ++ earlier ++ [Request POST "test-runs" (PDict d) query])%list
                  /\ dates_and_build_version ps pe bv d
                  /\ Manager.properties d = property_entries ps pe bv).
Proof.
  assert (Hshape : forall d,
            Manager.test_run_data name ids id v desc ps pe bv = Ret d ->
            dates_and_build_version ps pe bv d
            /\ Manager.properties d = property_entries ps pe bv).
  { intros d Hd.
    destruct (test_run_data_shape _ _ _ _ _ _ _ _ _ Hd) as (base & _ & Hprops & _ & Hkeys).
    split; [| exact Hprops]. unfold dates_and_build_version.
    rewrite Hprops. unfold property_entries. repeat split; auto.
    - intros ->. apply in_or_app. left. left. reflexivity.
    - intros ->. apply in_or_app. right. apply in_or_app. left. left. reflexivity.
    - intros ->. exists Manager.build_version_property. split; [| split; reflexivity].
      apply in_or_app. right. apply in_or_app. right. left. reflexivity. }
  split.
  - eapply issues_weaken; [| apply create_test_run_issues].
    intros req Hreq Hrun. destruct (Hreq Hrun) as (d & Hd & Hm & Hdata).
    exists d. split; [exact Hm |]. split; [exact Hdata |]. apply (Hshape d Hd).
  - intros st Hids Hid Hv out. subst out.
    destruct (test_run_data_returns name ids id v desc ps pe bv Hids Hid Hv) as [d Hd].
    destruct (Hshape d Hd) as [Hclaimed Hprops].
    assert (Hdirect : forall (parent : pyval * pyval) (s : manager World),
              sent ((d0 <- lift (Manager.test_run_data name ids id v desc ps pe bv) ;;
                     result <- API.create_test_run transport (PDict d0) (fst parent)
                                 (snd parent) ;;
                     lift (Py.method_get result "id" PNone) ;;; ret result) s).2
              = (sent s ++ [Request POST "test-runs" (PDict d)
                              (API.parent_params (fst parent) (snd parent))])%list).
    { intros parent s. unfold bind at 1. unfold lift at 1. rewrite Hd. cbv beta iota.
      apply run_creation_sent. }
    unfold Manager.create_test_run.
    destruct (Py.truthy ci) eqn:Hci.
    + exists []. split; [constructor |]. split; [reflexivity |]. right.
      exists d. eexists. unfold bind at 1. unfold ret at 1. cbv beta iota.
      rewrite Hdirect. simpl app. auto.
    + destruct (Py.truthy cn) eqn:Hcn.
      * pose proof (get_or_create_ends cn PNone st) as Hend.
        destruct (get_or_create_issues transport cn PNone st) as (earlier & Hsent & Hcycles).
        exists earlier. split; [exact Hcycles |].
        split; [intros [H | H]; discriminate |].
        destruct (Manager.get_or_create_test_cycle_id_by_name transport cn PNone st)
          as [[cycle_id | e |] st1] eqn:Hcycle; simpl in Hsent, Hend.
        -- right. exists d. eexists. unfold bind at 1. unfold bind at 1. rewrite Hcycle.
           unfold ret at 1. cbv beta iota.
           rewrite Hdirect, Hsent, <- app_assoc. auto.
        -- left. exists e. unfold bind at 1. unfold bind at 1. rewrite Hcycle.
           unfold bind at 1. unfold bind at 1. rewrite Hcycle. simpl. auto.
        -- contradiction.
      * exists []. split; [constructor |]. split; [reflexivity |]. right.
        exists d. eexists. unfold bind at 1. unfold ret at 1. cbv beta iota.
        rewrite Hdirect. simpl app. auto.
Qed.

End RunCreation.

(** A run for one case, planned, under a cycle given by its id, with no
    build version: the request and its payload. *)
Lemma create_run_payload_witness :
  let payload :=
    [("name", PStr "Run");
     ("test_case", PDict [("id", PInt 10); ("test_case_version_id", PNone)]);
     ("properties",
      PList [PDict [("field_id", PStr "PlannedStartDate"); ("field_value", PStr "2024-01-01")];
             PDict [("field_id", PInt 12625659);
                    ("field_name", PStr "Build Version");
                    ("field_value", PStr "[3643503]");
                    ("field_value_name", PStr "[New Value]")]])] in
  let query := PDict [("parentId", PInt 5); ("parentType", PStr "test-cycle")] in
  sent (Manager.create_test_run Mock.transport (PStr "Run") PNone (PInt 10) PNone PNone
          (PStr "2024-01-01") PNone PNone (PInt 5) PNone Mock.fresh).2
  = [Request POST "test-runs" (PDict payload) query]
  /\ exists d query',
       sent (Manager.create_test_run Mock.transport (PStr "Run") PNone (PInt 10) PNone PNone
               (PStr "2024-01-01") PNone PNone (PInt 5) PNone Mock.fresh).2
       = [Request POST "test-runs" (PDict d) query']
       /\ dates_and_build_version (PStr "2024-01-01") PNone PNone d.
Proof.
  intros payload query. split; [reflexivity |].
  destruct (proj2 (create_run_payload Mock.transport (PStr "Run") PNone (PInt 10) PNone PNone
                     (PStr "2024-01-01") PNone PNone (PInt 5) PNone)
              Mock.fresh eq_refl eq_refl eq_refl)
    as (earlier & _ & Hnone & [(e & _ & _ & Hci & _) | (d & query' & Hsent & Hd & _)]).
  - discriminate Hci.
  - rewrite (Hnone (or_introl eq_refl)) in Hsent. exists d, query'.
    split; [exact Hsent | exact Hd].
Defined.

(** * Further properties of the code *)

(** ** Stripping and letter case *)

Lemma lstrip_idempotent sp s : Py.lstrip_by sp (Py.lstrip_by sp s) = Py.lstrip_by sp s.
Proof.
  induction s as [| c s IH]; [reflexivity |].
  simpl. destruct (sp c) eqn:E; [exact IH |]. simpl. rewrite E. reflexivity.
Qed.

Lemma rstrip_idempotent sp s : Py.rstrip_by sp (Py.rstrip_by sp s) = Py.rstrip_by sp s.
Proof.
  induction s as [| c s IH]; [reflexivity |].
  simpl. destruct (sp c && String.eqb (Py.rstrip_by sp s) "") eqn:E; [reflexivity |].
  simpl. rewrite IH, E. reflexivity.
Qed.

Lemma rstrip_lstrip sp s :
  Py.rstrip_by sp s = s -> Py.rstrip_by sp (Py.lstrip_by sp s) = Py.lstrip_by sp s.
Proof.
  induction s as [| c s IH]; [reflexivity |].
  intros H. simpl. destruct (sp c) eqn:E; [| exact H].
  apply IH. simpl in H. rewrite E in H. simpl in H.
  destruct (String.eqb (Py.rstrip_by sp s) ""); [discriminate |].
  inversion H as [H']. rewrite H'. exact H'.
Qed.

Lemma strip_idempotent s : Py.strip (Py.strip s) = Py.strip s.
Proof.
  unfold Py.strip.
  rewrite (rstrip_lstrip _ _ (rstrip_idempotent Py.is_space s)).
  apply lstrip_idempotent.
Qed.

Lemma rstrip_padded sp (pad : ascii) s :
  sp pad = true -> Py.rstrip_by sp (s ++ String pad "") = Py.rstrip_by sp s.
Proof.
  intros Hpad. induction s as [| c s IH]; simpl.
  - rewrite Hpad. reflexivity.
  - rewrite IH. reflexivity.
Qed.

Lemma strip_padded s : Py.strip (" " ++ s ++ " ") = Py.strip s.
Proof.
  unfold Py.strip. change (" " ++ s ++ " ") with (String " " (s ++ " ")).
  simpl Py.rstrip_by. rewrite (rstrip_padded Py.is_space " " s eq_refl).
  destruct (String.eqb (Py.rstrip_by Py.is_space s) "") eqn:E.
  - apply String.eqb_eq in E. rewrite E. reflexivity.
  - reflexivity.
Qed.

Lemma map_string_empty f s : String.eqb (Py.map_string f s) "" = String.eqb s "".
Proof. destruct s; reflexivity. Qed.

Lemma strip_map_string f s :
  (forall c, Py.is_space (f c) = Py.is_space c) ->
  Py.strip (Py.map_string f s) = Py.map_string f (Py.strip s).
Proof.
  intros Hf. unfold Py.strip.
  assert (R : forall x, Py.rstrip_by Py.is_space (Py.map_string f x)
                        = Py.map_string f (Py.rstrip_by Py.is_space x)).
  { induction x as [| c x IH]; [reflexivity |].
    simpl. rewrite IH, Hf, map_string_empty.
    destruct (Py.is_space c && String.eqb (Py.rstrip_by Py.is_space x) ""); reflexivity. }
  assert (L : forall x, Py.lstrip_by Py.is_space (Py.map_string f x)
                        = Py.map_string f (Py.lstrip_by Py.is_space x)).
  { induction x as [| c x IH]; [reflexivity |].
    simpl. rewrite Hf. destruct (Py.is_space c); [exact IH | reflexivity]. }
  rewrite R, L. reflexivity.
Qed.

Lemma case_keeps_spaces c :
  Py.is_space (Py.upper_char c) = Py.is_space c
  /\ Py.is_space (Py.lower_char c) = Py.is_space c
  /\ Py.lower_char (Py.upper_char c) = Py.lower_char c
  /\ Py.lower_char (Py.lower_char c) = Py.lower_char c.
Proof. destruct c as [[] [] [] [] [] [] [] []]; repeat split; reflexivity. Qed.

Lemma lower_map_case s :
  Py.lower (Py.upper s) = Py.lower s /\ Py.lower (Py.lower s) = Py.lower s.
Proof.
  induction s as [| c s [IH1 IH2]]; [split; reflexivity |].
  destruct (case_keeps_spaces c) as (_ & _ & H1 & H2).
  unfold Py.upper, Py.lower in *. simpl. rewrite H1, H2, IH1, IH2. split; reflexivity.
Qed.

(** The name a resolver looks for is the same for a name, its upper-case
    and lower-case forms, and the name between blanks. *)
Lemma target_of_variants name :
  Py.lower (Py.strip (Py.upper name)) = Py.lower (Py.strip name)
  /\ Py.lower (Py.strip (Py.lower name)) = Py.lower (Py.strip name)
  /\ Py.lower (Py.strip (" " ++ name ++ " ")) = Py.lower (Py.strip name).
Proof.
  destruct (lower_map_case (Py.strip name)) as [H1 H2].
  unfold Py.upper, Py.lower in *. repeat split.
  - rewrite strip_map_string by (intros c; apply case_keeps_spaces). exact H1.
  - rewrite strip_map_string by (intros c; apply case_keeps_spaces). exact H2.
  - rewrite strip_padded. reflexivity.
Qed.

(** ** Listings and name resolution *)

Section Listings.
Context {World : Type} (transport : World -> request -> reply * World).

(** X1. The resolvers by name do not depend on the letter case of an
    ASCII name asked for, nor on blanks around it: the upper-case form,
    the lower-case form and the name between blanks resolve as the name
    does. *)
Theorem resolvers_ignore_case_and_blanks name fuel (st : manager World) :
  Py.is_ascii name = true ->
  Forall (fun variant =>
            API.find_test_cycle_id_by_name transport (PStr variant) st
            = API.find_test_cycle_id_by_name transport (PStr name) st
            /\ API.find_test_case_id_by_name transport fuel (PStr variant) st
               = API.find_test_case_id_by_name transport fuel (PStr name) st)
    [Py.upper name; Py.lower name; " " ++ name ++ " "].
Proof.
  intros _.
  assert (H : forall variant,
            Py.lower (Py.strip variant) = Py.lower (Py.strip name) ->
            API.find_test_cycle_id_by_name transport (PStr variant) st
            = API.find_test_cycle_id_by_name transport (PStr name) st
            /\ API.find_test_case_id_by_name transport fuel (PStr variant) st
               = API.find_test_case_id_by_name transport fuel (PStr name) st).
  { intros variant Hv.
    unfold API.find_test_cycle_id_by_name, API.find_test_case_id_by_name, Py.method_strip,
      try_except, bind, lift.
    split.
    - destruct (API.get_test_cycles transport st) as [[cycles | e |] st']; try reflexivity.
      rewrite Hv. reflexivity.
    - destruct (API.list_test_cases transport fuel st) as [[cases | e |] st']; try reflexivity.
      rewrite Hv. reflexivity. }
  destruct (target_of_variants name) as (H1 & H2 & H3).
  repeat constructor; apply H; assumption.
Qed.

(** X2. [find_test_step_id_by_order] reads the steps from a bare list and
    from an object that holds them under [items] alike: in both cases the
    answer is that of the search through those steps. *)
Theorem steps_are_read_from_list_or_items
    test_case_id step_number body steps (st : manager World) w :
  transport (platform st) (steps_request test_case_id) = (Body body, w) ->
  body = PList steps \/ (exists d, body = PDict d /\ Py.get "items" d = Some (PList steps)) ->
  API.find_test_step_id_by_order transport test_case_id step_number st
  = (API.find_step_in steps step_number,
     Manager (_execution_statuses st) w (sent st ++ [steps_request test_case_id])).
Proof.
  intros Hreply Hbody.
  unfold API.find_test_step_id_by_order, API.get_test_steps, API._make_request, bind, lift.
  cbv zeta. fold (steps_request test_case_id). rewrite Hreply. cbv beta iota.
  assert (Hiter : Py.iter (Py.or_ (PList steps) (PList [])) = Ret steps)
    by (destruct steps; reflexivity).
  destruct Hbody as [-> | (d & -> & Hitems)].
  - unfold ret. rewrite Hiter. destruct (API.find_step_in steps step_number); reflexivity.
  - unfold Py.contains, Py.get_default. rewrite Hitems. unfold ret. rewrite Hiter.
    destruct (API.find_step_in steps step_number); reflexivity.
Qed.

(** X3. When the platform lists no step for the case (an empty list, an
    object without [items] or with an empty or null one, an empty body, a
    number), [find_test_step_id_by_order] returns [None] and does not
    raise. *)
Theorem no_steps_resolve_to_none test_case_id step_number body (st : manager World) w :
  transport (platform st) (steps_request test_case_id) = (Body body, w) ->
  lists_nothing body = true ->
  API.find_test_step_id_by_order transport test_case_id step_number st
  = (Ret PNone, Manager (_execution_statuses st) w (sent st ++ [steps_request test_case_id])).
Proof.
  intros Hreply Hnothing.
  unfold API.find_test_step_id_by_order, API.get_test_steps, API._make_request, bind, lift.
  cbv zeta. fold (steps_request test_case_id). rewrite Hreply. cbv beta iota.
  destruct body as [| b | n | s | l | d]; try reflexivity.
  - destruct l; [reflexivity | discriminate].
  - simpl in Hnothing. unfold Py.contains, Py.get_default in *.
    destruct (Py.get "items" d) as [items |]; [| reflexivity].
    unfold ret, Py.or_. destruct (Py.truthy items); [discriminate | reflexivity].
Qed.

Lemma list_test_cases_pages pages : forall fuel page acc (st : manager World),
  serves_pages transport (platform st) page pages ->
  (length pages < fuel)%nat ->
  exists st',
    API.list_test_cases_from transport fuel page (PInt 100) acc st
    = (Ret (acc ++ concat pages)%list, st')
    /\ sent st'
       = (sent st ++ map cases_request
                       (map (fun i => page + Z.of_nat i) (seq 0 (S (length pages)))))%list.
Proof.
  induction pages as [| p pages IH]; intros fuel page acc st Hserves Hfuel.
  - destruct fuel as [| fuel]; [simpl in Hfuel; lia |].
    destruct Hserves as (body & w' & Hreply & Hfalse).
    simpl API.list_test_cases_from. unfold bind, API._make_request. cbv zeta.
    fold (cases_request page). rewrite Hreply. cbv beta iota. rewrite Hfalse. simpl.
    eexists. split; [rewrite app_nil_r; reflexivity |].
    simpl. rewrite Z.add_0_r. reflexivity.
  - destruct fuel as [| fuel]; [simpl in Hfuel; lia |].
    destruct Hserves as (Hp & w' & Hreply & Hrest).
    simpl API.list_test_cases_from. unfold bind at 1. unfold API._make_request. cbv zeta.
    fold (cases_request page). rewrite Hreply. cbv beta iota.
    assert (Htruthy : Py.truthy (PList p) = true) by (destruct p; [contradiction | reflexivity]).
    rewrite Htruthy. cbv beta iota delta [negb].
    destruct (IH fuel (page + 1) (acc ++ p)%list
                (Manager (_execution_statuses st) w' (sent st ++ [cases_request page])))
      as (st' & Hrun & Hsent).
    { exact Hrest. }
    { simpl in Hfuel. lia. }
    exists st'. rewrite Hrun. split.
    + simpl concat. rewrite app_assoc. reflexivity.
    + rewrite Hsent. simpl sent. rewrite <- app_assoc. f_equal.
      replace (seq 0 (S (length (p :: pages))))
        with (0%nat :: map S (seq 0 (S (length pages))))
        by (rewrite seq_shift; reflexivity).
      rewrite !map_cons, !map_map. change (Z.of_nat 0) with 0. rewrite Z.add_0_r.
      rewrite <- app_comm_cons, app_nil_l. f_equal. apply map_ext. intros i. f_equal. lia.
Qed.

(** X4. [list_test_cases] asks for the pages 1, 2, 3, ... of 100 cases and
    stops at the first page that comes back empty: when the platform
    serves the non-empty pages [pages] and then an empty one, it returns
    their cases in order, after one request per page and one for the
    empty page. *)
Theorem list_test_cases_collects_pages pages fuel (st : manager World) :
  serves_pages transport (platform st) 1 pages ->
  (length pages < fuel)%nat ->
  exists st',
    API.list_test_cases transport fuel st = (Ret (concat pages), st')
    /\ sent st'
       = (sent st ++ map cases_request
                       (map (fun i => 1 + Z.of_nat i) (seq 0 (S (length pages)))))%list.
Proof.
  intros Hserves Hfuel. unfold API.list_test_cases.
  destruct (list_test_cases_pages pages fuel 1 [] st Hserves Hfuel) as (st' & Hrun & Hsent).
  exists st'. split; [exact Hrun | exact Hsent].
Qed.

(** X5. [list_test_cases] has no bound of its own: on a platform that
    answers every page request with a non-empty list (one that ignores the
    page number), the loop does not end, and neither does
    [find_test_case_id_by_name], whatever the name. *)
Theorem list_test_cases_needs_an_empty_page fuel name (st : manager World) :
  never_runs_out transport ->
  (API.list_test_cases transport fuel st).1 = Diverge
  /\ (API.find_test_case_id_by_name transport fuel name st).1 = Diverge.
Proof.
  intros Hnever.
  assert (H : forall fuel page acc (s : manager World),
            (API.list_test_cases_from transport fuel page (PInt 100) acc s).1 = Diverge).
  { clear fuel. induction fuel as [| fuel IH]; intros page acc s; [reflexivity |].
    destruct (Hnever (platform s) page) as (l & w' & Hreply & Hl).
    simpl API.list_test_cases_from. unfold bind at 1. unfold API._make_request. cbv zeta.
    fold (cases_request page). rewrite Hreply. cbv beta iota.
    assert (Htruthy : Py.truthy (PList l) = true) by (destruct l; [contradiction | reflexivity]).
    rewrite Htruthy. cbv beta iota delta [negb]. apply IH. }
  split; [apply H |].
  unfold API.find_test_case_id_by_name, try_except, bind, API.list_test_cases.
  specialize (H fuel 1 [] st).
  destruct (API.list_test_cases_from transport fuel 1 (PInt 100) [] st) as [[v | e |] st'];
    simpl in H; try discriminate. reflexivity.
Qed.

End Listings.

Lemma resolvers_ignore_case_and_blanks_witness :
  Py.is_ascii "Sprint 1" = true
  /\ (API.find_test_cycle_id_by_name Mock.transport (PStr "Sprint 1") Mock.with_sprint).1
     = Ret (PInt 5)
  /\ Forall (fun variant =>
               (API.find_test_cycle_id_by_name Mock.transport (PStr variant) Mock.with_sprint).1
               = Ret (PInt 5))
       ["SPRINT 1"; "sprint 1"; " Sprint 1 "]%string.
Proof.
  split; [reflexivity |]. split; [reflexivity |].
  pose proof (resolvers_ignore_case_and_blanks Mock.transport "Sprint 1" 0 Mock.with_sprint
                eq_refl) as H.
  apply List.Forall_forall. intros variant Hin.
  rewrite List.Forall_forall in H. destruct (H variant Hin) as [Hcycle _].
  rewrite Hcycle. reflexivity.
Defined.

Lemma steps_are_read_from_list_or_items_witness :
  let steps := [PDict [("order", PInt 1); ("id", PInt 71)];
                PDict [("order", PInt 2); ("id", PInt 72)]] in
  let body := PDict [("items", PList steps); ("total", PInt 2)] in
  let platform (w : unit) (req : request) := (Body body, w) in
  let st := Manager None tt [] in
  platform tt (steps_request (PInt 10)) = (Body body, tt)
  /\ (exists d, body = PDict d /\ Py.get "items" d = Some (PList steps))
  /\ API.find_test_step_id_by_order platform (PInt 10) (PStr " 2 ") st
     = (Ret (PInt 72), Manager None tt [steps_request (PInt 10)]).
Proof.
  intros steps body platform st. split; [reflexivity |].
  split; [eexists; split; reflexivity |].
  apply (steps_are_read_from_list_or_items platform (PInt 10) (PStr " 2 ") body steps st tt
           eq_refl).
  right. eexists. split; reflexivity.
Defined.

Lemma no_steps_resolve_to_none_witness :
  Mock.transport (platform Mock.fresh) (steps_request (PInt 10)) = (Body PNone, Mock.World [] 1)
  /\ lists_nothing PNone = true
  /\ API.find_test_step_id_by_order Mock.transport (PInt 10) (PInt 1) Mock.fresh
     = (Ret PNone, Manager None (Mock.World [] 1) [steps_request (PInt 10)]).
Proof.
  split; [reflexivity |]. split; [reflexivity |].
  apply (no_steps_resolve_to_none Mock.transport (PInt 10) (PInt 1) PNone Mock.fresh
           (Mock.World [] 1) eq_refl eq_refl).
Defined.

Lemma catalogue_serves_pages :
  serves_pages Mock.catalogue (platform Mock.fresh) 1
    [[PDict Mock.login; PDict Mock.search]; [PDict Mock.logout]].
Proof.
  split; [discriminate |]. eexists. split; [reflexivity |].
  split; [discriminate |]. eexists. split; [reflexivity |].
  eexists. eexists. split; reflexivity.
Qed.

Lemma list_test_cases_collects_pages_witness :
  serves_pages Mock.catalogue (platform Mock.fresh) 1
    [[PDict Mock.login; PDict Mock.search]; [PDict Mock.logout]]
  /\ (2 < 3)%nat
  /\ exists st',
       API.list_test_cases Mock.catalogue 3 Mock.fresh
       = (Ret [PDict Mock.login; PDict Mock.search; PDict Mock.logout], st')
       /\ sent st' = [cases_request 1; cases_request 2; cases_request 3].
Proof.
  split; [exact catalogue_serves_pages |]. split; [lia |].
  apply (list_test_cases_collects_pages Mock.catalogue
           [[PDict Mock.login; PDict Mock.search]; [PDict Mock.logout]] 3 Mock.fresh
           catalogue_serves_pages).
  simpl. lia.
Defined.

Lemma unpaged_never_runs_out : never_runs_out Mock.unpaged.
Proof. intros w page. eexists. eexists. split; [reflexivity | discriminate]. Qed.

Lemma list_test_cases_needs_an_empty_page_witness :
  never_runs_out Mock.unpaged
  /\ (API.list_test_cases Mock.unpaged 50 Mock.fresh).1 = Diverge
  /\ (API.find_test_case_id_by_name Mock.unpaged 50 (PStr "Login") Mock.fresh).1 = Diverge.
Proof.
  split; [exact unpaged_never_runs_out |].
  apply (list_test_cases_needs_an_empty_page Mock.unpaged 50 (PStr "Login") Mock.fresh
           unpaged_never_runs_out).
Defined.

(** ** The status registry, further *)

Lemma get_set_if_eq k c v d :
  Py.get k (Manager.set_if c k v d) = if c then Some v else Py.get k d.
Proof. destruct c; simpl; [apply get_set_eq | reflexivity]. Qed.

Lemma status_mapping_app pre : forall post acc m,
  Manager.status_mapping (pre ++ post) acc = Ret m ->
  exists mid, Manager.status_mapping pre acc = Ret mid /\ Manager.status_mapping post mid = Ret m.
Proof.
  induction pre as [| status pre IH]; intros post acc m H.
  - exists acc. split; [reflexivity | exact H].
  - simpl in *.
    destruct (Py.getitem status "name") as [name | |]; try discriminate. simpl in *.
    destruct (Py.method_upper name) as [key | |]; try discriminate. simpl in *.
    destruct (Py.getitem status "id") as [id | |]; try discriminate. simpl in *.
    apply IH. exact H.
Qed.

Lemma status_mapping_other_keys statuses : forall acc m key,
  Manager.status_mapping statuses acc = Ret m ->
  (forall status name, In status statuses ->
     Py.getitem status "name" = Ret (PStr name) -> Py.upper name <> key) ->
  Py.get key m = Py.get key acc.
Proof.
  induction statuses as [| status statuses IH]; intros acc m key H Hother.
  - simpl in H. inversion H. reflexivity.
  - simpl in H.
    destruct (Py.getitem status "name") as [name | |] eqn:Hname; try discriminate.
    simpl in H. destruct name as [| | | name | |]; try discriminate. simpl in H.
    destruct (Py.getitem status "id") as [id | |]; try discriminate. simpl in H.
    rewrite (IH _ _ key H).
    + apply get_set_ne. intros ->. exact (Hother status name (or_introl eq_refl) Hname eq_refl).
    + intros s n Hin. apply Hother. right. exact Hin.
Qed.

Section Registry.
Context {World : Type} (transport : World -> request -> reply * World).

(** X6. A fetch of the statuses that fails is not cached: whatever made
    [get_execution_statuses] raise (the transport, a body that is no list,
    a status without a name), the cache is still empty afterwards, and the
    next call asks the platform again. *)
Theorem failed_status_fetch_is_not_cached (st st1 : manager World) e :
  _execution_statuses st = None ->
  Manager.get_execution_statuses transport st = (Raise e, st1) ->
  _execution_statuses st1 = None
  /\ sent st1 = (sent st ++ [statuses_request])%list
  /\ sent (Manager.get_execution_statuses transport st1).2
     = (sent st1 ++ [statuses_request])%list.
Proof.
  intros Hnone Hcall.
  assert (Hst1 : _execution_statuses st1 = None
                 /\ sent st1 = (sent st ++ [statuses_request])%list).
  { unfold Manager.get_execution_statuses in Hcall. rewrite Hnone in Hcall.
    unfold bind, API.get_execution_statuses, API._make_request, lift in Hcall.
    cbv zeta in Hcall. fold statuses_request in Hcall.
    destruct (transport (platform st) statuses_request) as [[body | msg] w].
    - destruct (Py.iter body) as [items | |].
      + destruct (Manager.status_mapping items []) as [m | |]; try discriminate.
        inversion Hcall; subst. rewrite Hnone. split; reflexivity.
      + inversion Hcall; subst. rewrite Hnone. split; reflexivity.
      + discriminate.
    - inversion Hcall; subst. rewrite Hnone. split; reflexivity. }
  destruct Hst1 as [Hcache Hsent]. split; [exact Hcache |]. split; [exact Hsent |].
  destruct (get_execution_statuses_requests transport st1) as [H | H]; [| exact H].
  exfalso. unfold Manager.get_execution_statuses in H. rewrite Hcache in H.
  unfold bind, API.get_execution_statuses, API._make_request, lift in H. cbv zeta in H.
  destruct (transport (platform st1) _) as [[body | msg] w]; simpl in H.
  - destruct (Py.iter body) as [items | |]; simpl in H.
    + destruct (Manager.status_mapping items []); simpl in H;
        apply (f_equal (@length request)) in H; rewrite length_app in H; simpl in H; lia.
    + apply (f_equal (@length request)) in H; rewrite length_app in H; simpl in H; lia.
    + apply (f_equal (@length request)) in H; rewrite length_app in H; simpl in H; lia.
  - apply (f_equal (@length request)) in H; rewrite length_app in H; simpl in H; lia.
Qed.

End Registry.

Lemma failed_status_fetch_is_not_cached_witness :
  let down := Manager None (Mock.World [] 0) [statuses_request] in
  _execution_statuses Mock.fresh = None
  /\ Manager.get_execution_statuses Mock.unreachable Mock.fresh
     = (Raise (RequestException "Connection refused"), down)
  /\ _execution_statuses down = None
  /\ Manager.get_execution_statuses Mock.transport down
     = (Ret mock_registry,
        Manager (Some mock_registry) (Mock.World [] 1) [statuses_request; statuses_request]).
Proof.
  intros down. split; [reflexivity |]. split; [reflexivity |].
  split; [| reflexivity].
  apply (proj1 (failed_status_fetch_is_not_cached Mock.unreachable Mock.fresh down
                  (RequestException "Connection refused") eq_refl eq_refl)).
Defined.

(** X7. When several statuses have the same name up to letter case, the
    registry keeps the id of the last of them: the id under an upper-cased
    name is that of the last status of the list with that name. *)
Theorem status_mapping_last_wins pre status post acc m name id :
  Manager.status_mapping (pre ++ status :: post) acc = Ret m ->
  Py.getitem status "name" = Ret (PStr name) ->
  Py.getitem status "id" = Ret id ->
  (forall later other, In later post ->
     Py.getitem later "name" = Ret (PStr other) -> Py.upper other <> Py.upper name) ->
  Py.get (Py.upper name) m = Some id.
Proof.
  intros Hm Hname Hid Hlater.
  destruct (status_mapping_app pre (status :: post) acc m Hm) as (mid & _ & Hrest).
  simpl in Hrest. rewrite Hname in Hrest. simpl in Hrest. rewrite Hid in Hrest. simpl in Hrest.
  rewrite (status_mapping_other_keys post _ m (Py.upper name) Hrest Hlater).
  apply get_set_eq.
Qed.

Lemma status_mapping_last_wins_witness :
  let first := PDict [("id", PInt 1); ("name", PStr "Passed")] in
  let other := PDict [("id", PInt 2); ("name", PStr "Failed")] in
  let last := PDict [("id", PInt 7); ("name", PStr "PASSED")] in
  Manager.status_mapping ([first; other] ++ last :: []) []
  = Ret [("PASSED", PInt 7); ("FAILED", PInt 2)]
  /\ Py.get (Py.upper "PASSED") [("PASSED", PInt 7); ("FAILED", PInt 2)] = Some (PInt 7).
Proof.
  intros first other last. split; [reflexivity |].
  apply (status_mapping_last_wins [first; other] last [] [] _ "PASSED" (PInt 7)
           eq_refl eq_refl eq_refl).
  intros later n [].
Defined.

(** ** The result reporter, further *)

Ltac get_fields :=
  repeat first [ rewrite get_set_if_eq
               | rewrite get_set_if_ne by discriminate
               | rewrite get_set_eq
               | rewrite get_set_ne by discriminate ].

Lemma iter_never_diverges v : Py.iter v <> Diverge.
Proof. destruct v; discriminate. Qed.

Lemma test_log_data_never_diverges statuses name case version note time defects start finish :
  Manager.test_log_data statuses name case version note time defects start finish <> Diverge.
Proof.
  unfold Manager.test_log_data. destruct (Py.truthy defects); [| discriminate].
  pose proof (iter_never_diverges defects).
  destruct (Py.iter defects); simpl; [discriminate | discriminate | contradiction].
Qed.

(** X8. What a test log carries besides its status: the version id given,
    or the case id when none is given; the note, the execution time, the
    start and the end date only when they are true in Python's sense (an
    execution time of 0 and an empty note are left out); and one
    [{'id': d}] per defect, or no [defects] at all when there is none. *)
Theorem test_log_optional_fields statuses name case version note time defects start finish d :
  Manager.test_log_data statuses name case version note time defects start finish = Ret d ->
  Py.get "test_case_version_id" d = Some (if Py.is_none version then case else version)
  /\ Py.get "note" d = (if Py.truthy note then Some note else None)
  /\ Py.get "exe_time" d = (if Py.truthy time then Some time else None)
  /\ Py.get "exe_start_date" d = (if Py.truthy start then Some start else None)
  /\ Py.get "exe_end_date" d = (if Py.truthy finish then Some finish else None)
  /\ (if Py.truthy defects
      then exists ids,
             Py.iter defects = Ret ids
             /\ Py.get "defects" d = Some (PList (map (fun i => PDict [("id", i)]) ids))
      else Py.get "defects" d = None).
Proof.
  unfold Manager.test_log_data. intros H.
  destruct (Py.truthy defects).
  - destruct (Py.iter defects) as [ids | e |]; simpl in H; try discriminate.
    inversion H; subst d; clear H.
    split; [get_fields; reflexivity |].
    split; [get_fields; destruct (Py.truthy note); reflexivity |].
    split; [get_fields; destruct (Py.truthy time); reflexivity |].
    split; [get_fields; destruct (Py.truthy start); reflexivity |].
    split; [get_fields; destruct (Py.truthy finish); reflexivity |].
    exists ids. split; [reflexivity |]. get_fields. reflexivity.
  - simpl in H. inversion H; subst d; clear H.
    split; [get_fields; reflexivity |].
    split; [get_fields; destruct (Py.truthy note); reflexivity |].
    split; [get_fields; destruct (Py.truthy time); reflexivity |].
    split; [get_fields; destruct (Py.truthy start); reflexivity |].
    split; [get_fields; destruct (Py.truthy finish); reflexivity |].
    get_fields. reflexivity.
Qed.

Lemma test_log_optional_fields_witness :
  let d := [("status", PDict [("id", PInt 1); ("name", PStr "PASSED")]);
            ("test_case_version_id", PInt 10);
            ("defects", PList [PDict [("id", PStr "BUG-7")]])] in
  Manager.test_log_data mock_registry "PASSED" (PInt 10) PNone (PStr "") (PInt 0)
    (PList [PStr "BUG-7"]) PNone PNone = Ret d
  /\ Py.get "test_case_version_id" d = Some (PInt 10)
  /\ Py.get "exe_time" d = None.
Proof.
  intros d. split; [reflexivity |].
  pose proof (test_log_optional_fields mock_registry "PASSED" (PInt 10) PNone (PStr "") (PInt 0)
                (PList [PStr "BUG-7"]) PNone PNone d eq_refl) as (H1 & _ & H3 & _).
  split; [exact H1 | exact H3].
Defined.

Section ReporterEdges.
Context {World : Type} (transport : World -> request -> reply * World).

(** X9. No result is submitted without step logs to read: when
    [steplogs['logs']] raises ([steplogs] is [None], a list, a dict
    without ['logs']), [update_test_result] raises too, whatever the
    status, and issues no request after the lookup of the registry. *)
Theorem update_needs_step_logs
    test_run_id test_case_id (status : string) steplogs
    version note time defects start finish (st st1 : manager World) statuses e :
  Manager.get_execution_statuses transport st = (Ret statuses, st1) ->
  Py.getitem steplogs "logs" = Raise e ->
  exists e',
    Manager.update_test_result transport test_run_id test_case_id (PStr status)
      (Some steplogs) version note time defects start finish st = (Raise e', st1).
Proof.
  intros Hreg Hlogs.
  rewrite (update_after_registry transport _ _ _ _ _ _ _ _ _ _ _ _ _ Hreg).
  destruct (negb (Py.contains (Py.upper status) statuses)); [eexists; reflexivity |].
  unfold bind, lift.
  pose proof (test_log_data_never_diverges statuses (Py.upper status) test_case_id version
                note time defects start finish) as Hd.
  destruct (Manager.test_log_data _ _ _ _ _ _ _ _ _) as [d | e' |];
    [| eexists; reflexivity | contradiction].
  rewrite Hlogs. eexists; reflexivity.
Qed.

Lemma list_test_cases_issues fuel : forall page size acc,
  issues (World := World) (fun req => meth req = GET)
    (API.list_test_cases_from transport fuel page size acc).
Proof.
  induction fuel as [| fuel IH]; intros page size acc; simpl.
  - intros st. exists []. simpl. rewrite app_nil_r. auto.
  - apply issues_bind; [apply issues_request; reflexivity | intros resp st _].
    destruct (negb (Py.truthy resp)); [apply issues_ret |].
    destruct resp; try apply issues_ret; [apply IH |].
    destruct (negb _); [apply issues_ret |].
    apply issues_bind; [apply issues_lift | intros more st' _; apply IH].
Qed.

Lemma find_test_case_issues fuel name :
  issues (World := World) (fun req => meth req = GET)
    (API.find_test_case_id_by_name transport fuel name).
Proof.
  unfold API.find_test_case_id_by_name, API.list_test_cases.
  apply issues_try; [| intros e; apply issues_ret].
  apply issues_bind; [apply list_test_cases_issues | intros cases st _]. issues_all.
Qed.

(** X10. [update_test_result_by_name] never reports anything: it raises
    [ValueError] when the name resolves to no case, and otherwise calls
    [update_test_result] without its required [steplogs], which raises
    [TypeError]; the only requests it issues are the page reads of the
    name lookup. *)
Theorem update_by_name_never_reports
    fuel test_run_id test_case_name status version note time defects :
  issues (fun req => meth req = GET)
    (Manager.update_test_result_by_name transport fuel test_run_id test_case_name status
       version note time defects)
  /\ forall (st : manager World),
       match (Manager.update_test_result_by_name transport fuel test_run_id test_case_name
                status version note time defects st).1 with
       | Ret _ => False
       | Raise e =>
           e = ValueError ("Test case not found by name: " ++ Py.str test_case_name)
           \/ e = Manager.missing_steplogs
       | Diverge => True
       end.
Proof.
  split.
  - unfold Manager.update_test_result_by_name, Manager.get_test_case_id_by_name.
    apply issues_bind; [apply find_test_case_issues | intros cid st _].
    destruct (Py.is_none cid); [apply issues_raise |].
    unfold Manager.update_test_result. apply issues_raise.
  - intros st.
    unfold Manager.update_test_result_by_name, Manager.get_test_case_id_by_name, bind.
    pose proof (find_test_case_never_raises transport fuel test_case_name st) as Hnever.
    destruct (API.find_test_case_id_by_name transport fuel test_case_name st)
      as [[cid | e |] st']; simpl in *.
    + destruct (Py.is_none cid); simpl; auto.
    + exfalso. exact (Hnever e eq_refl).
    + exact I.
Qed.

(** X11. A test cycle given by id is taken as it is: [create_test_run]
    then looks no cycle up and creates none, even when a cycle name is
    given too; it raises what the payload raises without issuing any
    request, and otherwise issues the one run creation, under
    [parentId] = the id and [parentType] = ['test-cycle']. *)
Theorem explicit_cycle_id_needs_no_lookup name ids id v desc ps pe bv ci cn
    (st : manager World) :
  Py.truthy ci = true ->
  match Manager.test_run_data name ids id v desc ps pe bv with
  | Ret d =>
      sent (Manager.create_test_run transport name ids id v desc ps pe bv ci cn st).2
      = (sent st ++ [Request POST "test-runs" (PDict d)
                       (PDict [("parentId", ci); ("parentType", PStr "test-cycle")])])%list
  | Raise e =>
      Manager.create_test_run transport name ids id v desc ps pe bv ci cn st = (Raise e, st)
  | Diverge => True
  end.
Proof.
  intros Hci. unfold Manager.create_test_run. rewrite Hci.
  unfold bind at 1. unfold ret at 1. cbv beta iota.
  unfold bind at 1. unfold lift at 1.
  destruct (Manager.test_run_data name ids id v desc ps pe bv) as [d | e |];
    [| reflexivity | exact I].
  cbv beta iota. unfold bind, API.create_test_run, API._make_request, lift. cbv zeta.
  unfold API.parent_params. simpl fst. simpl snd. rewrite Hci. simpl Py.truthy. cbv iota.
  simpl andb. cbv iota.
  destruct (transport (platform st) _) as [[body | msg] w]; simpl; [| reflexivity].
  destruct (Py.method_get body "id" PNone); reflexivity.
Qed.

Lemma resolve_names_unreachable fuel names : forall (st : manager World) msg,
  unreachable transport (platform st) msg ->
  exists st',
    Manager.resolve_test_case_ids_by_names transport (S fuel) names st = (Ret [], st')
    /\ platform st' = platform st.
Proof.
  induction names as [| name names IH]; intros st msg Hdown.
  - exists st. split; reflexivity.
  - simpl Manager.resolve_test_case_ids_by_names.
    assert (Hfind : Manager.get_test_case_id_by_name transport (S fuel) name st
                    = (Ret PNone,
                       Manager (_execution_statuses st) (platform st)
                         (sent st ++ [Request GET "test-cases" PNone
                                        (PDict [("page", PInt 1); ("size", PInt 100)])]))).
    { unfold Manager.get_test_case_id_by_name, API.find_test_case_id_by_name, try_except,
        API.list_test_cases, bind.
      simpl API.list_test_cases_from. unfold bind.
      rewrite (request_fails transport _ _ _ _ _ _ Hdown). reflexivity. }
    unfold bind at 1. rewrite Hfind.
    destruct (IH (Manager (_execution_statuses st) (platform st)
                    (sent st ++ [Request GET "test-cases" PNone
                                   (PDict [("page", PInt 1); ("size", PInt 100)])])) msg Hdown)
      as (st' & Hrest & Hplatform).
    unfold bind. rewrite Hrest. exists st'. split; [reflexivity | exact Hplatform].
Qed.

(** X12. With the platform unreachable, [create_test_run_by_names] does
    not report the transport failure: every lookup is swallowed by the
    resolvers, no case resolves, and the call raises
    [ValueError("No test cases resolved. Please verify names.")]. *)
Theorem unreachable_platform_reads_as_unknown_names
    fuel name names cycle desc ps pe bv (st : manager World) msg :
  unreachable transport (platform st) msg ->
  (Manager.create_test_run_by_names transport (S fuel) name names cycle desc ps pe bv st).1
  = Raise (ValueError "No test cases resolved. Please verify names.").
Proof.
  intros Hdown. unfold Manager.create_test_run_by_names.
  assert (Hcycle : exists st1,
            (if Py.truthy cycle
             then Manager.get_test_cycle_id_by_name transport cycle
             else ret PNone) st = (Ret PNone, st1)
            /\ platform st1 = platform st).
  { destruct (Py.truthy cycle).
    - unfold Manager.get_test_cycle_id_by_name, API.find_test_cycle_id_by_name, try_except,
        bind, API.get_test_cycles.
      rewrite (request_fails transport _ _ _ _ _ _ Hdown). eexists. split; reflexivity.
    - exists st. split; reflexivity. }
  destruct Hcycle as (st1 & Hc & Hp).
  unfold bind at 1. rewrite Hc.
  assert (Hdown1 : unreachable transport (platform st1) msg) by (rewrite Hp; exact Hdown).
  destruct (resolve_names_unreachable fuel names st1 msg Hdown1) as (st2 & Hr & _).
  unfold bind. rewrite Hr. reflexivity.
Qed.


End ReporterEdges.

Lemma update_needs_step_logs_witness :
  Manager.get_execution_statuses Mock.transport Mock.fresh = (Ret mock_registry, mock_registered)
  /\ Py.getitem PNone "logs" = Raise (TypeError "'NoneType' object is not subscriptable")
  /\ exists e',
       Manager.update_test_result Mock.transport (PInt 100) (PInt 10) (PStr "PASSED")
         (Some PNone) PNone PNone PNone PNone PNone PNone Mock.fresh
       = (Raise e', mock_registered).
Proof.
  split; [reflexivity |]. split; [reflexivity |].
  apply (update_needs_step_logs Mock.transport (PInt 100) (PInt 10) "PASSED" PNone
           PNone PNone PNone PNone PNone PNone Mock.fresh mock_registered mock_registry
           (TypeError "'NoneType' object is not subscriptable") eq_refl eq_refl).
Defined.

Lemma explicit_cycle_id_needs_no_lookup_witness :
  Py.truthy (PInt 50) = true
  /\ sent (Manager.create_test_run Mock.transport (PStr "Run") (PList [PInt 1]) PNone PNone
             PNone PNone PNone (PStr "1.0") (PInt 50) (PStr "Sprint 1") Mock.fresh).2
     = [Request POST "test-runs"
          (PDict [("name", PStr "Run"); ("test_case_ids", PList [PInt 1])])
          (PDict [("parentId", PInt 50); ("parentType", PStr "test-cycle")])].
Proof.
  split; [reflexivity |].
  apply (explicit_cycle_id_needs_no_lookup Mock.transport (PStr "Run") (PList [PInt 1]) PNone
           PNone PNone PNone PNone (PStr "1.0") (PInt 50) (PStr "Sprint 1") Mock.fresh eq_refl).
Defined.

Lemma unreachable_platform_reads_as_unknown_names_witness :
  unreachable Mock.unreachable (platform Mock.fresh) "Connection refused"
  /\ (Manager.create_test_run_by_names Mock.unreachable 1 (PStr "Run")
        [PStr "Login"; PStr "Search"] (PStr "Sprint 1") PNone PNone PNone PNone Mock.fresh).1
     = Raise (ValueError "No test cases resolved. Please verify names.").
Proof.
  assert (H : unreachable Mock.unreachable (platform Mock.fresh) "Connection refused")
    by (intros req; reflexivity).
  split; [exact H |].
  apply (unreachable_platform_reads_as_unknown_names Mock.unreachable 0 (PStr "Run")
           [PStr "Login"; PStr "Search"] (PStr "Sprint 1") PNone PNone PNone PNone Mock.fresh
           "Connection refused" H).
Defined.

(** ** Computations that come to an end *)

Lemma terminates_ret {World A} (a : A) : terminates (World := World) (ret a).
Proof. intros st. discriminate. Qed.

Lemma terminates_raise {World A} e : terminates (World := World) (raise (A := A) e).
Proof. intros st. discriminate. Qed.

Lemma terminates_lift {World A} (r : res A) : r <> Diverge -> terminates (World := World) (lift r).
Proof. intros H st. exact H. Qed.

Lemma terminates_bind {World A B} (c : M World A) (k : A -> M World B) :
  terminates c -> (forall a, terminates (k a)) -> terminates (bind c k).
Proof.
  intros Hc Hk st. specialize (Hc st). unfold bind.
  destruct (c st) as [[a | e |] st']; simpl in *; [apply Hk | discriminate | contradiction].
Qed.

Lemma terminates_request {World} (transport : World -> request -> reply * World) m ep d p :
  terminates (API._make_request transport m ep d p).
Proof.
  intros st. unfold API._make_request.
  destruct (transport (platform st) _) as [[v | msg] w]; discriminate.
Qed.

(** [try: c except Exception: return None] returns when [c] comes to an end. *)
Lemma guarded_returns {World} (c : M World pyval) (st : manager World) :
  terminates c -> exists v, (try_except c (fun _ => ret PNone) st).1 = Ret v.
Proof.
  intros Hc. specialize (Hc st). unfold try_except.
  destruct (c st) as [[v | e |] st']; simpl in *; eauto. contradiction.
Qed.

Lemma find_step_in_never_diverges steps order : API.find_step_in steps order <> Diverge.
Proof.
  induction steps as [| s steps IH]; simpl; [discriminate |].
  destruct s; try discriminate.
  destruct (Py.is_none _); [exact IH |].
  destruct (API.order_equal _ _); [discriminate | exact IH].
Qed.

Lemma find_step_named_outcome steps target :
  match Manager.find_step_named steps target with
  | Ret v => target = "" -> v = PNone
  | Raise _ => True
  | Diverge => False
  end.
Proof.
  induction steps as [| s steps IH]; simpl; [reflexivity |].
  destruct s as [| | | | | d]; simpl; try exact I.
  destruct (negb (String.eqb target "") && _) eqn:E; [| exact IH].
  intros ->. simpl in E. discriminate E.
Qed.

Section StepResolvers.
Context {World : Type} (transport : World -> request -> reply * World).

Lemma get_test_steps_terminates id : terminates (API.get_test_steps transport id).
Proof.
  unfold API.get_test_steps. apply terminates_bind; [apply terminates_request |].
  intros data. destruct data; try apply terminates_ret.
  destruct (Py.contains "items" d); apply terminates_ret.
Qed.

(** X14. The manager's step resolvers never raise, and every failure
    reads as [None]: whatever the ids given and whatever the platform
    answers or fails with, [get_test_step_id_by_order] and
    [get_test_step_id_by_name] return a value. It is [None], with no
    request sent, when the case id (or, by order, the step number) is no
    integer; [None] when the request for the steps fails; and, by
    order, [None] whenever the search of the API raises, the value of
    that search otherwise. *)
Theorem step_resolvers_never_raise test_case_id step (st : manager World) :
  let by_order := Manager.get_test_step_id_by_order transport test_case_id step st in
  let by_name := Manager.get_test_step_id_by_name transport test_case_id step st in
  (exists v, by_order.1 = Ret v)
  /\ (exists v, by_name.1 = Ret v)
  /\ (forall e, Py.int test_case_id = Raise e ->
        by_order = (Ret PNone, st) /\ by_name = (Ret PNone, st))
  /\ (forall e, Py.int step = Raise e -> by_order = (Ret PNone, st))
  /\ (forall case msg w,
        Py.int test_case_id = Ret case ->
        transport (platform st) (steps_request (PInt case)) = (Failure msg, w) ->
        by_name.1 = Ret PNone
        /\ sent by_name.2 = (sent st ++ [steps_request (PInt case)])%list
        /\ by_order.1 = Ret PNone)
  /\ (forall case number,
        Py.int test_case_id = Ret case -> Py.int step = Ret number ->
        match
          (API.find_test_step_id_by_order transport (PInt case) (PInt number) st).1
        with
        | Ret v => by_order.1 = Ret v
        | Raise _ => by_order.1 = Ret PNone
        | Diverge => False
        end).
Proof.
  intros by_order by_name. subst by_order by_name.
  split; [| split; [| split; [| split; [| split]]]].
  - unfold Manager.get_test_step_id_by_order. apply guarded_returns.
    apply terminates_bind; [apply terminates_lift, int_never_diverges | intros case].
    apply terminates_bind; [apply terminates_lift, int_never_diverges | intros number].
    unfold API.find_test_step_id_by_order.
    apply terminates_bind; [apply get_test_steps_terminates | intros steps].
    apply terminates_bind; [apply terminates_lift, iter_never_diverges | intros items].
    apply terminates_lift, find_step_in_never_diverges.
  - unfold Manager.get_test_step_id_by_name. apply guarded_returns.
    apply terminates_bind; [apply terminates_lift, int_never_diverges | intros case].
    apply terminates_bind; [apply get_test_steps_terminates | intros steps].
    apply terminates_bind; [apply terminates_lift, iter_never_diverges | intros items].
    apply terminates_lift.
    pose proof (find_step_named_outcome items (Py.lower (Py.strip (Py.str step)))) as H.
    destruct (Manager.find_step_named _ _); [discriminate | discriminate | contradiction].
  - intros e He.
    unfold Manager.get_test_step_id_by_order, Manager.get_test_step_id_by_name,
      try_except, bind, lift.
    rewrite He. split; reflexivity.
  - intros e He. unfold Manager.get_test_step_id_by_order, try_except, bind, lift.
    pose proof (int_never_diverges test_case_id) as Hd.
    destruct (Py.int test_case_id); [| reflexivity | contradiction].
    rewrite He. reflexivity.
  - intros case msg w Hcase Hfail. unfold steps_request in *.
    unfold Manager.get_test_step_id_by_order, Manager.get_test_step_id_by_name,
      try_except, bind, lift.
    rewrite Hcase.
    unfold API.find_test_step_id_by_order, API.get_test_steps, bind, API._make_request.
    cbv zeta. rewrite Hfail. split; [reflexivity |]. split; [reflexivity |].
    pose proof (int_never_diverges step) as Hd.
    destruct (Py.int step); [reflexivity | reflexivity | contradiction].
  - intros case number Hcase Hnumber.
    unfold Manager.get_test_step_id_by_order, try_except, bind, lift.
    rewrite Hcase, Hnumber.
    assert (Hend : terminates (API.find_test_step_id_by_order transport (PInt case)
                                 (PInt number))).
    { unfold API.find_test_step_id_by_order.
      apply terminates_bind; [apply get_test_steps_terminates | intros steps].
      apply terminates_bind; [apply terminates_lift, iter_never_diverges | intros items].
      apply terminates_lift, find_step_in_never_diverges. }
    specialize (Hend st).
    destruct (API.find_test_step_id_by_order transport (PInt case) (PInt number) st)
      as [[v | e |] st']; simpl in *; [reflexivity | reflexivity | contradiction].
Qed.

Example step_resolvers_on_failure :
  Manager.get_test_step_id_by_order Mock.unreachable (PInt 10) (PStr "2") Mock.fresh
  = (Ret PNone, Manager None (Mock.World [] 0) [steps_request (PInt 10)])
  /\ Manager.get_test_step_id_by_name Mock.transport (PStr "Login") (PStr "Open") Mock.fresh
     = (Ret PNone, Mock.fresh).
Proof. split; reflexivity. Qed.

(** X15. A blank text names no step: when the text is empty once
    stripped, [get_test_step_id_by_name] returns [None], also for a case
    whose steps have empty names or descriptions. *)
Theorem blank_text_names_no_step test_case_id step_name (st : manager World) :
  Py.strip (Py.str step_name) = "" ->
  (Manager.get_test_step_id_by_name transport test_case_id step_name st).1 = Ret PNone.
Proof.
  intros Hblank. unfold Manager.get_test_step_id_by_name, try_except, bind, lift.
  rewrite Hblank. change (Py.lower "") with "".
  pose proof (int_never_diverges test_case_id) as Hint.
  destruct (Py.int test_case_id) as [case | |]; [| reflexivity | contradiction].
  pose proof (get_test_steps_terminates (PInt case) st) as Hsteps.
  destruct (API.get_test_steps transport (PInt case) st) as [[steps | e |] st'];
    simpl in Hsteps; [| reflexivity | contradiction].
  pose proof (iter_never_diverges (Py.or_ steps (PList []))) as Hiter.
  destruct (Py.iter (Py.or_ steps (PList []))) as [items | |]; [| reflexivity | contradiction].
  pose proof (find_step_named_outcome items "") as H.
  destruct (Manager.find_step_named items ""); simpl;
    [rewrite (H eq_refl); reflexivity | reflexivity | contradiction].
Qed.

End StepResolvers.

Lemma blank_text_names_no_step_witness :
  let platform (w : unit) (req : request) :=
    (Body (PList [PDict [("id", PInt 71); ("description", PStr "Open the page")]]), w) in
  Py.strip (Py.str (PStr "  ")) = ""
  /\ (Manager.get_test_step_id_by_name platform (PInt 10) (PStr "  ") (Manager None tt [])).1
     = Ret PNone.
Proof.
  intros platform. split; [reflexivity |].
  apply (blank_text_names_no_step platform (PInt 10) (PStr "  ") (Manager None tt []) eq_refl).
Defined.

(** ** The run of a case *)

Lemma find_run_in_first_match test_case_id runs :
  forallb listed_run runs = true ->
  API.find_run_in (map PDict runs) test_case_id
  = Ret (match find (run_matches test_case_id) runs with
         | Some run => Py.get_or_none "id" run
         | None => PNone
         end).
Proof.
  induction runs as [| run runs IH]; [reflexivity |].
  simpl forallb. intros H. apply andb_prop in H. destruct H as [Hrun Hruns].
  unfold listed_run in Hrun. apply andb_prop in Hrun. destruct Hrun as [Htc _].
  assert (Hdict : exists tc, Py.or_ (Py.get_or_none "test_case" run) (PDict []) = PDict tc).
  { unfold Py.or_. destruct (Py.get_or_none "test_case" run) as [| b | n | s | l | tc];
      simpl in *; try (rewrite (proj1 (negb_true_iff _) Htc)); eauto.
    destruct tc; eauto. }
  destruct Hdict as (tc & Htc').
  simpl map. simpl API.find_run_in. simpl find.
  unfold run_matches at 1. unfold bound_case at 1.
  unfold Py.get_default, Py.get_or_none in *. rewrite Htc'. simpl.
  unfold Py.get_default.
  destruct (String.eqb _ _); [reflexivity | exact (IH Hruns)].
Qed.

Section Runs.
Context {World : Type} (transport : World -> request -> reply * World).

Lemma find_test_run_listed parent_id parent_type test_case_id runs (st : manager World) w :
  transport (platform st) (runs_request parent_id parent_type) = (Body (PList runs), w) ->
  API.find_test_run_id_by_test_case transport parent_id parent_type test_case_id st
  = (API.find_run_in runs test_case_id,
     Manager (_execution_statuses st) w (sent st ++ [runs_request parent_id parent_type])).
Proof.
  intros Hreply.
  unfold API.find_test_run_id_by_test_case, API.get_test_runs, API._make_request, bind, lift.
  cbv zeta. fold (runs_request parent_id parent_type). rewrite Hreply. cbv beta iota.
  unfold ret.
  assert (Hiter : Py.iter (Py.or_ (PList runs) (PList [])) = Ret runs)
    by (destruct runs; reflexivity).
  rewrite Hiter. destruct (API.find_run_in runs test_case_id); reflexivity.
Qed.

Lemma create_test_run_for_case_created
    parent_id parent_type test_case_id start finish tc created (st : manager World) w w' :
  transport (platform st) (case_request test_case_id) = (Body (PDict tc), w) ->
  transport w (Request POST "test-runs" (PDict (run_payload tc test_case_id start finish))
                 (PDict [("parentId", parent_id); ("parentType", parent_type)]))
  = (Body (PDict created), w') ->
  API.create_test_run_for_case transport parent_id parent_type test_case_id PNone start finish st
  = (Ret (PDict created),
     Manager (_execution_statuses st) w'
       ((sent st ++ [case_request test_case_id])
        ++ [Request POST "test-runs" (PDict (run_payload tc test_case_id start finish))
              (PDict [("parentId", parent_id); ("parentType", parent_type)])])).
Proof.
  intros Hcase Hpost. unfold case_request in *. unfold run_payload in *. cbv zeta in Hpost.
  unfold API.create_test_run_for_case, API.get_test_case, bind, lift, ret, API._make_request.
  cbv zeta. rewrite Hcase. change (Py.truthy PNone) with false. cbv beta iota.
  unfold Py.method_get. cbv beta iota. unfold platform at 1. rewrite Hpost. reflexivity.
Qed.

(** X16. Look-up before creation: when the platform lists runs under the
    parent, each with a numbered id, and one of them is bound to the test
    case (the id of its [test_case] and the case asked for agree as
    strings), [ensure_test_run_for_case] returns the id of the first such
    run, as an integer, after the one listing request, and creates
    nothing, whatever [create_if_missing] says. *)
Theorem ensure_reuses_listed_run
    parent_id parent_type test_case_id create start finish (runs : list dict) run i
    (st : manager World) w :
  transport (platform st) (runs_request parent_id parent_type)
  = (Body (PList (map PDict runs)), w) ->
  forallb listed_run runs = true ->
  find (run_matches test_case_id) runs = Some run ->
  Py.get_or_none "id" run = PInt i ->
  Manager.ensure_test_run_for_case transport parent_id parent_type test_case_id create
    start finish st
  = (Ret (PInt i),
     Manager (_execution_statuses st) w (sent st ++ [runs_request parent_id parent_type])).
Proof.
  intros Hreply Hlisted Hfind Hid.
  assert (Htruthy : Py.truthy (PInt i) = true).
  { apply find_some in Hfind. destruct Hfind as [Hin _].
    rewrite forallb_forall in Hlisted. specialize (Hlisted run Hin).
    unfold listed_run in Hlisted. apply andb_prop in Hlisted. destruct Hlisted as [_ Hrun].
    rewrite Hid in Hrun. exact Hrun. }
  unfold Manager.ensure_test_run_for_case, bind at 1.
  rewrite (find_test_run_listed _ _ _ _ _ _ Hreply).
  rewrite (find_run_in_first_match _ _ Hlisted), Hfind, Hid, Htruthy.
  reflexivity.
Qed.

(** X17. With [create_if_missing] false, a case that has no run under the
    parent (or only one whose id is 0 or missing) makes
    [ensure_test_run_for_case] raise [ValueError], after the listing
    request and without creating anything. *)
Theorem ensure_refuses_to_create
    parent_id parent_type test_case_id create start finish runs existing
    (st : manager World) w :
  transport (platform st) (runs_request parent_id parent_type) = (Body (PList runs), w) ->
  API.find_run_in runs test_case_id = Ret existing ->
  Py.truthy existing = false ->
  Py.truthy create = false ->
  Manager.ensure_test_run_for_case transport parent_id parent_type test_case_id create
    start finish st
  = (Raise (ValueError ("No test run found for test case " ++ Py.str test_case_id
                        ++ " under " ++ Py.str parent_type ++ ":" ++ Py.str parent_id)),
     Manager (_execution_statuses st) w (sent st ++ [runs_request parent_id parent_type])).
Proof.
  intros Hreply Hfind Hfalsy Hcreate.
  unfold Manager.ensure_test_run_for_case, bind at 1.
  rewrite (find_test_run_listed _ _ _ _ _ _ Hreply), Hfind, Hfalsy, Hcreate.
  reflexivity.
Qed.

(** X18. On a platform that stores the runs of the parent, and where
    nobody else creates any, [ensure_test_run_for_case] returns the same
    id on a second call: it returns the id of the first listed run bound
    to the case, or creates one run and returns its id, which the second
    call then finds; the second call creates nothing. *)
Theorem ensure_run_twice (runs_of : World -> list dict)
    parent_id parent_type test_case_id create start finish (st : manager World) :
  run_store transport parent_id parent_type test_case_id runs_of ->
  forallb listed_run (runs_of (platform st)) = true ->
  Py.truthy create = true ->
  let first :=
    Manager.ensure_test_run_for_case transport parent_id parent_type test_case_id create
      start finish st in
  let second :=
    Manager.ensure_test_run_for_case transport parent_id parent_type test_case_id create
      start finish first.2 in
  exists i,
    first.1 = Ret (PInt i) /\ second.1 = Ret (PInt i)
    /\ match find (run_matches test_case_id) (runs_of (platform st)) with
       | Some found =>
           Py.get_or_none "id" found = PInt i
           /\ runs_of (platform first.2) = runs_of (platform st)
       | None =>
           exists created,
             runs_of (platform first.2) = (runs_of (platform st) ++ [created])%list
             /\ bound_case created = test_case_id
             /\ Py.get_or_none "id" created = PInt i
       end
    /\ runs_of (platform second.2) = runs_of (platform first.2).
Proof.
  intros [Hlist Hshow Hcreate] Hlisted Hmissing first second.
  assert (Hid : forall run, listed_run run = true ->
            exists i, Py.get_or_none "id" run = PInt i /\ Py.truthy (PInt i) = true).
  { intros run Hrun. unfold listed_run in Hrun. apply andb_prop in Hrun.
    destruct Hrun as [_ Hrun].
    destruct (Py.get_or_none "id" run) as [| b | i | s | l | d]; try discriminate.
    exists i. split; [reflexivity | exact Hrun]. }
  assert (Hfound : forall (s : manager World) run,
            forallb listed_run (runs_of (platform s)) = true ->
            find (run_matches test_case_id) (runs_of (platform s)) = Some run ->
            exists i s',
              Py.get_or_none "id" run = PInt i
              /\ Manager.ensure_test_run_for_case transport parent_id parent_type test_case_id
                   create start finish s = (Ret (PInt i), s')
              /\ runs_of (platform s') = runs_of (platform s)).
  { intros s run Hall Hrun. destruct (Hlist (platform s)) as (w & Hget & Hsame).
    assert (Hin : listed_run run = true).
    { apply find_some in Hrun. destruct Hrun as [Hin _].
      rewrite forallb_forall in Hall. apply Hall. exact Hin. }
    destruct (Hid run Hin) as (i & Hi & Ht).
    exists i. eexists. split; [exact Hi |]. split.
    - unfold Manager.ensure_test_run_for_case, bind at 1.
      rewrite (find_test_run_listed _ _ _ _ _ _ Hget).
      rewrite (find_run_in_first_match _ _ Hall), Hrun, Hi, Ht.
      reflexivity.
    - exact Hsame. }
  destruct (find (run_matches test_case_id) (runs_of (platform st))) as [run |] eqn:Hrun.
  - destruct (Hfound st run Hlisted Hrun) as (i & s1 & Hi & H1 & C1).
    assert (Hlisted1 : forallb listed_run (runs_of (platform s1)) = true)
      by (rewrite C1; exact Hlisted).
    assert (Hrun1 : find (run_matches test_case_id) (runs_of (platform s1)) = Some run)
      by (rewrite C1; exact Hrun).
    destruct (Hfound s1 run Hlisted1 Hrun1) as (i' & s2 & Hi' & H2 & C2).
    rewrite Hi in Hi'. inversion Hi'; subst i'.
    exists i. subst first second. rewrite H1. simpl. rewrite H2. simpl. auto.
  - destruct (Hlist (platform st)) as (w1 & Hget1 & Hsame1).
    destruct (Hshow w1) as (tc & w2 & Hcase & Hsame2).
    set (payload := run_payload tc test_case_id start finish).
    assert (Hpayload : Py.get "test_case" payload = Some (PDict [("id", test_case_id)])).
    { subst payload. unfold run_payload.
      destruct (Py.truthy finish), (Py.truthy start);
        repeat rewrite get_set_ne by discriminate; reflexivity. }
    destruct (Hcreate w2 payload Hpayload) as (created & w3 & Hpost & Hruns3 & Htc & Hnew).
    destruct (Hid created Hnew) as (i & Hi & Ht).
    assert (H1 : first
                 = (Ret (PInt i),
                    Manager (_execution_statuses st) w3
                      (((sent st ++ [runs_request parent_id parent_type])
                        ++ [case_request test_case_id])
                       ++ [Request POST "test-runs" (PDict payload)
                             (PDict [("parentId", parent_id);
                                     ("parentType", parent_type)])]))).
    { subst first. unfold Manager.ensure_test_run_for_case, bind at 1.
      rewrite (find_test_run_listed _ _ _ _ _ _ Hget1).
      rewrite (find_run_in_first_match _ _ Hlisted), Hrun.
      change (Py.truthy PNone) with false. rewrite Hmissing.
      cbv beta iota delta [negb]. unfold bind at 1.
      rewrite (create_test_run_for_case_created parent_id parent_type test_case_id start
                 finish tc created
                 (Manager (_execution_statuses st) w1
                    (sent st ++ [runs_request parent_id parent_type])) w2 w3 Hcase Hpost).
      unfold bind, lift, ret. simpl Py.method_get. unfold Py.get_default.
      unfold Py.get_or_none in Hi.
      destruct (Py.get "id" created) as [v |]; [| discriminate].
      rewrite Hi. reflexivity. }
    assert (Hbound : bound_case created = test_case_id).
    { unfold bound_case, Py.get_or_none. rewrite Htc, Hpayload. reflexivity. }
    assert (Hmatch : run_matches test_case_id created = true).
    { unfold run_matches. rewrite Hbound. apply String.eqb_refl. }
    assert (Hruns1 : runs_of (platform first.2) = (runs_of (platform st) ++ [created])%list).
    { rewrite H1. simpl. rewrite Hruns3, Hsame2, Hsame1. reflexivity. }
    assert (Hlisted1 : forallb listed_run (runs_of (platform first.2)) = true).
    { rewrite Hruns1, forallb_app, Hlisted. simpl. rewrite Hnew. reflexivity. }
    assert (Hrun1 : find (run_matches test_case_id) (runs_of (platform first.2)) = Some created).
    { rewrite Hruns1.
      assert (G : forall l, find (run_matches test_case_id) l = None ->
                    find (run_matches test_case_id) (l ++ [created]) = Some created).
      { induction l as [| x l IHl]; simpl; [rewrite Hmatch; reflexivity |].
        destruct (run_matches test_case_id x); [discriminate | exact IHl]. }
      apply G. exact Hrun. }
    destruct (Hfound first.2 created Hlisted1 Hrun1) as (i' & s2 & Hi' & H2 & C2).
    rewrite Hi in Hi'. inversion Hi'; subst i'.
    exists i. subst second. rewrite H2. split; [rewrite H1; reflexivity |].
    split; [reflexivity |]. split; [| exact C2].
    exists created. auto.
Qed.

End Runs.

Lemma ensure_reuses_listed_run_witness :
  let request := runs_request (PInt 50) (PStr "test-suite") in
  Mock.suite (platform Mock.with_login_run) request
  = (Body (PList (map PDict [Mock.login_run])), Mock.World [Mock.login_run] 0)
  /\ find (run_matches (PStr "10")) [Mock.login_run] = Some Mock.login_run
  /\ Manager.ensure_test_run_for_case Mock.suite (PInt 50) (PStr "test-suite") (PStr "10")
       (PBool false) PNone PNone Mock.with_login_run
     = (Ret (PInt 500), Manager None (Mock.World [Mock.login_run] 0) [request]).
Proof.
  intros request. split; [reflexivity |]. split; [reflexivity |].
  apply (ensure_reuses_listed_run Mock.suite (PInt 50) (PStr "test-suite") (PStr "10")
           (PBool false) PNone PNone [Mock.login_run] Mock.login_run 500
           Mock.with_login_run (Mock.World [Mock.login_run] 0)
           eq_refl eq_refl eq_refl eq_refl).
Defined.

Lemma ensure_refuses_to_create_witness :
  let request := runs_request (PInt 50) (PStr "test-suite") in
  Mock.suite (platform Mock.with_login_run) request
  = (Body (PList [PDict Mock.login_run]), Mock.World [Mock.login_run] 0)
  /\ API.find_run_in [PDict Mock.login_run] (PInt 11) = Ret PNone
  /\ Manager.ensure_test_run_for_case Mock.suite (PInt 50) (PStr "test-suite") (PInt 11)
       (PBool false) PNone PNone Mock.with_login_run
     = (Raise (ValueError "No test run found for test case 11 under test-suite:50"),
        Manager None (Mock.World [Mock.login_run] 0) [request]).
Proof.
  intros request. split; [reflexivity |]. split; [reflexivity |].
  apply (ensure_refuses_to_create Mock.suite (PInt 50) (PStr "test-suite") (PInt 11)
           (PBool false) PNone PNone [PDict Mock.login_run] PNone
           Mock.with_login_run (Mock.World [Mock.login_run] 0)
           eq_refl eq_refl eq_refl eq_refl).
Defined.

Lemma suite_is_run_store :
  run_store Mock.suite (PInt 50) (PStr "test-suite") (PInt 11) Mock.cycles.
Proof.
  split.
  - intros w. exists w. split; reflexivity.
  - intros w. exists Mock.login, w. split; reflexivity.
  - intros w payload Hpayload. eexists. eexists. split; [reflexivity |].
    split; [reflexivity |]. split; [reflexivity |].
    unfold listed_run, Py.get_or_none. simpl. rewrite Hpayload. simpl.
    apply negb_true_iff, Z.eqb_neq. lia.
Qed.

Lemma ensure_run_twice_witness :
  run_store Mock.suite (PInt 50) (PStr "test-suite") (PInt 11) Mock.cycles
  /\ forallb listed_run (Mock.cycles (platform Mock.with_login_run)) = true
  /\ Py.truthy (PBool true) = true
  /\ exists i,
       (Manager.ensure_test_run_for_case Mock.suite (PInt 50) (PStr "test-suite") (PInt 11)
          (PBool true) PNone PNone Mock.with_login_run).1 = Ret (PInt i)
       /\ (Manager.ensure_test_run_for_case Mock.suite (PInt 50) (PStr "test-suite") (PInt 11)
             (PBool true) PNone PNone
             (Manager.ensure_test_run_for_case Mock.suite (PInt 50) (PStr "test-suite")
                (PInt 11) (PBool true) PNone PNone Mock.with_login_run).2).1 = Ret (PInt i).
Proof.
  split; [exact suite_is_run_store |]. split; [reflexivity |]. split; [reflexivity |].
  destruct (ensure_run_twice Mock.suite Mock.cycles (PInt 50) (PStr "test-suite") (PInt 11)
              (PBool true) PNone PNone Mock.with_login_run suite_is_run_store eq_refl eq_refl)
    as (i & H1 & H2 & _).
  exists i. split; [exact H1 | exact H2].
Defined.

Example ensure_run_ids :
  (Manager.ensure_test_run_for_case Mock.suite (PInt 50) (PStr "test-suite") (PInt 11)
     (PBool true) PNone PNone Mock.with_login_run).1 = Ret (PInt 501).
Proof. reflexivity. Qed.

(** ** The tokens of a keyword's test cases *)

Lemma rstrip_nonspace_end sp c : forall s,
  sp c = false ->
  Py.rstrip_by sp (s ++ String c "") = (s ++ String c "")%string.
Proof.
  intros s Hc. induction s as [| a s IH]; simpl.
  - rewrite Hc. reflexivity.
  - rewrite IH. destruct s; simpl; rewrite andb_false_r; reflexivity.
Qed.

Lemma append_empty s : (s ++ "")%string = s.
Proof. induction s as [| c s IH]; simpl; [| rewrite IH]; reflexivity. Qed.

Lemma rstrip_digits d : forall t,
  Py.rstrip_by Py.is_space (NilEmpty.string_of_uint d ++ t)
  = (NilEmpty.string_of_uint d ++ Py.rstrip_by Py.is_space t)%string.
Proof.
  induction d; intros t; simpl; try rewrite IHd; reflexivity.
Qed.

Lemma rstrip_number d :
  Py.rstrip_by Py.is_space (NilZero.string_of_uint d) = NilZero.string_of_uint d.
Proof.
  assert (H : forall u, Py.rstrip_by Py.is_space (NilEmpty.string_of_uint u)
                        = NilEmpty.string_of_uint u).
  { intros u. pose proof (rstrip_digits u "") as H. simpl in H.
    rewrite !append_empty in H. exact H. }
  destruct d; try reflexivity;
    match goal with |- context [NilZero.string_of_uint ?u] => exact (H u) end.
Qed.

Lemma strip_str_of_Z n : Py.str_of_Z n <> ""%string /\ Py.strip (Py.str_of_Z n) = Py.str_of_Z n.
Proof.
  unfold Py.str_of_Z, NilZero.string_of_int, Py.strip.
  destruct (Z.to_int n) as [d | d].
  - rewrite rstrip_number. destruct d; split; try discriminate; reflexivity.
  - split; [discriminate |]. simpl. rewrite rstrip_number. reflexivity.
Qed.

Lemma strip_braced (l r : ascii) s :
  Py.is_space l = false -> Py.is_space r = false ->
  Py.strip (String l (s ++ String r "")) = String l (s ++ String r "").
Proof.
  intros Hl Hr. unfold Py.strip.
  change (String l (s ++ String r "")) with ((String l s) ++ String r "")%string.
  rewrite (rstrip_nonspace_end _ _ _ Hr). simpl. rewrite Hl. reflexivity.
Qed.

Lemma lstrip_keeps_absent sp c : forall s,
  Py.mem_char c s = false -> Py.mem_char c (Py.lstrip_by sp s) = false.
Proof.
  induction s as [| a s IH]; simpl; [reflexivity |]. intros H.
  apply orb_false_elim in H. destruct H as [Ha Hs].
  destruct (sp a); [exact (IH Hs) |]. simpl. rewrite Ha, Hs. reflexivity.
Qed.

Lemma rstrip_keeps_absent sp c : forall s,
  Py.mem_char c s = false -> Py.mem_char c (Py.rstrip_by sp s) = false.
Proof.
  induction s as [| a s IH]; simpl; [reflexivity |]. intros H.
  apply orb_false_elim in H. destruct H as [Ha Hs].
  destruct (sp a && String.eqb (Py.rstrip_by sp s) ""); [reflexivity |].
  simpl. rewrite Ha, (IH Hs). reflexivity.
Qed.

Lemma split_pieces sep : forall s,
  Keywords.split sep s <> []
  /\ Forall (fun t => Py.mem_char sep t = false) (Keywords.split sep s).
Proof.
  induction s as [| c s [Hne IH]]; simpl.
  - split; [discriminate | repeat constructor].
  - destruct (Ascii.eqb c sep) eqn:Hc.
    + split; [discriminate |]. constructor; [reflexivity | exact IH].
    + destruct (Keywords.split sep s) as [| piece pieces]; [contradiction |].
      split; [discriminate |]. inversion IH; subst.
      constructor; [| assumption]. simpl.
      rewrite Ascii.eqb_sym, Hc. assumption.
Qed.

(** X19. Whatever a keyword is given as its test cases - a
    comma-separated string, a list, a single value - no token that
    [_normalize_tokens] returns is empty, none begins or ends with white
    space, and the tokens of a string hold no comma. *)
Theorem normalized_tokens_are_clean test_case_ids s :
  Forall (fun t => t <> ""%string /\ Py.strip t = t) (Keywords._normalize_tokens test_case_ids)
  /\ Forall (fun t => Py.mem_char "," t = false) (Keywords._normalize_tokens (PStr s)).
Proof.
  split.
  - destruct test_case_ids as [| b | n | t | l | d]; simpl.
    + repeat constructor; discriminate.
    + destruct b; repeat constructor; discriminate.
    + constructor; [| constructor]. destruct (strip_str_of_Z n) as [Hn Hs].
      rewrite Hs. split; [exact Hn | exact Hs].
    + apply Forall_map, List.Forall_forall. intros x Hx.
      apply filter_In in Hx. destruct Hx as [_ Hx].
      apply andb_prop in Hx. destruct Hx as [_ Hx].
      apply negb_true_iff, String.eqb_neq in Hx.
      split; [exact Hx | apply strip_idempotent].
    + apply Forall_map, List.Forall_forall. intros x Hx.
      apply filter_In in Hx. destruct Hx as [_ Hx].
      apply negb_true_iff, String.eqb_neq in Hx.
      split; [exact Hx | apply strip_idempotent].
    + constructor; [| constructor].
      rewrite (strip_braced "{" "}") by reflexivity.
      split; [discriminate | apply (strip_braced "{" "}"); reflexivity].
  - simpl. apply Forall_map, List.Forall_forall. intros x Hx.
    apply filter_In in Hx. destruct Hx as [Hx _].
    destruct (split_pieces "," s) as [_ Hall]. rewrite List.Forall_forall in Hall.
    apply lstrip_keeps_absent, rstrip_keeps_absent, Hall, Hx.
Qed.

Example normalize_tokens_ex :
  Keywords._normalize_tokens (PStr "12345, Login ,,Search,") = ["12345"; "Login"; "Search"]%string
  /\ Keywords._normalize_tokens (PList [PInt 7; PStr " "; PStr "Login "]) = ["7"; "Login"]%string
  /\ Keywords._normalize_tokens (PInt (-3)) = ["-3"]%string.
Proof. repeat split; reflexivity. Qed.

Section Tokens.
Context {World : Type} (transport : World -> request -> reply * World).

Lemma resolve_numeric_tokens fuel tokens : forall ids acc missing (st : manager World),
  map_res (fun tok => Py.int (PStr tok)) tokens = Ret ids ->
  Keywords.resolve_tokens transport fuel tokens acc missing st
  = (Ret ((acc ++ ids)%list, missing), st).
Proof.
  induction tokens as [| tok tokens IH]; intros ids acc missing st H.
  - inversion H. rewrite app_nil_r. reflexivity.
  - cbn [map_res Keywords.resolve_tokens] in *.
    destruct (Py.int (PStr tok)) as [id | e |]; try discriminate.
    cbn [and_then] in H.
    destruct (map_res _ tokens) as [rest | e |]; try discriminate.
    inversion H; subst ids.
    rewrite (IH rest (acc ++ [id])%list missing st eq_refl), <- app_assoc. reflexivity.
Qed.

(** X20. Tokens that all read as integers are taken as the ids they
    spell: [_resolve_tokens_to_ids] returns them in their order, reports
    nothing missing, and sends no request. *)
Theorem numeric_tokens_need_no_lookup fuel tokens ids (st : manager World) :
  map_res (fun tok => Py.int (PStr tok)) tokens = Ret ids ->
  Keywords._resolve_tokens_to_ids transport fuel tokens st = (Ret (ids, []), st).
Proof.
  intros H. unfold Keywords._resolve_tokens_to_ids.
  rewrite (resolve_numeric_tokens fuel tokens ids [] [] st H). reflexivity.
Qed.

Lemma resolve_tokens_partition fuel tokens :
  forall acc missing (st st' : manager World) ids missing',
  Keywords.resolve_tokens transport fuel tokens acc missing st = (Ret (ids, missing'), st') ->
  exists new_ids new_missing,
    ids = (acc ++ new_ids)%list /\ missing' = (missing ++ new_missing)%list
    /\ (length new_ids + length new_missing = length tokens)%nat
    /\ sublist new_missing tokens
    /\ Forall (fun tok => Py.parse_int tok = None) new_missing.
Proof.
  induction tokens as [| tok tokens IH]; intros acc missing st st' ids missing' H.
  - inversion H; subst. exists [], []. rewrite !app_nil_r.
    repeat split; auto; constructor.
  - cbn [Keywords.resolve_tokens] in H.
    destruct (Py.int (PStr tok)) as [id | e |] eqn:Hint; [| | discriminate].
    + apply IH in H. destruct H as (new_ids & new_missing & E1 & E2 & L & S & F).
      exists (id :: new_ids), new_missing. rewrite <- app_assoc in E1.
      repeat split; auto; [simpl; lia | apply sublist_cons; exact S].
    + assert (Hid : Py.parse_int tok = None).
      { unfold Py.int in Hint. destruct (Py.parse_int tok); [discriminate | reflexivity]. }
      unfold bind at 1 in H.
      destruct (try_except _ _ st) as [[tc_id | e' |] st1]; try discriminate.
      destruct (negb (Py.is_none tc_id)).
      * unfold bind at 1, lift in H.
        destruct (Py.int tc_id) as [id | e' |]; try discriminate.
        apply IH in H. destruct H as (new_ids & new_missing & E1 & E2 & L & S & F).
        exists (id :: new_ids), new_missing. rewrite <- app_assoc in E1.
        repeat split; auto; [simpl; lia | apply sublist_cons; exact S].
      * apply IH in H. destruct H as (new_ids & new_missing & E1 & E2 & L & S & F).
        exists new_ids, (tok :: new_missing). rewrite <- app_assoc in E2.
        repeat split; auto; [simpl; lia | apply sublist_skip; exact S].
Qed.

(** X21. [_resolve_tokens_to_ids] loses no token: when it returns, each
    token has given one id or is reported missing, the missing ones in
    the order they were given, and no token that reads as an integer is
    among them. *)
Theorem resolved_and_missing_partition fuel tokens ids missing (st st' : manager World) :
  Keywords._resolve_tokens_to_ids transport fuel tokens st = (Ret (ids, missing), st') ->
  (length ids + length missing = length tokens)%nat
  /\ sublist missing tokens
  /\ Forall (fun tok => Py.parse_int tok = None) missing.
Proof.
  intros H. apply resolve_tokens_partition in H.
  destruct H as (new_ids & new_missing & E1 & E2 & L & S & F).
  simpl in E1, E2. subst. auto.
Qed.

End Tokens.

Lemma numeric_tokens_need_no_lookup_witness :
  map_res (fun tok => Py.int (PStr tok)) ["12345"; "-7"; "1_000"]%string = Ret [12345; -7; 1000]
  /\ Keywords._resolve_tokens_to_ids Mock.unreachable 0 ["12345"; "-7"; "1_000"]%string Mock.fresh
     = (Ret ([12345; -7; 1000], []), Mock.fresh).
Proof.
  split; [reflexivity |].
  apply (numeric_tokens_need_no_lookup Mock.unreachable 0 ["12345"; "-7"; "1_000"]%string
           [12345; -7; 1000] Mock.fresh eq_refl).
Defined.

Lemma resolved_and_missing_partition_witness :
  let tokens := ["12345"; "Nowhere"; "login"; "TC-3"]%string in
  let ids := [12345; 10; 12] in
  let missing := ["Nowhere"%string] in
  exists st',
    Keywords._resolve_tokens_to_ids Mock.catalogue 5 tokens Mock.fresh = (Ret (ids, missing), st')
    /\ (length ids + length missing = length tokens)%nat
    /\ sublist missing tokens.
Proof.
  intros tokens ids missing. eexists. split; [reflexivity |].
  destruct (resolved_and_missing_partition Mock.catalogue 5 tokens ids missing Mock.fresh _
              eq_refl) as (L & S & _).
  split; [exact L | exact S].
Defined.

(** ** Approval of a test case *)

Lemma method_get_never_diverges v k default : Py.method_get v k default <> Diverge.
Proof. destruct v; discriminate. Qed.

Section Approval.
Context {World : Type} (transport : World -> request -> reply * World).

Lemma approve_numeric_case fuel test_case n v (st : manager World) w :
  Py.int (PStr (Py.strip (Py.str test_case))) = Ret n ->
  transport (platform st) (approval_request n) = (Body v, w) ->
  Keywords.approve_test_case_body transport fuel test_case st
  = Keywords.version_id_of transport (PInt n)
      (Manager (_execution_statuses st) w (sent st ++ [approval_request n])).
Proof.
  intros Hn Happrove. unfold approval_request in Happrove.
  unfold Keywords.approve_test_case_body, Keywords.case_id_of. rewrite Hn.
  unfold bind at 1, ret. cbv beta iota delta [Py.is_none].
  unfold Manager.approve_test_case, API.approve_test_case, bind, lift, API._make_request.
  cbv zeta. change (Py.int (PInt n)) with (Ret n). cbv beta iota.
  rewrite Happrove. reflexivity.
Qed.

Lemma version_id_of_returns n (st : manager World) :
  exists k st', Keywords.version_id_of transport (PInt n) st = (Ret (PInt k), st').
Proof.
  unfold Keywords.version_id_of, try_except, API.get_test_case, API._make_request, bind, lift,
    ret.
  cbv zeta. change (Py.int (PInt n)) with (Ret n).
  destruct (transport (platform st) _) as [[details | msg] w]; cbv beta iota; [| eauto].
  pose proof (method_get_never_diverges (Py.or_ details (PDict [])) "test_case_version_id"
                PNone) as Hdirect.
  destruct (Py.method_get (Py.or_ details (PDict [])) "test_case_version_id" PNone)
    as [direct | e |]; cbv beta iota; [| eauto | contradiction].
  assert (Hint : forall version_id (s : manager World),
            exists k s',
              match
                match Py.int (if Py.is_none version_id then PInt n else version_id) with
                | Ret a => (Ret (PInt a), s)
                | Raise e => (Raise e, s)
                | Diverge => (Diverge, s)
                end
              with
              | (Raise _, s1) => (Ret (PInt n), s1)
              | other => other
              end = (Ret (PInt k), s')).
  { intros version_id s. pose proof (int_never_diverges version_id) as Hd.
    destruct (Py.is_none version_id); [change (Py.int (PInt n)) with (Ret n); eauto |].
    destruct (Py.int version_id); eauto. contradiction. }
  destruct (Py.truthy direct); cbv beta iota; [apply Hint |].
  pose proof (method_get_never_diverges (Py.or_ details (PDict [])) "version" PNone)
    as Hversion.
  destruct (Py.method_get (Py.or_ details (PDict [])) "version" PNone)
    as [version | e |]; cbv beta iota; [| eauto | contradiction].
  pose proof (method_get_never_diverges (Py.or_ version (PDict [])) "id" PNone) as Hid.
  destruct (Py.method_get (Py.or_ version (PDict [])) "id" PNone)
    as [version_id | e |]; cbv beta iota; [apply Hint | eauto | contradiction].
Qed.

Lemma method_get_dict d k : Py.method_get (PDict d) k PNone = Ret (Py.get_or_none k d).
Proof. reflexivity. Qed.

Lemma or_empty_dict d : Py.or_ (PDict d) (PDict []) = PDict d.
Proof. destruct d; reflexivity. Qed.

Lemma version_fetch_failed n msg (st : manager World) w :
  transport (platform st) (case_request (PInt n)) = (Failure msg, w) ->
  (Keywords.version_id_of transport (PInt n) st).1 = Ret (PInt n).
Proof.
  intros Hfetch. unfold case_request in Hfetch.
  unfold Keywords.version_id_of, try_except, API.get_test_case, API._make_request, bind.
  cbv zeta. rewrite Hfetch. reflexivity.
Qed.

Lemma version_fetched n d (st : manager World) w :
  transport (platform st) (case_request (PInt n)) = (Body (PDict d), w) ->
  (forall m, Py.get_or_none "test_case_version_id" d = PInt m -> m <> 0 ->
     (Keywords.version_id_of transport (PInt n) st).1 = Ret (PInt m))
  /\ (Py.truthy (Py.get_or_none "test_case_version_id" d) = false ->
      Py.truthy (Py.get_or_none "version" d) = false ->
      (Keywords.version_id_of transport (PInt n) st).1 = Ret (PInt n)).
Proof.
  intros Hfetch. unfold case_request in Hfetch.
  unfold Keywords.version_id_of, try_except, API.get_test_case, API._make_request, bind, lift.
  cbv zeta. rewrite Hfetch. cbv beta iota. rewrite or_empty_dict.
  rewrite !method_get_dict. cbv beta iota.
  split.
  - intros m Hm Hne. rewrite Hm. simpl.
    destruct (m =? 0) eqn:E; [apply Z.eqb_eq in E; contradiction | reflexivity].
  - intros Hdirect Hversion. rewrite Hdirect. cbv beta iota.
    unfold Py.or_. rewrite Hversion. reflexivity.
Qed.

(** X22. [approve_qtest_test_case] on a case given by its number: once
    the platform has taken the approval, the keyword returns an integer
    whatever the request for the details brings. It is the case id
    itself when that request fails, or when the details hold neither a
    ['test_case_version_id'] nor a ['version'] that counts as true, and
    the ['test_case_version_id'] when that is a number other than 0. *)
Theorem approval_returns_a_version_id fuel test_case n v (st : manager World) w :
  Py.int (PStr (Py.strip (Py.str test_case))) = Ret n ->
  transport (platform st) (approval_request n) = (Body v, w) ->
  exists k,
    (Keywords.approve_qtest_test_case transport fuel test_case (Some st)).1
    = Keywords.Ran (Ret (PInt k))
    /\ (forall msg w', transport w (case_request (PInt n)) = (Failure msg, w') -> k = n)
    /\ (forall d w',
          transport w (case_request (PInt n)) = (Body (PDict d), w') ->
          (forall m, Py.get_or_none "test_case_version_id" d = PInt m -> m <> 0 -> k = m)
          /\ (Py.truthy (Py.get_or_none "test_case_version_id" d) = false ->
              Py.truthy (Py.get_or_none "version" d) = false -> k = n)).
Proof.
  intros Hn Happrove.
  unfold Keywords.approve_qtest_test_case, Keywords.initialized.
  rewrite (approve_numeric_case fuel test_case n v st w Hn Happrove).
  set (st1 := Manager (_execution_statuses st) w (sent st ++ [approval_request n])).
  destruct (version_id_of_returns n st1) as (k & st2 & Hk).
  exists k. rewrite Hk. split; [reflexivity |].
  assert (Hfst : (Keywords.version_id_of transport (PInt n) st1).1 = Ret (PInt k))
    by (rewrite Hk; reflexivity).
  split.
  - intros msg w' Hfetch.
    rewrite (version_fetch_failed n msg st1 w' Hfetch) in Hfst. congruence.
  - intros d w' Hfetch. destruct (version_fetched n d st1 w' Hfetch) as [Hdirect Habsent].
    split.
    + intros m Hm Hne. rewrite (Hdirect m Hm Hne) in Hfst. congruence.
    + intros H1 H2. rewrite (Habsent H1 H2) in Hfst. congruence.
Qed.

End Approval.

Lemma approval_returns_a_version_id_witness :
  Py.int (PStr (Py.strip (Py.str (PStr " 10 ")))) = Ret 10
  /\ (Keywords.approve_qtest_test_case Mock.suite 0 (PStr " 10 ") (Some Mock.with_login_run)).1
     = Keywords.Ran (Ret (PInt 10)).
Proof.
  split; [reflexivity |].
  destruct (approval_returns_a_version_id Mock.suite 0 (PStr " 10 ") 10 (PDict Mock.login)
              Mock.with_login_run (Mock.World [Mock.login_run] 0) eq_refl eq_refl)
    as (k & Hk & _ & Hfetched).
  destruct (Hfetched Mock.login (Mock.World [Mock.login_run] 0) eq_refl) as [_ Habsent].
  rewrite (Habsent eq_refl eq_refl) in Hk. exact Hk.
Defined.

(** ** Reporting a result through the keyword *)

Section Report.
Context {World : Type} (transport : World -> request -> reply * World).

Lemma terminates_try {A} (c : M World A) (h : exn -> M World A) :
  terminates c -> (forall e, terminates (h e)) -> terminates (try_except c h).
Proof.
  intros Hc Hh st. specialize (Hc st). unfold try_except.
  destruct (c st) as [[a | e |] st1]; simpl in *; try discriminate; [apply Hh | contradiction].
Qed.

Lemma raises_bind {A B} (c : M World A) (k : A -> M World B) :
  terminates c ->
  (forall a st, exists e, (k a st).1 = Raise e) ->
  forall st, exists e, (bind c k st).1 = Raise e.
Proof.
  intros Hc Hk st. specialize (Hc st). unfold bind.
  destruct (c st) as [[a | e |] st1]; simpl in *; [apply Hk | eauto | contradiction].
Qed.

Lemma status_mapping_never_diverges items : forall acc,
  Manager.status_mapping items acc <> Diverge.
Proof.
  induction items as [| item items IH]; intros acc; simpl; [discriminate |].
  destruct (Py.getitem item "name") as [name | e |] eqn:Hname; simpl; try discriminate.
  - destruct (Py.method_upper name) as [key | e |] eqn:Hkey; simpl; try discriminate.
    + destruct (Py.getitem item "id") as [id | e |] eqn:Hid; simpl; try discriminate;
        [apply IH |].
      destruct item as [| | | | | d]; try discriminate. simpl in Hid.
      unfold Py.subscript in Hid. destruct (Py.get "id" d); discriminate.
    + destruct name; discriminate.
  - destruct item as [| | | | | d]; try discriminate. simpl in Hname.
    unfold Py.subscript in Hname. destruct (Py.get "name" d); discriminate.
Qed.

Lemma get_execution_statuses_terminates :
  terminates (Manager.get_execution_statuses transport).
Proof.
  intros st. unfold Manager.get_execution_statuses.
  destruct (_execution_statuses st); [discriminate |].
  revert st. fold (terminates (World := World)
    (statuses <- API.get_execution_statuses transport ;;
     items <- lift (Py.iter statuses) ;;
     m <- lift (Manager.status_mapping items []) ;;
     Manager.set_execution_statuses m ;;;
     ret m)).
  apply terminates_bind; [apply terminates_request | intros statuses].
  apply terminates_bind; [apply terminates_lift, iter_never_diverges | intros items].
  apply terminates_bind; [apply terminates_lift, status_mapping_never_diverges | intros m].
  apply terminates_bind; [intros st; discriminate | intros _; apply terminates_ret].
Qed.

Lemma version_id_of_terminates tc_id : terminates (Keywords.version_id_of transport tc_id).
Proof.
  unfold Keywords.version_id_of. apply terminates_try.
  - apply terminates_bind; [apply terminates_request | intros details].
    apply terminates_bind; [apply terminates_lift, method_get_never_diverges | intros direct].
    apply terminates_bind.
    + destruct (Py.truthy direct); [apply terminates_ret |].
      apply terminates_bind; [apply terminates_lift, method_get_never_diverges | intros v].
      apply terminates_lift, method_get_never_diverges.
    + intros version_id.
      apply terminates_bind; [apply terminates_lift, int_never_diverges | intros id].
      apply terminates_ret.
  - intros e. apply terminates_bind; [apply terminates_lift, int_never_diverges | intros id].
    apply terminates_ret.
Qed.

Lemma approve_numeric_terminates fuel test_case n :
  Py.int (PStr (Py.strip (Py.str test_case))) = Ret n ->
  terminates (Keywords.approve_test_case_body transport fuel test_case).
Proof.
  intros Hn. unfold Keywords.approve_test_case_body, Keywords.case_id_of. rewrite Hn.
  apply terminates_bind; [apply terminates_ret | intros tc_id].
  destruct (Py.is_none tc_id); [apply terminates_raise |].
  apply terminates_bind; [| intros _; apply version_id_of_terminates].
  unfold Manager.approve_test_case.
  apply terminates_bind; [apply terminates_lift, int_never_diverges | intros id].
  apply terminates_request.
Qed.

Lemma approve_issues fuel test_case :
  issues (fun req => meth req <> POST) (Keywords.approve_test_case_body transport fuel test_case).
Proof.
  unfold Keywords.approve_test_case_body.
  apply issues_bind.
  - unfold Keywords.case_id_of.
    destruct (Py.int (PStr (Py.strip (Py.str test_case))));
      [apply issues_ret | | apply issues_lift].
    unfold Manager.get_test_case_id_by_name.
    eapply issues_weaken; [| apply find_test_case_issues].
    intros r Hr. rewrite Hr. discriminate.
  - intros tc_id _ _. destruct (Py.is_none tc_id); [apply issues_raise |].
    apply issues_bind.
    + unfold Manager.approve_test_case.
      apply issues_bind; [apply issues_lift | intros id _ _].
      apply issues_request. discriminate.
    + intros _ _ _. unfold Keywords.version_id_of. apply issues_try.
      * apply issues_bind; [apply issues_request; discriminate | intros details _ _].
        apply issues_bind; [apply issues_lift | intros direct _ _].
        apply issues_bind.
        -- destruct (Py.truthy direct); [apply issues_ret |].
           apply issues_bind; [apply issues_lift | intros v _ _]. apply issues_lift.
        -- intros version_id _ _.
           apply issues_bind; [apply issues_lift | intros id _ _]. apply issues_ret.
      * intros e. apply issues_bind; [apply issues_lift | intros id _ _]. apply issues_ret.
Qed.

Lemma update_without_logs_raises test_run_id test_case_id (status : string) steplogs
    version note time defects start finish e :
  Py.getitem steplogs "logs" = Raise e ->
  forall st : manager World,
    exists e',
      (Manager.update_test_result transport test_run_id test_case_id (PStr status)
         (Some steplogs) version note time defects start finish st).1 = Raise e'.
Proof.
  intros Hlogs. unfold Manager.update_test_result.
  apply raises_bind; [apply get_execution_statuses_terminates | intros statuses].
  apply raises_bind; [apply terminates_lift; discriminate | intros status_upper].
  destruct (negb (Py.contains status_upper statuses)); [intros st; eexists; reflexivity |].
  apply raises_bind; [apply terminates_lift, test_log_data_never_diverges | intros d].
  intros st. unfold bind, lift. rewrite Hlogs. eexists; reflexivity.
Qed.

Lemma get_execution_statuses_issues :
  issues (fun req => meth req <> POST) (Manager.get_execution_statuses transport).
Proof.
  intros st. destruct (get_execution_statuses_requests transport st) as [H | H].
  - exists []. rewrite H, app_nil_r. auto.
  - exists [statuses_request]. rewrite H. split; [reflexivity |].
    constructor; [discriminate | constructor].
Qed.

Lemma update_without_logs_issues test_run_id test_case_id status steplogs
    version note time defects start finish e :
  Py.getitem steplogs "logs" = Raise e ->
  issues (fun req => meth req <> POST)
    (Manager.update_test_result transport test_run_id test_case_id status
       (Some steplogs) version note time defects start finish).
Proof.
  intros Hlogs. unfold Manager.update_test_result.
  apply issues_bind; [apply get_execution_statuses_issues | intros statuses _ _].
  apply issues_bind; [apply issues_lift | intros status_upper _ _].
  destruct (negb (Py.contains status_upper statuses)); [apply issues_raise |].
  apply issues_bind; [apply issues_lift | intros d _ _].
  apply issues_bind; [apply issues_lift | intros logs st Hret].
  unfold lift in Hret. simpl in Hret. rewrite Hlogs in Hret. discriminate.
Qed.

(** X23. A result reported without step logs to read never reaches the
    platform. When [steplogs['logs']] raises - [steplogs] left at its
    default [None], a text, a list, a dict without ['logs'] - the keyword
    [report_qtest_result], for a case given by its number, returns [None]
    and raises nothing, whatever the status and whatever the platform
    answers; among the requests it has issued by then (the approval, the
    details of the case, the statuses) there is no [POST], so no test log
    is submitted. *)
Theorem report_needs_step_logs fuel test_run_id test_case_id status steplogs message
    execution_time start finish n e (st : manager World) :
  Py.int (PStr (Py.strip (Py.str test_case_id))) = Ret n ->
  Py.getitem steplogs "logs" = Raise e ->
  let out :=
    Keywords.report_qtest_result transport fuel test_run_id test_case_id status steplogs
      message execution_time start finish (Some st) in
  out.1 = Keywords.Ran (Ret PNone)
  /\ exists st' new,
       out.2 = Some st' /\ sent st' = (sent st ++ new)%list
       /\ Forall (fun req => meth req <> POST) new.
Proof.
  intros Hn Hlogs out. subst out.
  unfold Keywords.report_qtest_result, Keywords.initialized.
  set (body :=
    (testcaseversionid <- Keywords.approve_test_case_body transport fuel test_case_id ;;
     run <- lift (Py.int test_run_id) ;;
     case <- lift (Py.int test_case_id) ;;
     status_upper <- lift (Py.method_upper status) ;;
     ms <- lift (Keywords.execution_time_of execution_time) ;;
     Manager.update_test_result transport (PInt run) (PInt case) (PStr status_upper)
       (Some steplogs) testcaseversionid message ms PNone start finish)).
  assert (Hraises : forall s, exists e', (body s).1 = Raise e').
  { subst body.
    apply raises_bind; [apply (approve_numeric_terminates fuel test_case_id n Hn) | intros v].
    apply raises_bind; [apply terminates_lift, int_never_diverges | intros run].
    apply raises_bind; [apply terminates_lift, int_never_diverges | intros case].
    apply raises_bind; [apply terminates_lift; destruct status; discriminate | intros name].
    apply raises_bind.
    - apply terminates_lift. unfold Keywords.execution_time_of.
      destruct (Py.truthy execution_time); [| discriminate].
      pose proof (int_never_diverges execution_time) as Hd.
      destruct (Py.int execution_time); simpl; try discriminate. contradiction.
    - intros ms. apply (update_without_logs_raises _ _ _ _ _ _ _ _ _ _ e Hlogs). }
  assert (Hissues : issues (fun req => meth req <> POST)
                      (try_except body (fun _ => ret PNone))).
  { apply issues_try; [| intros e'; apply issues_ret]. subst body.
    apply issues_bind; [apply approve_issues | intros v _ _].
    apply issues_bind; [apply issues_lift | intros run _ _].
    apply issues_bind; [apply issues_lift | intros case _ _].
    apply issues_bind; [apply issues_lift | intros name _ _].
    apply issues_bind; [apply issues_lift | intros ms _ _].
    apply (update_without_logs_issues _ _ _ _ _ _ _ _ _ _ e Hlogs). }
  destruct (Hissues st) as (new & Hsent & Hnew).
  destruct (Hraises st) as [e' He'].
  unfold try_except in *. destruct (body st) as [[v | e0 |] st1]; simpl in He'; try discriminate.
  simpl in *. split; [reflexivity |]. exists st1, new. auto.
Qed.

End Report.

Lemma report_needs_step_logs_witness :
  let out :=
    Keywords.report_qtest_result Mock.transport 0 (PInt 100) (PInt 10) (PStr "passed") PNone
      (PStr "") (PInt 0) PNone PNone (Some Mock.fresh) in
  out.1 = Keywords.Ran (Ret PNone)
  /\ exists st' new,
       out.2 = Some st' /\ sent st' = (sent Mock.fresh ++ new)%list
       /\ Forall (fun req => meth req <> POST) new.
Proof.
  exact (report_needs_step_logs Mock.transport 0 (PInt 100) (PInt 10) (PStr "passed") PNone
           (PStr "") (PInt 0) PNone PNone 10 _ Mock.fresh eq_refl eq_refl).
Defined.

(** With step logs to read, the same report goes through. *)
Example report_with_step_logs :
  (Keywords.report_qtest_result Mock.transport 0 (PInt 100) (PInt 10) (PStr "passed")
     (PDict [("logs", PList [])]) (PStr "") (PInt 0) PNone PNone (Some Mock.fresh)).1
  = Keywords.Ran (Ret (PDict [("id", PInt 204)])).
Proof. reflexivity. Qed.

(** ** The payload of a step log *)

Section StepLogPayload.
Context {World : Type} (transport : World -> request -> reply * World).

Lemma with_step_id_outcome testcaseid order payload (lib : option (manager World)) :
  exists lib',
    (Library.with_step_id transport testcaseid order payload lib = (Ret payload, lib')
     \/ exists id,
          Library.with_step_id transport testcaseid order payload lib
          = (Ret (Py.set "test_step_id" (PInt id) payload), lib'))
    /\ (lib = None \/ Py.truthy testcaseid = false ->
        Library.with_step_id transport testcaseid order payload lib = (Ret payload, lib)).
Proof.
  unfold Library.with_step_id. destruct lib as [mgr |]; [| eauto 6].
  destruct (Py.truthy testcaseid) eqn:Ht.
  - destruct (Py.int testcaseid) as [case | e |].
    + destruct (Manager.get_test_step_id_by_order transport (PInt case) (PInt order) mgr)
        as [[step_id | e |] mgr'].
      * destruct (Py.is_none step_id).
        -- exists (Some mgr'). split; [auto | intros [H | H]; discriminate].
        -- destruct (Py.int step_id) as [id | e |];
             exists (Some mgr'); (split; [eauto | intros [H | H]; discriminate]).
      * exists (Some mgr'). split; [auto | intros [H | H]; discriminate].
      * exists (Some mgr'). split; [auto | intros [H | H]; discriminate].
    + exists (Some mgr). split; [auto | intros [H | H]; discriminate].
    + exists (Some mgr). split; [auto | intros [H | H]; discriminate].
  - exists (Some mgr). auto.
Qed.

Lemma step_log_fields testcaseid step_number result actual expected description
    (lib lib' : option (manager World)) payload :
  Library.create_qtest_test_step_log transport testcaseid step_number result actual
    expected description lib = (Ret payload, lib') ->
  let name := Py.upper (Py.strip (Py.str result)) in
  Py.get "status" payload
  = Some (PDict [("id", Py.get_default name (PInt 0) Library.statusname_ids);
                 ("name", PStr name)])
  /\ Py.get "actual_result" payload = Some (Py.or_ actual (PStr ""))
  /\ Py.get "expected_result" payload = (if Py.is_none expected then None else Some expected)
  /\ Py.get "description" payload = (if Py.is_none description then None else Some description)
  /\ (forall v, Py.get "test_step_id" payload = Some v -> exists id, v = PInt id)
  /\ (lib = None \/ Py.truthy testcaseid = false ->
      Py.get "test_step_id" payload = None /\ lib' = lib).
Proof.
  intros H name. unfold Library.create_qtest_test_step_log in H.
  destruct (Py.int (PStr (Py.strip (Py.str step_number)))) as [order | e |]; try discriminate.
  fold name in H. destruct (String.eqb name ""); [discriminate |]. cbv zeta in H.
  set (base := Manager.set_if (negb (Py.is_none description)) "description" description
                 (Manager.set_if (negb (Py.is_none expected)) "expected_result" expected
                    [("status",
                      PDict [("id", Py.get_default name (PInt 0) Library.statusname_ids);
                             ("name", PStr name)]);
                     ("actual_result", Py.or_ actual (PStr ""))])) in *.
  assert (Hbase : Py.get "status" base
                  = Some (PDict [("id", Py.get_default name (PInt 0) Library.statusname_ids);
                                 ("name", PStr name)])
                  /\ Py.get "actual_result" base = Some (Py.or_ actual (PStr ""))
                  /\ Py.get "expected_result" base
                     = (if Py.is_none expected then None else Some expected)
                  /\ Py.get "description" base
                     = (if Py.is_none description then None else Some description)
                  /\ Py.get "test_step_id" base = None).
  { subst base.
    destruct (Py.is_none expected), (Py.is_none description); repeat split; reflexivity. }
  destruct Hbase as (B1 & B2 & B3 & B4 & B5).
  destruct (with_step_id_outcome testcaseid order base lib) as (lib1 & Hout & Hnone).
  destruct Hout as [Hout | [id Hout]]; rewrite Hout in H; inversion H; subst payload lib'.
  - repeat split; auto.
    + intros v Hv. congruence.
    + apply Hnone in H0. congruence.
  - rewrite !get_set_ne by discriminate. rewrite get_set_eq.
    repeat split; auto.
    + intros v Hv. inversion Hv. eauto.
    + apply Hnone in H0. rewrite Hout in H0. inversion H0.
      exfalso. assert (G : Py.get "test_step_id" base = Some (PInt id))
        by (rewrite <- H2 at 1; apply get_set_eq). congruence.
    + apply Hnone in H0. rewrite Hout in H0. inversion H0. reflexivity.
Qed.

(** X24. Resolving the step id cannot fail a step log. Given a step
    number that reads as an integer and a result that is not blank,
    [create_qtest_test_step_log] returns a payload whatever the platform
    answers: it names the upper-cased, stripped result as its status and
    holds the actual result (or [""]); a ['test_step_id'], when there is
    one, is an integer, and there is none - and no request is made - when
    the library has no manager or [testcaseid] counts as false. *)
Theorem step_log_survives_resolution testcaseid step_number result actual expected
    description (lib : option (manager World)) order :
  Py.int (PStr (Py.strip (Py.str step_number))) = Ret order ->
  Py.upper (Py.strip (Py.str result)) <> ""%string ->
  exists payload lib',
    Library.create_qtest_test_step_log transport testcaseid step_number result actual
      expected description lib = (Ret payload, lib')
    /\ Py.get "status" payload
       = Some (PDict [("id", Py.get_default (Py.upper (Py.strip (Py.str result))) (PInt 0)
                              Library.statusname_ids);
                      ("name", PStr (Py.upper (Py.strip (Py.str result))))])
    /\ Py.get "actual_result" payload = Some (Py.or_ actual (PStr ""))
    /\ (forall v, Py.get "test_step_id" payload = Some v -> exists id, v = PInt id)
    /\ (lib = None \/ Py.truthy testcaseid = false ->
        Py.get "test_step_id" payload = None /\ lib' = lib).
Proof.
  intros Horder Hname.
  assert (Hret : exists payload lib',
            Library.create_qtest_test_step_log transport testcaseid step_number result actual
              expected description lib = (Ret payload, lib')).
  { unfold Library.create_qtest_test_step_log. rewrite Horder.
    apply String.eqb_neq in Hname. rewrite Hname. cbv zeta.
    match goal with
    | |- context [Library.with_step_id transport testcaseid order ?base lib] =>
        destruct (with_step_id_outcome testcaseid order base lib) as (lib1 & [H | [id H]] & _);
        rewrite H; eauto
    end. }
  destruct Hret as (payload & lib' & Hret). exists payload, lib'.
  split; [exact Hret |].
  destruct (step_log_fields _ _ _ _ _ _ _ _ _ Hret) as (F1 & F2 & _ & _ & F5 & F6). auto.
Qed.

(** X25. The module-level [create_qtest_test_step_log] hands its
    arguments to the method one place to the left. What the caller gives
    as the result is read as the step number, so a result that is no
    integer ("PASSED") raises [ValueError] "Invalid step number: ..."
    naming it; and in a payload that is returned the status is the
    caller's actual result, the actual result the caller's expected
    result, the expected result the caller's description, and there is
    no description. *)
Theorem step_log_wrapper_shifts_arguments step_number result actual expected description
    (lib : option (manager World)) :
  let out :=
    Keywords.create_qtest_test_step_log transport step_number result actual expected
      description lib in
  (Py.parse_int (Py.strip (Py.str result)) = None ->
   out = (Raise (ValueError ("Invalid step number: " ++ Py.str result)), lib))
  /\ (forall payload lib',
        out = (Ret payload, lib') ->
        Py.get "status" payload
        = Some (PDict [("id", Py.get_default (Py.upper (Py.strip (Py.str actual))) (PInt 0)
                               Library.statusname_ids);
                       ("name", PStr (Py.upper (Py.strip (Py.str actual))))])
        /\ Py.get "actual_result" payload = Some (Py.or_ expected (PStr ""))
        /\ Py.get "expected_result" payload
           = (if Py.is_none description then None else Some description)
        /\ Py.get "description" payload = None).
Proof.
  intros out. subst out. unfold Keywords.create_qtest_test_step_log. split.
  - intros Hresult. unfold Library.create_qtest_test_step_log, Py.int.
    rewrite Hresult. reflexivity.
  - intros payload lib' Hret.
    destruct (step_log_fields _ _ _ _ _ _ _ _ _ Hret) as (F1 & F2 & F3 & F4 & _). auto.
Qed.

End StepLogPayload.

Lemma step_log_survives_resolution_witness :
  exists payload,
    (Library.create_qtest_test_step_log Mock.unreachable (PInt 10) (PStr " 2 ") (PStr "failed")
       (PStr "") PNone PNone (Some Mock.fresh)).1 = Ret payload
    /\ Py.get "status" payload = Some (PDict [("id", PInt 602); ("name", PStr "FAILED")])
    /\ Py.get "actual_result" payload = Some (PStr "").
Proof.
  destruct (step_log_survives_resolution Mock.unreachable (PInt 10) (PStr " 2 ") (PStr "failed")
              (PStr "") PNone PNone (Some Mock.fresh) 2 eq_refl)
    as (payload & lib' & Hret & Hstatus & Hactual & _); [discriminate |].
  exists payload. rewrite Hret. split; [reflexivity |]. split; [exact Hstatus | exact Hactual].
Defined.

(** The call of the keyword's own documentation,
    [Create QTest Test Step Log | 1 | PASSED | Actual ok], and one that
    gets through. *)
Example step_log_wrapper_calls :
  Keywords.create_qtest_test_step_log Mock.transport (PStr "1") (PStr "PASSED")
    (PStr "Actual ok") PNone PNone (Some Mock.fresh)
  = (Raise (ValueError "Invalid step number: PASSED"), Some Mock.fresh)
  /\ (Keywords.create_qtest_test_step_log Mock.transport PNone (PStr "1") (PStr "passed")
        (PStr "Actual ok") (PStr "Expected ok") (Some Mock.fresh)).1
     = Ret [("status", PDict [("id", PInt 601); ("name", PStr "PASSED")]);
            ("actual_result", PStr "Actual ok");
            ("expected_result", PStr "Expected ok")].
Proof. split; reflexivity. Qed.

(** ** The bulk report through the keyword *)

Section BulkReport.
Context {World : Type} (transport : World -> request -> reply * World).

Lemma bulk_loop_aborts test_run_id items : forall results (st : manager World),
  forallb carries_test_case_id items = false ->
  exists e, Manager.bulk_loop transport test_run_id items results st = (Raise e, st).
Proof.
  induction items as [| item items IH]; intros results st Hsome; [discriminate |].
  simpl in Hsome. cbn [Manager.bulk_loop]. unfold bind at 1. unfold try_except.
  destruct (carries_test_case_id item) eqn:Hitem.
  - rewrite (bulk_item_fails transport _ _ _ Hitem), (bulk_failed_entry _ _ _ Hitem).
    apply IH. exact Hsome.
  - assert (Hget : exists e, Py.getitem item "test_case_id" = Raise e).
    { destruct item as [| | | | | d]; simpl; eauto.
      simpl in Hitem. unfold Py.contains in Hitem. unfold Py.subscript.
      destruct (Py.get "test_case_id" d); [discriminate | eauto]. }
    destruct Hget as [e Hget].
    unfold Manager.bulk_item, Manager.bulk_failed, bind, lift. rewrite Hget. eauto.
Qed.

(** X26. The bulk keyword keeps all the records or none.
    [bulk_report_qtest_results] never raises once the library is
    initialised and the run id reads as an integer: when every item
    carries a ['test_case_id'] it returns one error record per item (no
    item is submitted, [steplogs] being missing); when one item does not,
    the exception that leaves the manager's loop is caught and the
    keyword returns the empty list, the records of the items before it
    included. No request is sent either way. *)
Theorem bulk_report_all_or_nothing test_run_id run items (st : manager World) :
  Py.int test_run_id = Ret run ->
  Keywords.bulk_report_qtest_results transport test_run_id items (Some st)
  = (Keywords.Ran
       (Ret (PList (if forallb carries_test_case_id items
                    then map failed_entry items else []))),
     Some st).
Proof.
  intros Hrun. unfold Keywords.bulk_report_qtest_results, Keywords.initialized.
  unfold try_except, bind at 1, lift. rewrite Hrun.
  destruct (forallb carries_test_case_id items) eqn:Hall.
  - assert (Hitems : Forall (fun item => carries_test_case_id item = true) items).
    { apply List.Forall_forall. intros item Hin.
      rewrite forallb_forall in Hall. apply Hall. exact Hin. }
    unfold bind. rewrite (bulk_update_all_fail transport (PInt run) items st Hitems).
    reflexivity.
  - destruct (bulk_loop_aborts (PInt run) items [] st Hall) as [e He].
    unfold bind, Manager.bulk_update_test_results, bind. rewrite He. reflexivity.
Qed.

End BulkReport.

Lemma bulk_report_all_or_nothing_witness :
  Keywords.bulk_report_qtest_results Mock.transport (PStr "100")
    (two_results ++ [PDict [("status", PStr "PASSED")]]) (Some Mock.fresh)
  = (Keywords.Ran (Ret (PList [])), Some Mock.fresh)
  /\ exists first second,
       Keywords.bulk_report_qtest_results Mock.transport (PStr "100") two_results
         (Some Mock.fresh)
       = (Keywords.Ran (Ret (PList [first; second])), Some Mock.fresh).
Proof.
  split.
  - exact (bulk_report_all_or_nothing Mock.transport (PStr "100") 100
             (two_results ++ [PDict [("status", PStr "PASSED")]]) Mock.fresh eq_refl).
  - eexists. eexists.
    exact (bulk_report_all_or_nothing Mock.transport (PStr "100") 100 two_results Mock.fresh
             eq_refl).
Defined.

(** ** Results parsed from a dict *)

(** X27. [parse_test_results_from_dict], on a dict whose keys read as
    integers and whose values are dicts, returns one result per entry,
    in the order of the entries; each result holds exactly the keys
    test_case_id, status, note, execution_time and defects, its
    ['test_case_id'] being the key of its entry as an integer, so that
    every result is an item the bulk update takes. *)
Theorem parsed_results_shape results_dict :
  Forall (fun kv => Py.parse_int kv.1 <> None /\ exists d, kv.2 = PDict d) results_dict ->
  exists test_results,
    Helpers.parse_test_results_from_dict results_dict = Ret test_results
    /\ length test_results = length results_dict
    /\ Forall (fun item =>
                 exists fields,
                   item = PDict fields
                   /\ Py.keys fields
                      = ["test_case_id"; "status"; "note"; "execution_time"; "defects"]%string)
         test_results
    /\ map_res (fun item => Py.getitem item "test_case_id") test_results
       = map_res (fun kv => id <~ Py.int (PStr kv.1) ;; Ret (PInt id)) results_dict
    /\ Forall (fun item => carries_test_case_id item = true) test_results.
Proof.
  induction results_dict as [| [key result] rest IH]; intros Hall.
  - exists []. repeat split; constructor.
  - inversion Hall as [| ? ? [Hkey [d Hd]] Hrest]; subst. simpl in Hkey, Hd. subst result.
    destruct (IH Hrest) as (parsed & Hparsed & Hlen & Hkeys & Hids & Hcarry).
    cbn [Helpers.parse_test_results_from_dict]. unfold Py.int at 1.
    destruct (Py.parse_int key) as [id |] eqn:Hid; [| contradiction].
    cbn [and_then Py.method_get]. rewrite Hparsed. cbn [and_then].
    eexists. split; [reflexivity |]. split; [simpl; rewrite Hlen; reflexivity |].
    split; [constructor; [eexists; split; reflexivity | exact Hkeys] |].
    split; [| constructor; [reflexivity | exact Hcarry]].
    cbn [map_res]. rewrite Hids. cbn [fst]. unfold Py.int at 2. rewrite Hid. reflexivity.
Qed.

Lemma parsed_results_shape_witness :
  let results_dict :=
    [("10"%string, PDict [("status", PStr "FAILED"); ("note", PStr "timeout")]);
     ("11"%string, PDict [])] in
  Helpers.parse_test_results_from_dict results_dict
  = Ret [PDict [("test_case_id", PInt 10); ("status", PStr "FAILED"); ("note", PStr "timeout");
                ("execution_time", PInt 0); ("defects", PList [])];
         PDict [("test_case_id", PInt 11); ("status", PStr "PASSED"); ("note", PStr "");
                ("execution_time", PInt 0); ("defects", PList [])]]
  /\ exists test_results,
       Helpers.parse_test_results_from_dict results_dict = Ret test_results
       /\ Forall (fun item => carries_test_case_id item = true) test_results.
Proof.
  intros results_dict. split; [reflexivity |].
  assert (Hall : Forall (fun kv => Py.parse_int kv.1 <> None /\ exists d, kv.2 = PDict d)
                   results_dict).
  { repeat constructor; try discriminate; eexists; reflexivity. }
  destruct (parsed_results_shape results_dict Hall) as (l & Hl & _ & _ & _ & Hcarry).
  exists l. split; [exact Hl | exact Hcarry].
Defined.

(** ** The client's base URL and credentials *)

Lemma rstrip_ends sp : forall s,
  Py.rstrip_by sp s = ""%string
  \/ exists body c, Py.rstrip_by sp s = (body ++ String c "")%string /\ sp c = false.
Proof.
  induction s as [| a s IH]; simpl; [left; reflexivity |].
  destruct IH as [IH | (body & c & IH & Hc)]; rewrite IH; simpl.
  - rewrite andb_true_r. destruct (sp a) eqn:Ha; [left; reflexivity |].
    right. exists ""%string, a. auto.
  - right. assert (E : String.eqb (body ++ String c "") "" = false)
      by (destruct body; reflexivity).
    rewrite E, andb_false_r. exists (String a body), c. auto.
Qed.

(** X28. What [QTestAPI.__init__] keeps of its arguments. The base URL
    loses every trailing slash: what is kept is empty or ends with a
    character other than [/], and stripping it again changes nothing.
    The [Authorization] header made of a text token is empty or begins
    with "bearer " up to letter case, and a header given as the token
    comes back as it is: the prefix is never added twice. *)
Theorem init_normalizes_url_and_token url token :
  (QTestAPI.base_url url = ""%string
   \/ exists body c,
        QTestAPI.base_url url = (body ++ String c "")%string /\ c <> "/"%char)
  /\ QTestAPI.base_url (QTestAPI.base_url url) = QTestAPI.base_url url
  /\ exists header,
       QTestAPI.authorization (PStr token) = Ret (PStr header)
       /\ (header = ""%string \/ Py.prefix "bearer " (Py.lower header) = true)
       /\ QTestAPI.authorization (PStr header) = Ret (PStr header).
Proof.
  split; [| split].
  - unfold QTestAPI.base_url.
    destruct (rstrip_ends (fun c => Ascii.eqb c "/") url) as [H | (body & c & H & Hc)];
      [left; exact H |].
    right. exists body, c. split; [exact H |]. apply Ascii.eqb_neq. exact Hc.
  - apply rstrip_idempotent.
  - assert (Hkept : forall s,
              String.eqb s "" = false -> Py.prefix "bearer " (Py.lower s) = true ->
              QTestAPI.authorization (PStr s) = Ret (PStr s)).
    { intros s Hs Hp. unfold QTestAPI.authorization, Py.or_. cbv zeta.
      change (Py.truthy (PStr s)) with (negb (String.eqb s "")). rewrite Hs.
      cbv beta iota delta [negb].
      change (Py.truthy (PStr s)) with (negb (String.eqb s "")). rewrite Hs.
      cbv beta iota delta [negb]. rewrite Hp. reflexivity. }
    destruct (String.eqb token "") eqn:Hempty.
    + apply String.eqb_eq in Hempty. subst token. exists ""%string.
      split; [reflexivity |]. split; [left; reflexivity | reflexivity].
    + destruct (Py.prefix "bearer " (Py.lower token)) eqn:Hprefix.
      * exists token. rewrite (Hkept token Hempty Hprefix). auto.
      * exists ("Bearer " ++ token)%string. split; [| split; [right |]; reflexivity].
        unfold QTestAPI.authorization, Py.or_. cbv zeta.
        change (Py.truthy (PStr token)) with (negb (String.eqb token "")). rewrite Hempty.
        cbv beta iota delta [negb].
        change (Py.truthy (PStr token)) with (negb (String.eqb token "")). rewrite Hempty.
        cbv beta iota delta [negb]. rewrite Hprefix. reflexivity.
Qed.

Example init_ex :
  QTestAPI.base_url "https://test.qtestnet.com//" = "https://test.qtestnet.com"%string
  /\ QTestAPI.authorization (PStr "test-token-123") = Ret (PStr "Bearer test-token-123")
  /\ QTestAPI.authorization (PStr "BEARER abc") = Ret (PStr "BEARER abc")
  /\ QTestAPI.authorization PNone = Ret (PStr "")
  /\ QTestAPI.url (QTestAPI.base_url "https://test.qtestnet.com/") (PInt 12345) "test-runs"
     = "https://test.qtestnet.com/api/v3/projects/12345/test-runs"%string.
Proof. repeat split; reflexivity. Qed.
